(** * TensorDeviceGpu.h: the GPU device abstraction of Eigen's Tensor module

    A shallow embedding of
    [unsupported/Eigen/CXX11/src/Tensor/TensorDeviceGpu.h]: the device
    property cache ([initializeDeviceProp]), the concrete stream device
    ([GpuStreamDevice]) and the device facade ([GpuDevice]).

    The header is one text whose meaning depends on preprocessor symbols;
    they are the fields of [Config].  The vendor runtime (CUDA or HIP) is
    not part of the header: it is an arbitrary [Runtime], and every theorem
    below holds for all of them unless it names an assumption. *)

From Stdlib Require Import ZArith Lia.
From stdpp Require Import base option list gmap strings pretty.

(** ** Vendor-neutral names (lines 13-64) *)

(** [gpuError_t]: the two sentinels the header tests for, and every other
    status of the vendor runtime. *)
Inductive gpuError_t :=
| gpuSuccess
| gpuErrorNotReady
| gpuErrorOther (code : positive).

#[global] Instance gpuError_t_eq_dec : EqDecision gpuError_t.
Proof. solve_decision. Defined.

(** [status == gpuSuccess] *)
Definition is_success (e : gpuError_t) : bool := bool_decide (e = gpuSuccess).

(** Device and host addresses; [NULL] is address 0. *)
Definition pointer := N.
Definition NULL : pointer := 0%N.

(** [gpuStream_t]: an opaque stream handle. *)
Definition gpuStream_t := N.
Definition gpuStreamDefault : gpuStream_t := 0%N.
#[global] Typeclasses Transparent pointer gpuStream_t.

Inductive gpuMemcpyKind :=
| gpuMemcpyDeviceToDevice
| gpuMemcpyDeviceToHost
| gpuMemcpyHostToDevice.

#[global] Instance gpuMemcpyKind_eq_dec : EqDecision gpuMemcpyKind.
Proof. solve_decision. Defined.

(** The fields of [gpuDeviceProp_t] the header reads.  In both vendors'
    records [sharedMemPerBlock] is a [size_t]; the other five are [int]. *)
Record gpuDeviceProp_t := {
  multiProcessorCount : Z;
  maxThreadsPerBlock : Z;
  maxThreadsPerMultiProcessor : Z;
  sharedMemPerBlock : Z;
  major : Z;
  minor : Z
}.

(** Platform constants the header takes from the C++ implementation. *)
Definition INT_MAX : Z := 2147483647.
Definition sizeof_unsigned_int : N := 4.

(** The conversion of an integer value to [int], 32 bits in two's
    complement: the value modulo 2^32, taken in the range of [int].  This is
    what the GPU compilers do with a value out of range (and what C++20
    prescribes). *)
Definition to_int (z : Z) : Z := (z + 2 ^ 31) mod 2 ^ 32 - 2 ^ 31.

(** Line 75. *)
Definition kGpuScratchSize : N := 1024.

(** ** Compile-time configuration *)

Record Config := {
  (** [__cplusplus >= 201103L] (lines 111, 141, 148) *)
  cxx11 : bool;
  (** [defined(EIGEN_HIP_DEVICE_COMPILE)] (line 67) *)
  EIGEN_HIP_DEVICE_COMPILE : bool;
  (** [defined(NDEBUG)], which turns the [assert] of the C library off; the
      header's [EIGEN_UNUSED_VARIABLE(err)] lines are there for that case *)
  NDEBUG : bool;
  (** [defined(EIGEN_GPUCC)] (lines 328, 367, 395) *)
  EIGEN_GPUCC : bool;
  (** [defined(EIGEN_GPU_COMPILE_PHASE)] (lines 274, 302, 328, 397) *)
  EIGEN_GPU_COMPILE_PHASE : bool;
  (** Whether [eigen_assert], a macro of Eigen's core that this header only
      uses, checks its condition. *)
  eigen_assert_enabled : bool
}.

(** Does [assert(COND)] expand to nothing?  The header erases it under
    [EIGEN_HIP_DEVICE_COMPILE] (lines 67-71); the C library does under
    [NDEBUG]. *)
Definition asserts_erased (cfg : Config) : bool :=
  EIGEN_HIP_DEVICE_COMPILE cfg || NDEBUG cfg.

(** ** Outcomes of running host code *)

Inductive Failure :=
| Fatal       (** a failed [assert], or an uncaught exception: the process aborts *)
| Undefined   (** undefined behaviour: a null or dangling dereference *)
| Hang.       (** a loop that never exits *)

Inductive Result (A : Type) :=
| Ok (a : A)
| Err (f : Failure).
Arguments Ok {A} a.
Arguments Err {A} f.

(** State-and-failure monad over a store [S]. *)
Definition M (S A : Type) : Type := S → Result (A * S).

Definition ret {S A} (a : A) : M S A := λ s, Ok (a, s).
Definition fail {S A} (f : Failure) : M S A := λ _, Err f.
Definition bind {S A B} (m : M S A) (k : A → M S B) : M S B :=
  λ s, match m s with
       | Ok (a, s') => k a s'
       | Err f => Err f
       end.
Definition get {S} : M S S := λ s, Ok (s, s).
Definition modify {S} (f : S → S) : M S unit := λ s, Ok (tt, f s).

Declare Scope gpu_scope.
Delimit Scope gpu_scope with gpu.
Notation "x <- c1 ; c2" := (bind c1 (λ x, c2))
  (at level 20, c1 at level 100, c2 at level 200, only parsing) : gpu_scope.
Notation "c1 ;; c2" := (bind c1 (λ _, c2))
  (at level 100, c2 at level 200, only parsing, right associativity)
  : gpu_scope.
Open Scope gpu_scope.

(** [if (c) { body }] *)
Definition when {S} (c : bool) (body : M S unit) : M S unit :=
  if c then body else ret tt.

(** [p + k] on a [char*]: inside an allocation it is the address [k] bytes
    further (no wrap-around); on a null pointer it is undefined. *)
Definition ptr_add {S} (p : pointer) (k : N) : M S pointer :=
  if (p =? NULL)%N then fail Undefined else ret (p + k)%N.

(** ** The vendor runtime *)

(** A call with an out-parameter returns the status together with the
    content of the out-parameter after the call (whatever the runtime left
    there when it fails). *)
Class Runtime := {
  RT : Type;
  rt_gpuGetDeviceCount : RT → gpuError_t * Z * RT;
  rt_gpuGetDeviceProperties : Z → RT → gpuError_t * gpuDeviceProp_t * RT;
  (** [gpuGetDevice(&d)]: takes the content of [d] before the call. *)
  rt_gpuGetDevice : Z → RT → gpuError_t * Z * RT;
  rt_gpuSetDevice : Z → RT → gpuError_t * RT;
  rt_gpuMalloc : N → RT → gpuError_t * pointer * RT;
  rt_gpuFree : pointer → RT → gpuError_t * RT;
  rt_gpuMemsetAsync : pointer → Z → N → gpuStream_t → RT → gpuError_t * RT;
  rt_gpuMemcpyAsync :
    pointer → pointer → N → gpuMemcpyKind → gpuStream_t → RT → gpuError_t * RT;
  rt_gpuStreamQuery : gpuStream_t → RT → gpuError_t * RT;
  rt_gpuStreamSynchronize : gpuStream_t → RT → gpuError_t * RT;
  rt_gpuDeviceSetSharedMemConfig : Z → RT → gpuError_t * RT;
  (** the vendor's kernel launch: kernel, grid, block, shared memory, stream *)
  rt_launch : N → N → N → N → gpuStream_t → RT → RT;
  rt_gpuGetLastError : RT → gpuError_t * RT;
  rt_gpuGetErrorString : gpuError_t → string
}.

(** The runtime calls the header issues, in the order it issues them. *)
Inductive Call :=
| CGetDeviceCount
| CGetDeviceProperties (i : Z)
| CGetDevice
| CSetDevice (device : Z)
| CMalloc (num_bytes : N)
| CFree (buffer : pointer)
| CMemsetAsync (buffer : pointer) (c : Z) (n : N) (s : gpuStream_t)
| CMemcpyAsync (dst src : pointer) (n : N) (k : gpuMemcpyKind) (s : gpuStream_t)
| CStreamQuery (s : gpuStream_t)
| CStreamSynchronize (s : gpuStream_t)
| CDeviceSetSharedMemConfig (config : Z)
| CLaunch (kernel gridsize blocksize sharedmem : N) (s : gpuStream_t)
| CGetLastError.

#[global] Instance Call_eq_dec : EqDecision Call.
Proof. solve_decision. Defined.

(** ** The host process *)

Section Host.
Context `{Runtime}.

(** What host code of this header reads and writes: the runtime, the
    diagnostic stream, the caller's stream variables, and the three statics
    of the property cache (lines 100, 101 and 112/115) as one translation
    unit has them. *)
Record Sys := {
  rt : RT;
  trace : list Call;
  cerr : list string;
  (** the [gpuStream_t] objects callers own, by address *)
  host_streams : gmap N gpuStream_t;
  (** [static gpuDeviceProp_t* m_deviceProperties]: null, or an array whose
      records are uninitialised ([None]) until queried *)
  m_deviceProperties : option (list (option gpuDeviceProp_t));
  m_devicePropInitialized : bool;
  first : bool
}.

Definition set_rt (r : RT) (s : Sys) : Sys :=
  {| rt := r; trace := trace s; cerr := cerr s; host_streams := host_streams s;
     m_deviceProperties := m_deviceProperties s;
     m_devicePropInitialized := m_devicePropInitialized s; first := first s |}.
Definition emit (c : Call) (s : Sys) : Sys :=
  {| rt := rt s; trace := trace s ++ [c]; cerr := cerr s;
     host_streams := host_streams s;
     m_deviceProperties := m_deviceProperties s;
     m_devicePropInitialized := m_devicePropInitialized s; first := first s |}.
Definition print (msg : string) (s : Sys) : Sys :=
  {| rt := rt s; trace := trace s; cerr := cerr s ++ [msg];
     host_streams := host_streams s;
     m_deviceProperties := m_deviceProperties s;
     m_devicePropInitialized := m_devicePropInitialized s; first := first s |}.
Definition set_m_deviceProperties (a : option (list (option gpuDeviceProp_t)))
    (s : Sys) : Sys :=
  {| rt := rt s; trace := trace s; cerr := cerr s;
     host_streams := host_streams s;
     m_deviceProperties := a;
     m_devicePropInitialized := m_devicePropInitialized s; first := first s |}.
Definition set_m_devicePropInitialized (b : bool) (s : Sys) : Sys :=
  {| rt := rt s; trace := trace s; cerr := cerr s;
     host_streams := host_streams s;
     m_deviceProperties := m_deviceProperties s;
     m_devicePropInitialized := b; first := first s |}.
Definition set_first (b : bool) (s : Sys) : Sys :=
  {| rt := rt s; trace := trace s; cerr := cerr s;
     host_streams := host_streams s;
     m_deviceProperties := m_deviceProperties s;
     m_devicePropInitialized := m_devicePropInitialized s; first := b |}.

(** The process at start-up: nothing called, the statics as initialised. *)
Definition boot (r : RT) (streams : gmap N gpuStream_t) : Sys :=
  {| rt := r; trace := []; cerr := []; host_streams := streams;
     m_deviceProperties := None;
     m_devicePropInitialized := false; first := true |}.

(** One call into the runtime: it advances the runtime and is recorded. *)
Definition call {A} (c : Call) (f : RT → A * RT) : M Sys A :=
  λ s, Ok ((f (rt s)).1, emit c (set_rt (f (rt s)).2 s)).

Definition gpuGetDeviceCount : M Sys (gpuError_t * Z) :=
  call CGetDeviceCount rt_gpuGetDeviceCount.
Definition gpuGetDeviceProperties (i : Z) : M Sys (gpuError_t * gpuDeviceProp_t) :=
  call (CGetDeviceProperties i) (rt_gpuGetDeviceProperties i).
Definition gpuGetDevice (old : Z) : M Sys (gpuError_t * Z) :=
  call CGetDevice (rt_gpuGetDevice old).
Definition gpuSetDevice (device : Z) : M Sys gpuError_t :=
  call (CSetDevice device) (rt_gpuSetDevice device).
Definition gpuMalloc (num_bytes : N) : M Sys (gpuError_t * pointer) :=
  call (CMalloc num_bytes) (rt_gpuMalloc num_bytes).
Definition gpuFree (buffer : pointer) : M Sys gpuError_t :=
  call (CFree buffer) (rt_gpuFree buffer).
Definition gpuMemsetAsync (buffer : pointer) (c : Z) (n : N) (s : gpuStream_t)
    : M Sys gpuError_t :=
  call (CMemsetAsync buffer c n s) (rt_gpuMemsetAsync buffer c n s).
Definition gpuMemcpyAsync (dst src : pointer) (n : N) (k : gpuMemcpyKind)
    (s : gpuStream_t) : M Sys gpuError_t :=
  call (CMemcpyAsync dst src n k s) (rt_gpuMemcpyAsync dst src n k s).
Definition gpuStreamQuery (s : gpuStream_t) : M Sys gpuError_t :=
  call (CStreamQuery s) (rt_gpuStreamQuery s).
Definition gpuStreamSynchronize (s : gpuStream_t) : M Sys gpuError_t :=
  call (CStreamSynchronize s) (rt_gpuStreamSynchronize s).
Definition gpuDeviceSetSharedMemConfig (config : Z) : M Sys gpuError_t :=
  call (CDeviceSetSharedMemConfig config) (rt_gpuDeviceSetSharedMemConfig config).
Definition gpuGetLastError : M Sys gpuError_t :=
  call CGetLastError rt_gpuGetLastError.
Definition launch (kernel gridsize blocksize sharedmem : N) (s : gpuStream_t)
    : M Sys unit :=
  call (CLaunch kernel gridsize blocksize sharedmem s)
       (λ r, (tt, rt_launch kernel gridsize blocksize sharedmem s r)).

(** [std::cerr << ... << std::endl] *)
Definition cerr_println (msg : string) : M Sys unit := modify (print msg).

Section Asserts.
Variable cfg : Config.

(** [assert(COND)]: erased, it does not even evaluate [COND]; otherwise it
    aborts when [COND] is false. *)
Definition assert {S} (COND : M S bool) : M S unit :=
  if asserts_erased cfg then ret tt
  else (c <- COND; if c then ret tt else fail Fatal).

(** [eigen_assert(x)]: defined outside this header. *)
Definition eigen_assert {S} (x : bool) : M S unit :=
  if eigen_assert_enabled cfg then (if x then ret tt else fail Fatal)
  else ret tt.

End Asserts.

End Host.

(** ** The device property cache (lines 100-155) *)

(** [for (int i = 0; i < n; ++i) body(i)], unrolled [k] times from [i]. *)
Fixpoint for_from {S} (k : nat) (i : Z) (body : Z → M S unit) : M S unit :=
  match k with
  | O => ret tt
  | S k' => body i;; for_from k' (i + 1)%Z body
  end.
Definition for_lt {S} (n : Z) (body : Z → M S unit) : M S unit :=
  for_from (Z.to_nat n) 0%Z body.

Section DevicePropCache.
Context `{Runtime}.
Variable cfg : Config.

(** Line 113: [first.exchange(false)], one atomic step. *)
Definition exchange_first (v : bool) : M Sys bool :=
  λ s, Ok (first s, set_first v s).
(** Lines 116 and 117: the plain read and the plain write. *)
Definition read_first : M Sys bool := λ s, Ok (first s, s).
Definition write_first (v : bool) : M Sys unit := modify (set_first v).

(** Lines 111-118: are we the first caller? *)
Definition take_first : M Sys bool :=
  if cxx11 cfg then exchange_first false
  else (f <- read_first; when f (write_first false);; ret f).

(** Lines 122-127. *)
Definition check_count (status : gpuError_t) : M Sys unit :=
  when (negb (is_success status))
    (cerr_println ("Failed to get the number of GPU devices: "
                   +:+ rt_gpuGetErrorString status);;
     assert cfg (ret (is_success status))).

(** Line 128: [new gpuDeviceProp_t[num_devices]].  The records of the new
    array are uninitialised; a negative size throws, and nothing catches. *)
Definition new_deviceProperties (num_devices : Z) : M Sys unit :=
  if (num_devices <? 0)%Z then fail Fatal
  else modify (set_m_deviceProperties
                 (Some (replicate (Z.to_nat num_devices) None))).

(** Line 130: the runtime writes the record [m_deviceProperties[i]]. *)
Definition query_device (i : Z) : M Sys gpuError_t :=
  r <- gpuGetDeviceProperties i;
  s <- get;
  match m_deviceProperties s with
  | Some a =>
      if bool_decide (0 ≤ i < Z.of_nat (length a))%Z
      then modify (set_m_deviceProperties
                     (Some (<[Z.to_nat i := Some r.2]> a)));; ret r.1
      else fail Undefined
  | None => fail Undefined
  end.

(** Lines 131-138. *)
Definition check_device (i : Z) (status : gpuError_t) : M Sys unit :=
  when (negb (is_success status))
    (cerr_println ("Failed to initialize GPU device #" +:+ pretty i +:+ ": "
                   +:+ rt_gpuGetErrorString status);;
     assert cfg (ret (is_success status))).

(** Lines 142 and 149: a fence orders memory accesses; it changes no
    variable. *)
Definition atomic_thread_fence : M Sys unit := ret tt.

(** Lines 147-152 when no other thread runs: the flag cannot change, so the
    loop exits at once or never. *)
Definition wait_alone : M Sys unit :=
  s <- get;
  if m_devicePropInitialized s then ret tt else fail Hang.

(** Lines 141-144. *)
Definition publish : M Sys unit :=
  when (cxx11 cfg) atomic_thread_fence;;
  modify (set_m_devicePropInitialized true).

(** Lines 130-138, the body of the loop. *)
Definition query_and_check (i : Z) : M Sys unit :=
  status <- query_device i; check_device i status.

(** [initializeDeviceProp] called while no other thread is inside it. *)
Definition initializeDeviceProp : M Sys unit :=
  s <- get;
  when (negb (m_devicePropInitialized s))
    (we_are_first <- take_first;
     if we_are_first then
       r <- gpuGetDeviceCount;
       check_count r.1;;
       new_deviceProperties r.2;;
       for_lt r.2 query_and_check;;
       publish
     else wait_alone).

(** *** Threads inside [initializeDeviceProp]

    One step is one access to a shared variable or one runtime call.  The
    local [num_devices] and the loop counter [i] live in the program point. *)
Inductive pc :=
| AtEntry                            (** line 104: read [m_devicePropInitialized] *)
| AtClaim                            (** line 113, or the read of line 116 *)
| AtClear                            (** line 117 (before C++11 only) *)
| AtGetCount                         (** lines 121-127 *)
| AtNew (num_devices : Z)            (** line 128 *)
| AtQuery (num_devices : Z) (i : Z)  (** lines 130-138 *)
| AtRelease                          (** line 142 (C++11 only) *)
| AtPublish                          (** line 144 *)
| AtSpin                             (** line 147: read [m_devicePropInitialized] *)
| AtAcquire                          (** line 149 (C++11 only) *)
| AtSleep                            (** line 151 *)
| Returned.

#[global] Instance pc_eq_dec : EqDecision pc.
Proof. solve_decision. Defined.

(** Line 129: the loop test, on locals only. *)
Definition loop_head (num_devices i : Z) : pc :=
  if (i <? num_devices)%Z then AtQuery num_devices i
  else if cxx11 cfg then AtRelease else AtPublish.

Definition tstep (p : pc) : M Sys pc :=
  match p with
  | AtEntry =>
      s <- get; ret (if m_devicePropInitialized s then Returned else AtClaim)
  | AtClaim =>
      if cxx11 cfg
      then (f <- exchange_first false; ret (if f then AtGetCount else AtSpin))
      else (f <- read_first; ret (if f then AtClear else AtSpin))
  | AtClear => write_first false;; ret AtGetCount
  | AtGetCount => r <- gpuGetDeviceCount; check_count r.1;; ret (AtNew r.2)
  | AtNew n => new_deviceProperties n;; ret (loop_head n 0)
  | AtQuery n i =>
      status <- query_device i; check_device i status;;
      ret (loop_head n (i + 1))
  | AtRelease => atomic_thread_fence;; ret AtPublish
  | AtPublish => modify (set_m_devicePropInitialized true);; ret Returned
  | AtSpin =>
      s <- get;
      ret (if m_devicePropInitialized s then Returned
           else if cxx11 cfg then AtAcquire else AtSleep)
  | AtAcquire => atomic_thread_fence;; ret AtSleep
  | AtSleep => ret AtSpin
  | Returned => ret Returned
  end.

(** One thread stepping with no other thread around, until it has
    returned; [fuel] bounds the number of steps. *)
Fixpoint alone (fuel : nat) (p : pc) : M Sys unit :=
  match p, fuel with
  | Returned, _ => ret tt
  | _, O => fail Hang
  | _, S fuel' => p' <- tstep p; alone fuel' p'
  end.

(** The process with its threads: thread [t] is at [pcs !! t].  [hist] is
    the interleaving so far: who completed a step, from which program
    point. *)
Record Proc := {
  sys : Sys;
  pcs : list pc;
  halted : option Failure;
  hist : list (nat * pc)
}.

Definition spawn (n : nat) (s : Sys) : Proc :=
  {| sys := s; pcs := replicate n AtEntry; halted := None; hist := [] |}.

(** Thread [t] takes its next step; a failure stops the whole process. *)
Definition step (t : nat) (σ : Proc) : option Proc :=
  match halted σ, pcs σ !! t with
  | None, Some p =>
      if bool_decide (p = Returned) then None
      else Some
        match tstep p (sys σ) with
        | Ok (p', s') =>
            {| sys := s'; pcs := <[t := p']> (pcs σ); halted := None;
               hist := hist σ ++ [(t, p)] |}
        | Err f =>
            {| sys := sys σ; pcs := pcs σ; halted := Some f;
               hist := hist σ |}
        end
  | _, _ => None
  end.

(** Run a schedule; a thread that cannot step is skipped. *)
Fixpoint run (sched : list nat) (σ : Proc) : Proc :=
  match sched with
  | [] => σ
  | t :: sched' => run sched' (default σ (step t σ))
  end.

End DevicePropCache.

(** ** The stream interface (lines 79-98) *)

(** A [const gpuStream_t*]: the address of the header's own
    [default_stream] (line 157), or of a stream variable of the caller. *)
Inductive stream_ptr :=
| default_stream_ptr
| caller_stream_ptr (a : N).

Section Interface.
Context `{Runtime}.

(** [*p] *)
Definition deref_stream (p : stream_ptr) : M Sys gpuStream_t :=
  match p with
  | default_stream_ptr => ret gpuStreamDefault
  | caller_stream_ptr a =>
      s <- get;
      match host_streams s !! a with
      | Some h => ret h
      | None => fail Undefined
      end
  end.

(** The pure virtual members of [StreamInterface].  They are [const], but
    an implementation may keep [mutable] members: each returns the object
    after the call. *)
Class StreamInterface (T : Type) := {
  si_stream : T → M Sys (gpuStream_t * T);
  si_deviceProperties : T → M Sys (gpuDeviceProp_t * T);
  si_allocate : N → T → M Sys (pointer * T);
  si_deallocate : pointer → T → M Sys (unit * T);
  si_scratchpad : T → M Sys (pointer * T);
  si_semaphore : T → M Sys (pointer * T)
}.

End Interface.

(** ** The concrete stream device (lines 159-241) *)

Module GpuStreamDevice.

Record t := {
  stream_ : stream_ptr;
  device_ : Z;
  scratch_ : pointer;      (** [mutable] *)
  semaphore_ : pointer     (** [mutable] *)
}.

Definition set_device_ (d : Z) (self : t) : t :=
  {| stream_ := stream_ self; device_ := d; scratch_ := scratch_ self;
     semaphore_ := semaphore_ self |}.
Definition set_scratch_ (p : pointer) (self : t) : t :=
  {| stream_ := stream_ self; device_ := device_ self; scratch_ := p;
     semaphore_ := semaphore_ self |}.
Definition set_semaphore_ (p : pointer) (self : t) : t :=
  {| stream_ := stream_ self; device_ := device_ self;
     scratch_ := scratch_ self; semaphore_ := p |}.

Section Methods.
Context `{Runtime}.
Variable cfg : Config.

(** Lines 162-165.  [device_] has no initialiser: [indeterminate] is what
    it holds before [gpuGetDevice] is called. *)
Definition new (indeterminate : Z) : M Sys t :=
  r <- gpuGetDevice indeterminate;
  initializeDeviceProp cfg;;
  ret {| stream_ := default_stream_ptr; device_ := r.2;
         scratch_ := NULL; semaphore_ := NULL |}.

(** Lines 167-169. *)
Definition new_on_device (device : Z) : M Sys t :=
  initializeDeviceProp cfg;;
  ret {| stream_ := default_stream_ptr; device_ := device;
         scratch_ := NULL; semaphore_ := NULL |}.

(** Lines 176-185: which device a stream-bound instance is bound to. *)
Definition bind_device (device : Z) : M Sys Z :=
  if (device <? 0)%Z then
    r <- gpuGetDevice device; ret r.2
  else
    r <- gpuGetDeviceCount;
    assert cfg (ret (is_success r.1));;
    assert cfg (ret (device <? r.2)%Z);;
    ret device.

(** Lines 174-187; [device] defaults to [-1]. *)
Definition new_on_stream (stream : stream_ptr) (device : Z) : M Sys t :=
  d <- bind_device device;
  initializeDeviceProp cfg;;
  ret {| stream_ := stream; device_ := d;
         scratch_ := NULL; semaphore_ := NULL |}.

(** Line 195. *)
Definition stream (self : t) : M Sys gpuStream_t := deref_stream (stream_ self).

(** Lines 196-198: [m_deviceProperties[device_]]. *)
Definition deviceProperties (self : t) : M Sys gpuDeviceProp_t :=
  s <- get;
  match m_deviceProperties s with
  | Some a =>
      if bool_decide (0 ≤ device_ self)%Z then
        match a !! Z.to_nat (device_ self) with
        | Some (Some r) => ret r
        | _ => fail Undefined
        end
      else fail Undefined
  | None => fail Undefined
  end.

(** Lines 199-208. *)
Definition allocate (num_bytes : N) (self : t) : M Sys pointer :=
  err <- gpuSetDevice (device_ self);
  assert cfg (ret (is_success err));;
  r <- gpuMalloc num_bytes;
  assert cfg (ret (is_success r.1));;
  assert cfg (ret (negb (r.2 =? NULL)%N));;
  ret r.2.

(** Lines 209-216. *)
Definition deallocate (buffer : pointer) (self : t) : M Sys unit :=
  err <- gpuSetDevice (device_ self);
  assert cfg (ret (is_success err));;
  assert cfg (ret (negb (buffer =? NULL)%N));;
  err <- gpuFree buffer;
  assert cfg (ret (is_success err)).

(** Lines 218-223. *)
Definition scratchpad (self : t) : M Sys (pointer * t) :=
  if (scratch_ self =? NULL)%N then
    p <- allocate (kGpuScratchSize + sizeof_unsigned_int) self;
    ret (p, set_scratch_ p self)
  else ret (scratch_ self, self).

(** Lines 225-234. *)
Definition semaphore (self : t) : M Sys (pointer * t) :=
  if (semaphore_ self =? NULL)%N then
    r <- scratchpad self;
    scratch <- ptr_add r.1 kGpuScratchSize;
    let self := set_semaphore_ scratch r.2 in
    h <- deref_stream (stream_ self);
    err <- gpuMemsetAsync (semaphore_ self) 0 sizeof_unsigned_int h;
    assert cfg (ret (is_success err));;
    ret (semaphore_ self, self)
  else ret (semaphore_ self, self).

(** Lines 189-193. *)
Definition destroy (self : t) : M Sys unit :=
  when (negb (scratch_ self =? NULL)%N) (deallocate (scratch_ self) self).

(** What a client may ask of one instance between its construction and its
    destruction, and the instance after serving it. *)
Inductive request :=
| Stream
| DeviceProperties
| Allocate (num_bytes : N)
| Deallocate (buffer : pointer)
| Scratchpad
| Semaphore.

Definition serve (q : request) (self : t) : M Sys t :=
  match q with
  | Stream => stream self;; ret self
  | DeviceProperties => deviceProperties self;; ret self
  | Allocate n => allocate n self;; ret self
  | Deallocate b => deallocate b self;; ret self
  | Scratchpad => r <- scratchpad self; ret r.2
  | Semaphore => r <- semaphore self; ret r.2
  end.

Fixpoint serve_all (qs : list request) (self : t) : M Sys t :=
  match qs with
  | [] => ret self
  | q :: qs' => self' <- serve q self; serve_all qs' self'
  end.

(** Did a request reach [scratchpad()]?  [semaphore()] calls it. *)
Definition asks_scratch (q : request) : bool :=
  match q with
  | Scratchpad | Semaphore => true
  | _ => false
  end.

#[export] Instance streamInterface : StreamInterface t := {|
  si_stream self := h <- stream self; ret (h, self);
  si_deviceProperties self := r <- deviceProperties self; ret (r, self);
  si_allocate n self := p <- allocate n self; ret (p, self);
  si_deallocate b self := deallocate b self;; ret (tt, self);
  si_scratchpad := scratchpad;
  si_semaphore := semaphore
|}.

End Methods.
End GpuStreamDevice.

(** ** The device facade (lines 243-378) *)

Module GpuDevice.

(** [stream_] points to an object the facade does not own. *)
Record t := {
  stream_ : N;            (** [const StreamInterface*] *)
  max_blocks_ : Z
}.

Section Methods.
Context `{Runtime} {T : Type} `{!StreamInterface T}.
Variable cfg : Config.

(** The facade runs against the objects behind [StreamInterface] pointers
    and the host process. *)
Definition World : Type := gmap N T * Sys.

Definition host {A} (m : M Sys A) : M World A :=
  λ w, match m w.2 with
       | Ok (a, s') => Ok (a, (w.1, s'))
       | Err f => Err f
       end.

(** [stream_->method(...)]: the call goes to the object [stream_] points to,
    which keeps what the method did to it. *)
Definition through {A} (self : t) (method : T → M Sys (A * T)) : M World A :=
  λ w, match w.1 !! stream_ self with
       | Some o =>
           match method o w.2 with
           | Ok (a, o', s') => Ok (a, (<[stream_ self := o']> w.1, s'))
           | Err f => Err f
           end
       | None => Err Undefined
       end.

(** Lines 246-248. *)
Definition new (stream : N) : M World t :=
  eigen_assert cfg (negb (stream =? 0)%N);;
  ret {| stream_ := stream; max_blocks_ := INT_MAX |}.

(** Lines 249-251. *)
Definition new_with_blocks (stream : N) (num_blocks : Z) : M World t :=
  eigen_assert cfg (negb (stream =? 0)%N);;
  ret {| stream_ := stream; max_blocks_ := num_blocks |}.

(** Lines 253-271. *)
Definition stream (self : t) : M World gpuStream_t := through self si_stream.
Definition allocate (num_bytes : N) (self : t) : M World pointer :=
  through self (si_allocate num_bytes).
Definition deallocate (buffer : pointer) (self : t) : M World unit :=
  through self (si_deallocate buffer).
Definition scratchpad (self : t) : M World pointer := through self si_scratchpad.
Definition semaphore (self : t) : M World pointer := through self si_semaphore.

(** Lines 273-285. *)
Definition memcpy (dst src : pointer) (n : N) (self : t) : M World unit :=
  if negb (EIGEN_GPU_COMPILE_PHASE cfg) then
    h <- through self si_stream;
    err <- host (gpuMemcpyAsync dst src n gpuMemcpyDeviceToDevice h);
    assert cfg (ret (is_success err))
  else eigen_assert cfg false.

(** Lines 287-292. *)
Definition memcpyHostToDevice (dst src : pointer) (n : N) (self : t)
    : M World unit :=
  h <- through self si_stream;
  err <- host (gpuMemcpyAsync dst src n gpuMemcpyHostToDevice h);
  assert cfg (ret (is_success err)).

(** Lines 294-299. *)
Definition memcpyDeviceToHost (dst src : pointer) (n : N) (self : t)
    : M World unit :=
  h <- through self si_stream;
  err <- host (gpuMemcpyAsync dst src n gpuMemcpyDeviceToHost h);
  assert cfg (ret (is_success err)).

(** Lines 301-309. *)
Definition memset (buffer : pointer) (c : Z) (n : N) (self : t) : M World unit :=
  if negb (EIGEN_GPU_COMPILE_PHASE cfg) then
    h <- through self si_stream;
    err <- host (gpuMemsetAsync buffer c n h);
    assert cfg (ret (is_success err))
  else eigen_assert cfg false.

(** Lines 311-325. *)
Definition numThreads (self : t) : N := 32.
Definition firstLevelCacheSize (self : t) : N := 48 * 1024.
Definition lastLevelCacheSize (self : t) : N := firstLevelCacheSize self.

(** Lines 327-339. *)
Definition synchronize (self : t) : M World unit :=
  if EIGEN_GPUCC cfg && negb (EIGEN_GPU_COMPILE_PHASE cfg) then
    h <- through self si_stream;
    err <- host (gpuStreamSynchronize h);
    when (negb (is_success err))
      (host (cerr_println ("Error detected in GPU stream: "
                           +:+ rt_gpuGetErrorString err));;
       assert cfg (ret (is_success err)))
  else assert cfg (ret false).

(** Lines 341-358. *)
Definition getNumGpuMultiProcessors (self : t) : M World Z :=
  r <- through self si_deviceProperties; ret (multiProcessorCount r).
Definition maxGpuThreadsPerBlock (self : t) : M World Z :=
  r <- through self si_deviceProperties; ret (maxThreadsPerBlock r).
Definition maxGpuThreadsPerMultiProcessor (self : t) : M World Z :=
  r <- through self si_deviceProperties; ret (maxThreadsPerMultiProcessor r).
(** Lines 350-352: the [size_t] field is returned as [int]. *)
Definition sharedMemPerBlock (self : t) : M World Z :=
  r <- through self si_deviceProperties; ret (to_int (sharedMemPerBlock r)).
Definition majorDeviceVersion (self : t) : M World Z :=
  r <- through self si_deviceProperties; ret (major r).
Definition minorDeviceVersion (self : t) : M World Z :=
  r <- through self si_deviceProperties; ret (minor r).

(** Lines 360-362. *)
Definition maxBlocks (self : t) : Z := max_blocks_ self.

(** Lines 366-373. *)
Definition ok (self : t) : M World bool :=
  if EIGEN_GPUCC cfg then
    error <- (h <- through self si_stream; host (gpuStreamQuery h));
    ret (is_success error || bool_decide (error = gpuErrorNotReady))
  else ret false.

(** Lines 380-392: [LAUNCH_GPU_KERNEL(kernel, gridsize, blocksize,
    sharedmem, device, ...)], the same in both vendors' spelling. *)
Definition LAUNCH_GPU_KERNEL (kernel gridsize blocksize sharedmem : N)
    (device : t) : M World unit :=
  h <- stream device;
  host (launch kernel gridsize blocksize sharedmem h);;
  assert cfg (err <- host gpuGetLastError; ret (is_success err)).

End Methods.

(** Lines 395-405; the function exists only under [EIGEN_GPUCC]. *)
Definition setGpuSharedMemConfig `{Runtime} (cfg : Config) (config : Z)
    : M Sys unit :=
  if negb (EIGEN_GPU_COMPILE_PHASE cfg) then
    status <- gpuDeviceSetSharedMemConfig config;
    assert cfg (ret (is_success status))
  else ret tt.

End GpuDevice.

(** ** A scripted runtime

    A small runtime to run the header against: one stream that is idle or
    busy and may carry an error, and a script of what the coming
    [gpuMalloc] calls return. *)

Module Scripted.

Record state := {
  count : gpuError_t * Z;            (** what [gpuGetDeviceCount] reports *)
  props_status : gpuError_t;         (** status of [gpuGetDeviceProperties] *)
  current : gpuError_t * Z;          (** what [gpuGetDevice] reports *)
  set_status : gpuError_t;           (** status of [gpuSetDevice] *)
  mallocs : list (gpuError_t * pointer);
  free_status : gpuError_t;
  async_status : gpuError_t;         (** status of enqueuing work *)
  busy : bool;                       (** work is pending on the stream *)
  stream_error : gpuError_t          (** what the stream has recorded *)
}.

Definition with_mallocs (l : list (gpuError_t * pointer)) (r : state) : state :=
  {| count := count r; props_status := props_status r; current := current r;
     set_status := set_status r; mallocs := l; free_status := free_status r;
     async_status := async_status r; busy := busy r;
     stream_error := stream_error r |}.
Definition with_busy (b : bool) (r : state) : state :=
  {| count := count r; props_status := props_status r; current := current r;
     set_status := set_status r; mallocs := mallocs r;
     free_status := free_status r; async_status := async_status r; busy := b;
     stream_error := stream_error r |}.

Definition props_of (i : Z) : gpuDeviceProp_t :=
  {| multiProcessorCount := 80 + i; maxThreadsPerBlock := 1024;
     maxThreadsPerMultiProcessor := 2048; sharedMemPerBlock := 49152;
     major := 7; minor := i |}.

Definition error_name (e : gpuError_t) : string :=
  match e with
  | gpuSuccess => "no error"
  | gpuErrorNotReady => "device not ready"
  | gpuErrorOther _ => "unspecified failure"
  end.

#[export] Instance runtime : Runtime := {|
  RT := state;
  rt_gpuGetDeviceCount r := (count r, r);
  rt_gpuGetDeviceProperties i r := (props_status r, props_of i, r);
  rt_gpuGetDevice old r :=
    (((current r).1, if is_success (current r).1 then (current r).2 else old), r);
  rt_gpuSetDevice _ r := (set_status r, r);
  rt_gpuMalloc _ r :=
    match mallocs r with
    | res :: rest => (res, with_mallocs rest r)
    | [] => (gpuErrorOther 2, NULL, r)
    end;
  rt_gpuFree _ r := (free_status r, r);
  rt_gpuMemsetAsync _ _ _ _ r := (async_status r, with_busy true r);
  rt_gpuMemcpyAsync _ _ _ _ _ r := (async_status r, with_busy true r);
  rt_gpuStreamQuery _ r :=
    (if is_success (stream_error r)
     then (if busy r then gpuErrorNotReady else gpuSuccess)
     else stream_error r, r);
  rt_gpuStreamSynchronize _ r := (stream_error r, with_busy false r);
  rt_gpuDeviceSetSharedMemConfig _ r := (gpuSuccess, r);
  rt_launch _ _ _ _ _ r := with_busy true r;
  rt_gpuGetLastError r := (async_status r, r);
  rt_gpuGetErrorString := error_name
|}.

(** Two healthy devices, device 0 current, one allocation available. *)
Definition healthy : state :=
  {| count := (gpuSuccess, 2%Z); props_status := gpuSuccess;
     current := (gpuSuccess, 0%Z); set_status := gpuSuccess;
     mallocs := [(gpuSuccess, 4096%N)]; free_status := gpuSuccess;
     async_status := gpuSuccess; busy := false; stream_error := gpuSuccess |}.

(** The allocator is exhausted: the first [gpuMalloc] fails and leaves a
    null pointer, a later one succeeds. *)
Definition exhausted : state :=
  with_mallocs [(gpuErrorOther 2, NULL); (gpuSuccess, 8192%N)] healthy.

(** The stream has recorded an error. *)
Definition broken_stream : state :=
  {| count := (gpuSuccess, 2%Z); props_status := gpuSuccess;
     current := (gpuSuccess, 0%Z); set_status := gpuSuccess;
     mallocs := []; free_status := gpuSuccess;
     async_status := gpuSuccess; busy := false;
     stream_error := gpuErrorOther 700 |}.

End Scripted.

(** Configurations used in the examples. *)

(** Host code built by a GPU compiler as C++11: asserts abort. *)
Definition host_cfg : Config :=
  {| cxx11 := true; EIGEN_HIP_DEVICE_COMPILE := false; NDEBUG := false; EIGEN_GPUCC := true;
     EIGEN_GPU_COMPILE_PHASE := false; eigen_assert_enabled := true |}.

(** The same header read before C++11. *)
Definition cxx03_cfg : Config :=
  {| cxx11 := false; EIGEN_HIP_DEVICE_COMPILE := false; NDEBUG := false; EIGEN_GPUCC := true;
     EIGEN_GPU_COMPILE_PHASE := false; eigen_assert_enabled := true |}.

(** The HIP device-side pass: [assert] is erased (lines 67-71). *)
Definition hip_device_cfg : Config :=
  {| cxx11 := true; EIGEN_HIP_DEVICE_COMPILE := true; NDEBUG := false; EIGEN_GPUCC := true;
     EIGEN_GPU_COMPILE_PHASE := true; eigen_assert_enabled := true |}.

(** A release build of host code: [NDEBUG] turns [assert] off. *)
Definition release_cfg : Config :=
  {| cxx11 := true; EIGEN_HIP_DEVICE_COMPILE := false; NDEBUG := true;
     EIGEN_GPUCC := true; EIGEN_GPU_COMPILE_PHASE := false;
     eigen_assert_enabled := false |}.

(** [EIGEN_USE_GPU] code built by a plain host compiler. *)
Definition plain_host_cfg : Config :=
  {| cxx11 := true; EIGEN_HIP_DEVICE_COMPILE := false; NDEBUG := false; EIGEN_GPUCC := false;
     EIGEN_GPU_COMPILE_PHASE := false; eigen_assert_enabled := true |}.


(** ** Sample objects for the examples *)

Module Sample.
Import Scripted.

(** A stream device on the default stream of device 0, as the constructors
    leave it. *)
Definition stream_device : GpuStreamDevice.t :=
  {| GpuStreamDevice.stream_ := default_stream_ptr;
     GpuStreamDevice.device_ := 0;
     GpuStreamDevice.scratch_ := NULL;
     GpuStreamDevice.semaphore_ := NULL |}.

(** A process that has started on the given runtime and owns one stream
    variable, at address 64, holding stream handle 7. *)
Definition process (r : state) : Sys := boot r {[ 64%N := 7%N ]}.

(** The stream device lives at address 16; a facade points to it. *)
Definition world (r : state) : gmap N GpuStreamDevice.t * Sys :=
  ({[ 16%N := stream_device ]}, process r).
Definition facade : GpuDevice.t :=
  {| GpuDevice.stream_ := 16%N; GpuDevice.max_blocks_ := 64 |}.

End Sample.

(** ** The specification's wording

    Statements as the specification words them, for a given configuration;
    the code satisfies some of them only in some configurations. *)

Module Wording.

(** What the stream poll reports for stream [h] in world [w]. *)
Definition poll `{Runtime} {T : Type} (h : gpuStream_t) (w : gmap N T * Sys)
    : gpuError_t :=
  (rt_gpuStreamQuery h (rt w.2)).1.

(** "[ok()] performs a non-blocking stream-status poll and returns true
    exactly when the poll reports success or not-ready." *)
Definition ok_answers_the_poll `{Runtime} {T : Type} `{!StreamInterface T}
    (cfg : Config) : Prop :=
  ∀ (self : GpuDevice.t) (w w1 : gmap N T * Sys) (h : gpuStream_t),
    GpuDevice.stream self w = Ok (h, w1) →
    ∃ w2, GpuDevice.ok cfg self w
          = Ok (bool_decide (poll h w1 = gpuSuccess
                             ∨ poll h w1 = gpuErrorNotReady), w2)
          ∧ trace w2.2 = trace w1.2 ++ [CStreamQuery h].

End Wording.

(** ** What a piece of host code did *)

Section Effects.
Context `{Runtime}.

(** From [s] to [s'] the code issued exactly [calls], printed nothing and
    left the caller's stream variables alone. *)
Definition issues (s s' : Sys) (calls : list Call) : Prop :=
  trace s' = trace s ++ calls ∧
  cerr s' = cerr s ∧
  host_streams s' = host_streams s.

(** The process after one runtime call. *)
Definition after {A} (c : Call) (f : RT → A * RT) (s : Sys) : Sys :=
  emit c (set_rt (f (rt s)).2 s).

End Effects.

Module StreamDeviceWording.
Import GpuStreamDevice.

Section Claims.
Context `{Runtime}.
Variable cfg : Config.

(** An instance as every constructor leaves it. *)
Definition fresh (self : t) : Prop :=
  scratch_ self = NULL ∧ semaphore_ self = NULL.

(** "[scratchpad()] called twice on the same instance returns the same
    pointer both times", the second time "without allocating again". *)
Definition scratchpad_is_idempotent : Prop :=
  ∀ self s p self1 s1,
    scratch_ self = NULL →
    scratchpad cfg self s = Ok ((p, self1), s1) →
    scratchpad cfg self1 s1 = Ok ((p, self1), s1).



(** The device count the runtime reports in [s]. *)
Definition visible_devices (s : Sys) : Z := (rt_gpuGetDeviceCount (rt s)).1.2.

(** "A device index [>=] the visible device count triggers a fatal
    assertion at construction time." *)
Definition out_of_range_device_is_fatal : Prop :=
  ∀ stream device s,
    (0 ≤ device)%Z → (visible_devices s ≤ device)%Z →
    new_on_stream cfg stream device s = Err Fatal.

End Claims.
End StreamDeviceWording.

(** ** The initialisation protocol, as seen in an interleaving *)

Module InitProtocol.

(** The steps of the thread that initialises: lines 121 to 144. *)
Definition in_pass (p : pc) : bool :=
  match p with
  | AtGetCount | AtNew _ | AtQuery _ _ | AtRelease | AtPublish => true
  | _ => false
  end.

(** A thread that has not won the claim and has not returned. *)
Definition waiting (p : pc) : bool :=
  match p with
  | AtEntry | AtClaim | AtSpin | AtAcquire | AtSleep => true
  | _ => false
  end.

(** A thread that has not reached the claim yet. *)
Definition idle (p : pc) : bool :=
  match p with
  | AtEntry | AtClaim => true
  | _ => false
  end.

(** The property queries of devices [0 .. k-1] by thread [t]. *)
Definition queries (t : nat) (n : Z) (k : nat) : list (nat * pc) :=
  (λ j, (t, AtQuery n (Z.of_nat j))) <$> seq 0 k.

(** What thread [t] has done of the pass up to the release fence. *)
Definition pass_body (t : nat) (n : Z) : list (nat * pc) :=
  (t, AtGetCount) :: (t, AtNew n) :: queries t n (Z.to_nat n).

(** One complete pass by thread [t] over [n] devices: the count query, the
    allocation, one property query per device in order, the release fence,
    the publication. *)
Definition full_pass (t : nat) (n : Z) : list (nat * pc) :=
  pass_body t n ++ [(t, AtRelease); (t, AtPublish)].

Section Protocol.
Context `{Runtime}.

(** The three statics of the cache. *)
Definition statics (s : Sys)
    : option (list (option gpuDeviceProp_t)) * bool * bool :=
  (m_deviceProperties s, m_devicePropInitialized s, first s).

(** The steps of the initialising region taken so far, in order. *)
Definition pass_steps (σ : Proc) : list (nat * pc) :=
  List.filter (λ e, in_pass e.2) (hist σ).

(** The array while the first [k] of [n] devices have been queried. *)
Definition half_filled (n : Z) (rs : list gpuDeviceProp_t)
    : option (list (option gpuDeviceProp_t)) :=
  Some ((Some <$> rs) ++ replicate (Z.to_nat n - length rs) None).

(** What the initialising thread [t] has done when it is at [p]. *)
Definition progress (t : nat) (p : pc) (σ : Proc) : Prop :=
  match p with
  | AtGetCount =>
      m_deviceProperties (sys σ) = None ∧ pass_steps σ = []
  | AtNew n =>
      m_deviceProperties (sys σ) = None ∧ pass_steps σ = [(t, AtGetCount)]
  | AtQuery n i =>
      (0 ≤ i < n)%Z ∧
      ∃ rs, length rs = Z.to_nat i ∧
            m_deviceProperties (sys σ) = half_filled n rs ∧
            pass_steps σ
              = (t, AtGetCount) :: (t, AtNew n) :: queries t n (Z.to_nat i)
  | AtRelease =>
      ∃ n rs, length rs = Z.to_nat n ∧
              m_deviceProperties (sys σ) = Some (Some <$> rs) ∧
              pass_steps σ = pass_body t n
  | AtPublish =>
      ∃ n rs, length rs = Z.to_nat n ∧
              m_deviceProperties (sys σ) = Some (Some <$> rs) ∧
              pass_steps σ = pass_body t n ++ [(t, AtRelease)]
  | _ => False
  end.

(** The three phases of the protocol under C++11. *)
Inductive inv (σ : Proc) : Prop :=
| inv_unclaimed :
    first (sys σ) = true →
    m_devicePropInitialized (sys σ) = false →
    m_deviceProperties (sys σ) = None →
    pass_steps σ = [] →
    (∀ t p, pcs σ !! t = Some p → idle p = true) →
    inv σ
| inv_claimed (t : nat) (p : pc) :
    first (sys σ) = false →
    m_devicePropInitialized (sys σ) = false →
    pcs σ !! t = Some p →
    progress t p σ →
    (∀ t' p', t' ≠ t → pcs σ !! t' = Some p' → waiting p' = true) →
    inv σ
| inv_published (t : nat) (n : Z) (rs : list gpuDeviceProp_t) :
    first (sys σ) = false →
    m_devicePropInitialized (sys σ) = true →
    length rs = Z.to_nat n →
    m_deviceProperties (sys σ) = Some (Some <$> rs) →
    pass_steps σ = full_pass t n →
    (∀ t' p', pcs σ !! t' = Some p' → waiting p' = true ∨ p' = Returned) →
    inv σ.

(** "Exactly one thread performs the query pass": whatever has been done of
    the initialising region is the beginning of one pass by one thread. *)
Definition one_pass (σ : Proc) : Prop :=
  ∃ t n, pass_steps σ `prefix_of` full_pass t n.

(** "Every thread returns only after the property array is fully
    populated": when a thread has returned, the claim flag has been taken,
    the initialised flag is set, one thread has completed its pass, fence
    and publication included, and every record of the array, one per
    device, has been written. *)
Definition returned_after_publication (σ : Proc) : Prop :=
  ∀ t, pcs σ !! t = Some Returned →
    first (sys σ) = false ∧
    m_devicePropInitialized (sys σ) = true ∧
    ∃ w n rs, pass_steps σ = full_pass w n ∧
              length rs = Z.to_nat n ∧
              m_deviceProperties (sys σ) = Some (Some <$> rs).

(** The initialisation claim for a configuration: in every interleaving of
    any number of threads
    that enter [initializeDeviceProp] of a process just started. *)
Definition initialized_once (cfg : Config) : Prop :=
  ∀ (threads : nat) (r : RT) (streams : gmap N gpuStream_t) (sched : list nat),
    let σ := run cfg sched (spawn threads (boot r streams)) in
    one_pass σ ∧ returned_after_publication σ.

End Protocol.
End InitProtocol.

(** ** Sample interleavings *)

Module SampleRace.

(** Three threads; thread 1 takes the claim while threads 0 and 2 wait. *)
Definition three_threads : list nat :=
  [0; 1; 1; 0; 2; 1; 0; 1; 2; 1; 0; 1; 1; 0; 1; 0; 2]%nat.

(** Two threads in lockstep: each reads [first] before the other has
    cleared it. *)
Definition lockstep : list nat :=
  [0; 1; 0; 1; 0; 1; 0; 1; 0; 1; 0; 1; 0; 1; 0; 1; 0; 1]%nat.

End SampleRace.

(** ** Vocabulary for the further properties *)

Module Further.

(** The property queries of one pass over [n] devices, in order. *)
Definition property_queries (n : Z) : list Call :=
  CGetDeviceProperties <$> seqZ 0 n.

(** What the runtime answers (status and record) to the property queries
    for devices [i], [i+1], ... ([k] of them), each asked of the runtime as
    the one before left it; and the runtime after the last. *)
Fixpoint answers `{Runtime} (k : nat) (i : Z) (r : RT)
    : list (gpuError_t * gpuDeviceProp_t) * RT :=
  match k with
  | O => ([], r)
  | S k' =>
      let q := rt_gpuGetDeviceProperties i r in
      let rest := answers k' (i + 1)%Z q.2 in
      (q.1 :: rest.1, rest.2)
  end.

(** The array that holds the records of these answers. *)
Definition records_of (l : list (gpuError_t * gpuDeviceProp_t))
    : list (option gpuDeviceProp_t) :=
  (λ a, Some a.2) <$> l.

(** Is every [gpuMalloc] and [gpuFree] of [calls] directly preceded by
    [gpuSetDevice(device)], with nothing in [calls] but these and
    [gpuMemsetAsync]?  [armed] tells whether the call before was that
    [gpuSetDevice]. *)
Fixpoint pinned_from (device : Z) (armed : bool) (calls : list Call) : bool :=
  match calls with
  | [] => true
  | CSetDevice d :: rest => (d =? device)%Z && pinned_from device true rest
  | CMalloc _ :: rest | CFree _ :: rest => armed && pinned_from device false rest
  | CMemsetAsync _ _ _ _ :: rest => pinned_from device false rest
  | _ => false
  end.
Definition pinned (device : Z) (calls : list Call) : bool :=
  pinned_from device false calls.

(** The fills among [calls]. *)
Definition fills (calls : list Call) : list Call :=
  List.filter (λ c, match c with CMemsetAsync _ _ _ _ => true | _ => false end)
              calls.

Definition asks_semaphore (q : GpuStreamDevice.request) : bool :=
  match q with
  | GpuStreamDevice.Semaphore => true
  | _ => false
  end.

(** What holds of a later state [σ'] of a run that has reached [σ]: a flag
    that is set stays set, [first] once cleared stays cleared, a thread
    that has returned stays returned. *)
Definition later_of `{Runtime} (σ σ' : Proc) : Prop :=
  (m_devicePropInitialized (sys σ) = true →
   m_devicePropInitialized (sys σ') = true) ∧
  (first (sys σ) = false → first (sys σ') = false) ∧
  (∀ t, pcs σ !! t = Some Returned → pcs σ' !! t = Some Returned).

(** A thread that has returned has seen the flag set. *)
Definition returned_saw_flag `{Runtime} (σ : Proc) : Prop :=
  ∀ t, pcs σ !! t = Some Returned → m_devicePropInitialized (sys σ) = true.

(** A runtime that cannot enumerate devices: the count query fails and
    leaves a negative count. *)
Definition no_devices : Scripted.state :=
  {| Scripted.count := (gpuErrorOther 100, (-1)%Z);
     Scripted.props_status := gpuSuccess;
     Scripted.current := (gpuErrorOther 100, 0%Z);
     Scripted.set_status := gpuErrorOther 101;
     Scripted.mallocs := []; Scripted.free_status := gpuErrorOther 1;
     Scripted.async_status := gpuErrorOther 1; Scripted.busy := false;
     Scripted.stream_error := gpuSuccess |}.

End Further.

(** ** The scratch block over a run of requests *)

Module ScratchBlock.
Import GpuStreamDevice StreamDeviceWording.

Section Block.
Context `{Runtime}.
Variable cfg : Config.

(** What [gpuMalloc] leaves in [result] (line 204) when [self] asks in [s]
    for the scratch region: [allocate()] has selected the device first. *)
Definition scratch_malloc (self : t) (s : Sys) : pointer :=
  (rt_gpuMalloc (kGpuScratchSize + sizeof_unsigned_int)
     (rt (after (CSetDevice (device_ self))
                (rt_gpuSetDevice (device_ self)) s))).1.2.

(** Does the request reach the allocation of line 220? *)
Definition allocates (q : request) (self : t) : bool :=
  (scratch_ self =? NULL)%N &&
  match q with
  | Scratchpad => true
  | Semaphore => (semaphore_ self =? NULL)%N
  | _ => false
  end.

(** In the run of [qs] on an instance, from [self0] in [s0], [p] is what
    [gpuMalloc] left for a request that reached the allocation of the
    scratch region. *)
Definition allocated_in_run (qs : list request) (self0 : t) (s0 : Sys)
    (p : pointer) : Prop :=
  ∃ qs1 q qs2 self_a s_a,
    qs = qs1 ++ q :: qs2 ∧
    serve_all cfg qs1 self0 s0 = Ok (self_a, s_a) ∧
    allocates q self_a = true ∧
    p = scratch_malloc self_a s_a.


(** "[semaphore()] returns a pointer to the 4-byte slot located exactly
    1024 bytes past the start of the scratch allocation": on an instance as
    constructed, whose stream can be read, the call aborts or returns that
    address. *)
Definition semaphore_returns_the_tail_slot : Prop :=
  ∀ self s h,
    fresh self →
    deref_stream (stream_ self) s = Ok (h, s) →
    semaphore cfg self s = Err Fatal ∨
    ∃ q self1 s1,
      semaphore cfg self s = Ok ((q, self1), s1) ∧
      scratch_ self1 ≠ NULL ∧
      scratch_ self1 = scratch_malloc self s ∧
      q = (scratch_ self1 + kGpuScratchSize)%N.


End Block.
End ScratchBlock.

(** ** [ok()] after [synchronize()] *)

Module AfterSynchronize.

(** A runtime on which a stream fails right after it has been waited for:
    [gpuStreamSynchronize] reports what the stream had recorded, and the
    stream has an error recorded when it is polled next.  Everything else
    is the scripted runtime. *)
Definition fail_after (r : Scripted.state) : Scripted.state :=
  {| Scripted.count := Scripted.count r;
     Scripted.props_status := Scripted.props_status r;
     Scripted.current := Scripted.current r;
     Scripted.set_status := Scripted.set_status r;
     Scripted.mallocs := Scripted.mallocs r;
     Scripted.free_status := Scripted.free_status r;
     Scripted.async_status := Scripted.async_status r;
     Scripted.busy := false;
     Scripted.stream_error := gpuErrorOther 719 |}.

Definition late_failure : Runtime := {|
  RT := Scripted.state;
  rt_gpuGetDeviceCount := Scripted.runtime.(rt_gpuGetDeviceCount);
  rt_gpuGetDeviceProperties := Scripted.runtime.(rt_gpuGetDeviceProperties);
  rt_gpuGetDevice := Scripted.runtime.(rt_gpuGetDevice);
  rt_gpuSetDevice := Scripted.runtime.(rt_gpuSetDevice);
  rt_gpuMalloc := Scripted.runtime.(rt_gpuMalloc);
  rt_gpuFree := Scripted.runtime.(rt_gpuFree);
  rt_gpuMemsetAsync := Scripted.runtime.(rt_gpuMemsetAsync);
  rt_gpuMemcpyAsync := Scripted.runtime.(rt_gpuMemcpyAsync);
  rt_gpuStreamQuery := Scripted.runtime.(rt_gpuStreamQuery);
  rt_gpuStreamSynchronize _ r := (Scripted.stream_error r, fail_after r);
  rt_gpuDeviceSetSharedMemConfig :=
    Scripted.runtime.(rt_gpuDeviceSetSharedMemConfig);
  rt_launch := Scripted.runtime.(rt_launch);
  rt_gpuGetLastError := Scripted.runtime.(rt_gpuGetLastError);
  rt_gpuGetErrorString := Scripted.error_name
|}.

(** The sample world of [Sample.world] on that runtime. *)
Definition world (r : Scripted.state)
    : gmap N GpuStreamDevice.t * Sys (H:=late_failure) :=
  ({[ 16%N := Sample.stream_device ]},
   boot (H:=late_failure) r {[ 64%N := 7%N ]}).

(** "[ok()] returns true immediately after a successful [synchronize()]". *)
Definition ok_true_after_synchronize `{Runtime} {T : Type}
    `{!StreamInterface T} (cfg : Config) : Prop :=
  ∀ (self : GpuDevice.t) (w w1 w' : gmap N T * Sys) (h : gpuStream_t),
    GpuDevice.stream self w = Ok (h, w1) →
    (rt_gpuStreamSynchronize h (rt w1.2)).1 = gpuSuccess →
    GpuDevice.synchronize cfg self w = Ok (tt, w') →
    ∃ w'', GpuDevice.ok cfg self w' = Ok (true, w'').

End AfterSynchronize.

(** ** The checks of the copies and the fill *)

Module ErasedWording.

(** The CUDA device-side pass: a GPU compile phase with [assert] in place. *)
Definition cuda_device_cfg : Config :=
  {| cxx11 := true; EIGEN_HIP_DEVICE_COMPILE := false; NDEBUG := false;
     EIGEN_GPUCC := true; EIGEN_GPU_COMPILE_PHASE := true;
     eigen_assert_enabled := true |}.



End ErasedWording.
(** * Properties *)

(** ** The monad and the assert macro *)

Lemma bind_Ok {S A B} (m : M S A) (k : A → M S B) s b s' :
  bind m k s = Ok (b, s') ↔ ∃ a s1, m s = Ok (a, s1) ∧ k a s1 = Ok (b, s').
Proof.
  unfold bind. split.
  - destruct (m s) as [[a s1]|f]; [eauto | discriminate].
  - intros (a & s1 & -> & Hk). done.
Qed.

Lemma bind_eq {S A B} (m : M S A) (k : A → M S B) s a s1 :
  m s = Ok (a, s1) → bind m k s = k a s1.
Proof. unfold bind. by intros ->. Qed.

Lemma bind_Err {S A B} (m : M S A) (k : A → M S B) s f :
  m s = Err f → bind m k s = Err f.
Proof. unfold bind. by intros ->. Qed.

Lemma assert_erased cfg {S} (COND : M S bool) :
  asserts_erased cfg = true → assert cfg COND = ret tt.
Proof. unfold assert. by intros ->. Qed.

Lemma assert_checked cfg {S} (c : bool) (s : S) :
  asserts_erased cfg = false →
  assert cfg (ret c) s = if c then Ok (tt, s) else Err Fatal.
Proof. unfold assert, bind, ret. intros ->. by destruct c. Qed.

Lemma assert_Ok cfg {S} (c : bool) (s s' : S) u :
  assert cfg (ret c) s = Ok (u, s') →
  s' = s ∧ (asserts_erased cfg = false → c = true).
Proof.
  unfold assert, bind, ret. destruct (asserts_erased cfg).
  - intros [= _ <-]. done.
  - destruct c; [intros [= _ <-]; done | discriminate].
Qed.

(** ** The device facade *)

Module GpuDeviceFacts.
Import GpuDevice.

(** C8.  [numThreads()] is 32, [firstLevelCacheSize()] is 48*1024 bytes and
    [lastLevelCacheSize()] equals [firstLevelCacheSize()], for every facade:
    none of the three reads the bound device or its properties, so two
    facades bound to different streams and budgets agree on them. *)
Theorem cache_model_is_constant (self other : t) :
  numThreads self = 32%N ∧
  firstLevelCacheSize self = (48 * 1024)%N ∧
  firstLevelCacheSize self = 49152%N ∧
  lastLevelCacheSize self = firstLevelCacheSize self ∧
  numThreads self = numThreads other ∧
  firstLevelCacheSize self = firstLevelCacheSize other ∧
  lastLevelCacheSize self = lastLevelCacheSize other.
Proof. repeat split. Qed.

Section Facade.
Context `{Runtime} {T : Type} `{!StreamInterface T}.
Variable cfg : Config.

Lemma new_with_blocks_Ok stream num_blocks (w : World (T:=T)) d w' :
  new_with_blocks cfg stream num_blocks w = Ok (d, w') →
  d = {| stream_ := stream; max_blocks_ := num_blocks |} ∧ w' = w.
Proof.
  unfold new_with_blocks, eigen_assert, bind, ret, fail.
  destruct (eigen_assert_enabled cfg), (negb (stream =? 0)%N);
    intros [=]; by subst.
Qed.

Lemma new_Ok stream (w : World (T:=T)) d w' :
  new cfg stream w = Ok (d, w') →
  d = {| stream_ := stream; max_blocks_ := INT_MAX |} ∧ w' = w.
Proof. apply new_with_blocks_Ok. Qed.

(** C7.  A facade answers [maxBlocks()] with the budget it was constructed
    with, or with [INT_MAX], the largest [int], when none was given.  Member
    functions are [const] and do not hand back a facade, so the answer is the
    same in whatever world the facade is later used.  Both constructors run
    [eigen_assert(stream)]: where [eigen_assert] checks, a null pointer is
    fatal; a non-null pointer always constructs. *)
Theorem maxBlocks_is_the_budget (stream : N) (num_blocks : Z) (w : World (T:=T)) :
  (∀ d w', new_with_blocks cfg stream num_blocks w = Ok (d, w') →
     maxBlocks d = num_blocks ∧ stream_ d = stream ∧ w' = w) ∧
  (∀ d w', new cfg stream w = Ok (d, w') →
     maxBlocks d = INT_MAX ∧ stream_ d = stream ∧ w' = w) ∧
  INT_MAX = (2 ^ 31 - 1)%Z ∧
  (stream ≠ 0%N →
     new_with_blocks cfg stream num_blocks w
       = Ok ({| stream_ := stream; max_blocks_ := num_blocks |}, w) ∧
     new cfg stream w = Ok ({| stream_ := stream; max_blocks_ := INT_MAX |}, w)) ∧
  (eigen_assert_enabled cfg = true →
     new_with_blocks cfg 0%N num_blocks w = Err Fatal ∧
     new cfg 0%N w = Err Fatal).
Proof.
  split_and!.
  - intros d w' [-> ->]%new_with_blocks_Ok. done.
  - intros d w' [-> ->]%new_Ok. done.
  - done.
  - intros Hnz. apply N.eqb_neq in Hnz.
    unfold new, new_with_blocks, eigen_assert, bind, ret. rewrite Hnz. simpl.
    by destruct (eigen_assert_enabled cfg).
  - intros He. unfold new, new_with_blocks, eigen_assert, bind. by rewrite He.
Qed.

End Facade.

(** On the scripted runtime: a facade built with budget 64 over the stream
    device at address 16 answers 64; a null pointer is refused. *)
Lemma maxBlocks_is_the_budget_witness :
  eigen_assert_enabled host_cfg = true ∧ (16 ≠ 0)%N ∧
  new_with_blocks (T:=GpuStreamDevice.t) host_cfg 16 64
    (Sample.world Scripted.healthy)
    = Ok (Sample.facade, Sample.world Scripted.healthy) ∧
  maxBlocks Sample.facade = 64%Z ∧
  new (T:=GpuStreamDevice.t) host_cfg 0 (Sample.world Scripted.healthy)
    = Err Fatal.
Proof.
  destruct (maxBlocks_is_the_budget (H:=Scripted.runtime)
              (T:=GpuStreamDevice.t) host_cfg 16%N 64%Z
              (Sample.world Scripted.healthy))
    as (_ & _ & _ & Hnew & Hnull).
  assert (16 ≠ 0)%N as Hnz by lia.
  destruct (Hnew Hnz) as [Hblocks _]. destruct (Hnull eq_refl) as [_ Hfatal].
  split_and!; [reflexivity|exact Hnz|exact Hblocks|reflexivity|exact Hfatal].
Defined.
End GpuDeviceFacts.

Module GpuDeviceOk.
Import GpuDevice.

Section Poll.
Context `{Runtime} {T : Type} `{!StreamInterface T}.
Variable cfg : Config.

(** Built with a GPU compiler, [ok()] is one [gpuStreamQuery] on the bound
    stream, and its answer is whether the status is one of the two
    sentinels. *)
Lemma ok_polls (self : t) (w w1 : World (T:=T)) h :
  EIGEN_GPUCC cfg = true →
  stream self w = Ok (h, w1) →
  ok cfg self w
    = Ok (bool_decide ((rt_gpuStreamQuery h (rt w1.2)).1 = gpuSuccess
                       ∨ (rt_gpuStreamQuery h (rt w1.2)).1 = gpuErrorNotReady),
          (w1.1, emit (CStreamQuery h)
                   (set_rt (rt_gpuStreamQuery h (rt w1.2)).2 w1.2))).
Proof.
  intros Hcc Hs. unfold ok, stream in *. rewrite Hcc.
  unfold bind at 1 2. rewrite Hs. unfold host, gpuStreamQuery, call. simpl.
  unfold ret. do 2 f_equal. unfold is_success.
  destruct (rt_gpuStreamQuery h (rt w1.2)).1; done.
Qed.

(** Built without one, [ok()] does nothing and answers [false]. *)
Lemma ok_without_gpucc (self : t) (w : World (T:=T)) :
  EIGEN_GPUCC cfg = false → ok cfg self w = Ok (false, w).
Proof. unfold ok. by intros ->. Qed.

End Poll.
End GpuDeviceOk.

Module GpuDeviceSync.
Import GpuDevice.

Section OverStreamDevice.
Context `{Runtime}.
Variable cfg : Config.

#[local] Existing Instance GpuStreamDevice.streamInterface.

(** [stream()] of a [GpuStreamDevice] reads; it changes neither the object
    nor the process, and depends only on the caller's stream variables. *)
Lemma stream_reads (self : t) (w w1 : World (T:=GpuStreamDevice.t)) h :
  stream (StreamInterface0 := GpuStreamDevice.streamInterface cfg) self w
    = Ok (h, w1) →
  w1 = w ∧
  ∀ s', host_streams s' = host_streams w.2 →
    stream (StreamInterface0 := GpuStreamDevice.streamInterface cfg)
      self (w.1, s') = Ok (h, (w.1, s')).
Proof.
  destruct w as [objs s]. unfold stream, through. simpl.
  destruct (objs !! stream_ self) as [o|] eqn:Ho; [|discriminate].
  unfold GpuStreamDevice.stream, deref_stream, bind, ret, get, fail.
  destruct (GpuStreamDevice.stream_ o) as [|a].
  - intros [= <- <-]. rewrite insert_id by done. split; [done|].
    intros s' _. done.
  - destruct (host_streams s !! a) as [h'|] eqn:Ha; [|discriminate].
    intros [= <- <-]. rewrite insert_id by done. split; [done|].
    intros s' Hs'. rewrite Hs', Ha. simpl. by rewrite insert_id.
Qed.

Lemma synchronize_Ok (self : t) (w w' : World (T:=GpuStreamDevice.t)) :
  EIGEN_GPUCC cfg = true →
  EIGEN_GPU_COMPILE_PHASE cfg = false →
  asserts_erased cfg = false →
  synchronize (StreamInterface0 := GpuStreamDevice.streamInterface cfg)
    cfg self w = Ok (tt, w') →
  ∃ h, stream (StreamInterface0 := GpuStreamDevice.streamInterface cfg)
         self w = Ok (h, w) ∧
       (rt_gpuStreamSynchronize h (rt w.2)).1 = gpuSuccess ∧
       w' = (w.1, emit (CStreamSynchronize h)
                    (set_rt (rt_gpuStreamSynchronize h (rt w.2)).2 w.2)).
Proof.
  intros Hcc Hph Hhip. unfold synchronize. rewrite Hcc, Hph. simpl.
  intros (h & w1 & Hs & Hrest)%bind_Ok.
  destruct (stream_reads _ _ _ _ Hs) as [-> _].
  exists h. split; [done|].
  apply bind_Ok in Hrest as (err & w2 & Hsync & Hchk).
  unfold host, gpuStreamSynchronize, call in Hsync. simpl in Hsync.
  injection Hsync as <- <-.
  unfold when in Hchk.
  destruct (rt_gpuStreamSynchronize h (rt w.2)).1 eqn:Herr; simpl in Hchk.
  - unfold ret in Hchk. injection Hchk as <-. done.
  - apply bind_Ok in Hchk as (? & ? & _ & Ha).
    rewrite assert_checked in Ha by done. discriminate.
  - apply bind_Ok in Hchk as (? & ? & _ & Ha).
    rewrite assert_checked in Ha by done. discriminate.
Qed.

End OverStreamDevice.
End GpuDeviceSync.

Module GpuDeviceHealth.
Import GpuDevice.

(** What [synchronize()] of a facade over a [GpuStreamDevice] leaves when
    it returns, whether [assert] checks or not. *)
Lemma synchronize_returned `{Runtime} (cfg : Config) (self : t)
    (w w' : World (T:=GpuStreamDevice.t)) :
  EIGEN_GPUCC cfg = true →
  EIGEN_GPU_COMPILE_PHASE cfg = false →
  synchronize (StreamInterface0 := GpuStreamDevice.streamInterface cfg)
    cfg self w = Ok (tt, w') →
  ∃ h, stream (StreamInterface0 := GpuStreamDevice.streamInterface cfg)
         self w = Ok (h, w) ∧
       w'.1 = w.1 ∧
       rt w'.2 = (rt_gpuStreamSynchronize h (rt w.2)).2 ∧
       host_streams w'.2 = host_streams w.2 ∧
       trace w'.2 = trace w.2 ++ [CStreamSynchronize h] ∧
       (asserts_erased cfg = false →
          (rt_gpuStreamSynchronize h (rt w.2)).1 = gpuSuccess).
Proof.
  intros Hcc Hph. unfold synchronize. rewrite Hcc, Hph. simpl.
  intros (h & w1 & Hs & Hrest)%bind_Ok.
  destruct (GpuDeviceSync.stream_reads cfg _ _ _ _ Hs) as [-> _].
  exists h. split; [done|].
  apply bind_Ok in Hrest as (err & w2 & Hsync & Hchk).
  unfold host, gpuStreamSynchronize, call in Hsync. simpl in Hsync.
  injection Hsync as <- <-.
  unfold when in Hchk.
  destruct (is_success (rt_gpuStreamSynchronize h (rt w.2)).1) eqn:Herr;
    simpl in Hchk.
  - unfold ret in Hchk. injection Hchk as <-. split_and!; try done.
    intros _. unfold is_success in Herr. by apply bool_decide_eq_true in Herr.
  - apply bind_Ok in Hchk as ([] & w3 & Hp & Ha).
    unfold host, cerr_println, modify in Hp. simpl in Hp.
    injection Hp as <-.
    destruct (asserts_erased cfg) eqn:He.
    + rewrite assert_erased in Ha by done. unfold ret in Ha.
      injection Ha as <-. split_and!; done.
    + rewrite assert_checked in Ha by done. discriminate.
Qed.

(** C5, as the code has it.  In a build with [EIGEN_GPUCC], [ok()] issues
    one [gpuStreamQuery] on the bound stream, nothing else, and answers
    [true] exactly when the status is [gpuSuccess] or [gpuErrorNotReady]:
    for every stream interface and every setting of [assert].  After a
    [synchronize()] that returned, [ok()] is that poll again.  For a facade
    that still reaches its stream [h], it answers whether the runtime now
    reports one of the two statuses for [h]; for a facade over a
    [GpuStreamDevice] in host code it does reach the stream it has waited
    for, the poll is asked of the runtime as [gpuStreamSynchronize] left
    it, and the answer is [true] exactly when that runtime reports success
    or not-ready.  Nothing in the header makes that so. *)
Theorem ok_is_a_nonblocking_poll `{Runtime} (cfg : Config) :
  EIGEN_GPUCC cfg = true →
  (∀ (T : Type) (SI : StreamInterface T), Wording.ok_answers_the_poll cfg) ∧
  (∀ (T : Type) (SI : StreamInterface T) (self : t)
     (w w' w1 : World (T:=T)) h,
     synchronize cfg self w = Ok (tt, w') →
     stream self w' = Ok (h, w1) →
     ok cfg self w'
     = Ok (bool_decide (Wording.poll h w1 = gpuSuccess
                        ∨ Wording.poll h w1 = gpuErrorNotReady),
           (w1.1, after (CStreamQuery h) (rt_gpuStreamQuery h) w1.2))) ∧
  (EIGEN_GPU_COMPILE_PHASE cfg = false →
   ∀ (self : t) (w w' : World (T:=GpuStreamDevice.t)),
     synchronize (StreamInterface0 := GpuStreamDevice.streamInterface cfg)
       cfg self w = Ok (tt, w') →
     ∃ h, stream (StreamInterface0 := GpuStreamDevice.streamInterface cfg)
            self w = Ok (h, w) ∧
          (asserts_erased cfg = false →
             (rt_gpuStreamSynchronize h (rt w.2)).1 = gpuSuccess) ∧
          let polled :=
            (rt_gpuStreamQuery h (rt_gpuStreamSynchronize h (rt w.2)).2).1 in
          ok (StreamInterface0 := GpuStreamDevice.streamInterface cfg)
            cfg self w'
          = Ok (bool_decide (polled = gpuSuccess ∨ polled = gpuErrorNotReady),
                (w'.1, after (CStreamQuery h) (rt_gpuStreamQuery h) w'.2)) ∧
          trace w'.2 = trace w.2 ++ [CStreamSynchronize h]).
Proof.
  intros Hcc. split_and!.
  - intros T SI self w w1 h Hs. eexists. split.
    + by apply GpuDeviceOk.ok_polls.
    + done.
  - intros T SI self w w' w1 h _ Hs.
    by apply GpuDeviceOk.ok_polls.
  - intros Hph self w w' Hsync.
    destruct (synchronize_returned cfg self w w' Hcc Hph Hsync)
      as (h & Hs & Hobj & Hrt & Hhs & Ht & Hst).
    exists h. split; [done|]. split; [done|]. cbv zeta.
    destruct (GpuDeviceSync.stream_reads cfg _ _ _ _ Hs) as [_ Hstable].
    specialize (Hstable w'.2 Hhs). rewrite <- Hobj in Hstable.
    assert ((w'.1, w'.2) = w') as Hw by (by destruct w').
    rewrite Hw in Hstable.
    rewrite (GpuDeviceOk.ok_polls cfg self w' w' h Hcc Hstable).
    unfold after. rewrite Hrt. done.
Qed.

(** The scripted runtime reports success or not-ready for a stream it has
    just synchronised with success. *)
Lemma scripted_synchronize_law h (r : Scripted.state) :
  (Scripted.runtime.(rt_gpuStreamSynchronize) h r).1 = gpuSuccess →
  let after := (Scripted.runtime.(rt_gpuStreamQuery) h
                  (Scripted.runtime.(rt_gpuStreamSynchronize) h r).2).1 in
  after = gpuSuccess ∨ after = gpuErrorNotReady.
Proof. simpl. intros ->. simpl. by left. Qed.

Import Scripted.

(** On the scripted runtime, with work pending on the stream: [ok()]
    answers [true] after [synchronize()]. *)
Lemma ok_is_a_nonblocking_poll_witness :
  EIGEN_GPUCC host_cfg = true ∧
  ∃ w' w'',
    synchronize (StreamInterface0 := GpuStreamDevice.streamInterface host_cfg)
      host_cfg Sample.facade (Sample.world (with_busy true healthy))
      = Ok (tt, w') ∧
    ok (StreamInterface0 := GpuStreamDevice.streamInterface host_cfg)
      host_cfg Sample.facade w' = Ok (true, w'').
Proof.
  split; [reflexivity|].
  destruct (ok_is_a_nonblocking_poll (H:=Scripted.runtime) host_cfg eq_refl)
    as (_ & _ & Hsync).
  specialize (Hsync eq_refl).
  eassert (Hs : synchronize
                  (StreamInterface0 := GpuStreamDevice.streamInterface host_cfg)
                  host_cfg Sample.facade
                  (Sample.world (with_busy true healthy)) = Ok (tt, _))
    by (vm_compute; reflexivity).
  destruct (Hsync _ _ _ Hs) as (h & _ & _ & Hok & _).
  eexists _, _. split; [exact Hs | exact Hok].
Defined.

(** C5 as worded fails where [EIGEN_GPUCC] is not defined (line 367): on an
    idle, healthy stream the poll would report success, yet [ok()] answers
    [false], and it never asks the runtime. *)
Lemma ok_without_gpucc_is_false :
  ¬ Wording.ok_answers_the_poll
      (StreamInterface0 := GpuStreamDevice.streamInterface plain_host_cfg)
      plain_host_cfg.
Proof.
  intros Hclaim.
  destruct (Hclaim Sample.facade (Sample.world healthy)
              (Sample.world healthy) 0%N) as (w2 & Hok & _).
  - vm_compute. reflexivity.
  - vm_compute in Hok. discriminate.
Qed.

(** C5 as worded fails twice.  Built without [EIGEN_GPUCC], [ok()] answers
    [false] whatever the poll would report.  And built with it, [ok()]
    after a successful [synchronize()] is [true] only if the runtime says
    so: on a runtime whose stream fails right after it has been waited
    for, [synchronize()] returns, having seen [gpuSuccess], and [ok()]
    answers [false]. *)
Lemma ok_is_no_more_than_the_poll :
  ¬ Wording.ok_answers_the_poll
      (StreamInterface0 := GpuStreamDevice.streamInterface plain_host_cfg)
      plain_host_cfg ∧
  ¬ AfterSynchronize.ok_true_after_synchronize
      (H := AfterSynchronize.late_failure)
      (StreamInterface0 :=
         GpuStreamDevice.streamInterface (H := AfterSynchronize.late_failure)
           host_cfg)
      host_cfg ∧
  ∃ w' w'',
    synchronize (H := AfterSynchronize.late_failure)
      (StreamInterface0 :=
         GpuStreamDevice.streamInterface (H := AfterSynchronize.late_failure)
           host_cfg)
      host_cfg Sample.facade (AfterSynchronize.world healthy) = Ok (tt, w') ∧
    ok (H := AfterSynchronize.late_failure)
      (StreamInterface0 :=
         GpuStreamDevice.streamInterface (H := AfterSynchronize.late_failure)
           host_cfg)
      host_cfg Sample.facade w' = Ok (false, w'').
Proof.
  split_and!.
  - exact ok_without_gpucc_is_false.
  - intros Hclaim.
    destruct (Hclaim Sample.facade (AfterSynchronize.world healthy)
                (AfterSynchronize.world healthy) _ 0%N
                ltac:(vm_compute; reflexivity) ltac:(vm_compute; reflexivity)
                ltac:(vm_compute; reflexivity)) as [w'' Hok].
    vm_compute in Hok. discriminate.
  - eexists _, _. split; vm_compute; reflexivity.
Qed.

End GpuDeviceHealth.

(** ** Effects of runtime calls *)

Section EffectFacts.
Context `{Runtime}.


Lemma issues_trans s s1 s2 a b :
  issues s s1 a → issues s1 s2 b → issues s s2 (a ++ b).
Proof.
  intros (Ht1 & Hc1 & Hh1) (Ht2 & Hc2 & Hh2). unfold issues.
  rewrite Ht2, Ht1, Hc2, Hc1, Hh2, Hh1. by rewrite app_assoc.
Qed.

Lemma call_eq {A} c (f : RT → A * RT) s :
  call c f s = Ok ((f (rt s)).1, after c f s).
Proof. done. Qed.

Lemma issues_after {A} c (f : RT → A * RT) s : issues s (after c f s) [c].
Proof. done. Qed.

End EffectFacts.

(** Two runtime calls in a row. *)
Ltac two_calls :=
  eapply (issues_trans _ _ _ [_] [_]); [|apply issues_after]; apply issues_after.

(** ** The concrete stream device *)

Module GpuStreamDeviceFacts.
Import GpuStreamDevice.

Section Memory.
Context `{Runtime}.
Variable cfg : Config.

(** [allocate] in full: two runtime calls, then the three asserts. *)
Lemma allocate_eq num_bytes self s :
  let s1 := after (CSetDevice (device_ self)) (rt_gpuSetDevice (device_ self)) s in
  let s2 := after (CMalloc num_bytes) (rt_gpuMalloc num_bytes) s1 in
  let err := (rt_gpuSetDevice (device_ self) (rt s)).1 in
  let r := (rt_gpuMalloc num_bytes (rt s1)).1 in
  allocate cfg num_bytes self s
    = if asserts_erased cfg then Ok (r.2, s2)
      else if is_success err && is_success r.1 && negb (r.2 =? NULL)%N
           then Ok (r.2, s2) else Err Fatal.
Proof.
  simpl. unfold allocate, assert, gpuSetDevice, gpuMalloc.
  unfold bind at 1. rewrite call_eq.
  destruct (asserts_erased cfg); [done|].
  unfold bind, ret, fail. simpl.
  destruct (is_success _); [|done]. simpl.
  destruct (is_success _); [|done]. simpl.
  by destruct (negb _).
Qed.

(** [deallocate] in full. *)
Lemma deallocate_eq buffer self s :
  let s1 := after (CSetDevice (device_ self)) (rt_gpuSetDevice (device_ self)) s in
  let s2 := after (CFree buffer) (rt_gpuFree buffer) s1 in
  let err := (rt_gpuSetDevice (device_ self) (rt s)).1 in
  let err' := (rt_gpuFree buffer (rt s1)).1 in
  deallocate cfg buffer self s
    = if asserts_erased cfg then Ok (tt, s2)
      else if is_success err && negb (buffer =? NULL)%N then
             if is_success err' then Ok (tt, s2) else Err Fatal
           else Err Fatal.
Proof.
  simpl. unfold deallocate, assert, gpuSetDevice, gpuFree.
  unfold bind at 1. rewrite call_eq.
  destruct (asserts_erased cfg); [done|].
  unfold bind, ret, fail. simpl.
  destruct (is_success _); [|done]. simpl.
  destruct (negb _); [|done]. simpl.
  by destruct (is_success _).
Qed.

Lemma allocate_Ok num_bytes self s p s' :
  allocate cfg num_bytes self s = Ok (p, s') →
  issues s s' [CSetDevice (device_ self); CMalloc num_bytes] ∧
  (asserts_erased cfg = false → p ≠ NULL).
Proof.
  rewrite allocate_eq. simpl.
  destruct (asserts_erased cfg).
  - intros [= <- <-]. split; [|done].
    two_calls.
  - destruct (_ && _) eqn:Hc; [|discriminate].
    intros [= <- <-]. split.
    + two_calls.
    + intros _. apply andb_prop in Hc as [_ Hnz].
      apply negb_true_iff, N.eqb_neq in Hnz. done.
Qed.

Lemma deallocate_Ok buffer self s u s' :
  deallocate cfg buffer self s = Ok (u, s') →
  issues s s' [CSetDevice (device_ self); CFree buffer].
Proof.
  rewrite deallocate_eq. simpl. destruct u.
  destruct (asserts_erased cfg).
  - intros [= <-]. two_calls.
  - destruct (_ && _); [|discriminate].
    destruct (is_success _); [|discriminate].
    intros [= <-]. two_calls.
Qed.

End Memory.
End GpuStreamDeviceFacts.

Module ScratchFacts.
Import GpuStreamDevice StreamDeviceWording ScratchBlock.

Section Scratch.
Context `{Runtime}.
Variable cfg : Config.

Lemma deref_stream_Ok p s h s' :
  deref_stream p s = Ok (h, s') →
  s' = s ∧ ∀ s2, host_streams s2 = host_streams s →
                 deref_stream p s2 = Ok (h, s2).
Proof.
  unfold deref_stream, bind, get, ret, fail. destruct p as [|a].
  - intros [= <- <-]. done.
  - destruct (host_streams s !! a) as [h'|] eqn:Ha; [|discriminate].
    intros [= <- <-]. split; [done|]. intros s2 ->. by rewrite Ha.
Qed.

Lemma scratchpad_cached self s :
  scratch_ self ≠ NULL →
  scratchpad cfg self s = Ok ((scratch_ self, self), s).
Proof.
  intros Hnz%N.eqb_neq. unfold scratchpad. by rewrite Hnz.
Qed.

Lemma scratchpad_first self s p self1 s1 :
  scratch_ self = NULL →
  scratchpad cfg self s = Ok ((p, self1), s1) →
  self1 = set_scratch_ p self ∧
  issues s s1 [CSetDevice (device_ self);
               CMalloc (kGpuScratchSize + sizeof_unsigned_int)] ∧
  (asserts_erased cfg = false → p ≠ NULL).
Proof.
  intros Hz. unfold scratchpad. rewrite Hz. simpl.
  intros (p' & s2 & Ha & [= <- <- <-])%bind_Ok.
  apply GpuStreamDeviceFacts.allocate_Ok in Ha as [Hi Hnz]. done.
Qed.

(** Whatever [scratchpad()] does, it does not move an allocated block or
    touch the other members. *)
Lemma scratchpad_Ok self s p self1 s1 :
  scratchpad cfg self s = Ok ((p, self1), s1) →
  scratch_ self1 = p ∧
  (scratch_ self ≠ NULL → self1 = self ∧ s1 = s) ∧
  (asserts_erased cfg = false → p ≠ NULL) ∧
  stream_ self1 = stream_ self ∧ device_ self1 = device_ self ∧
  semaphore_ self1 = semaphore_ self ∧
  host_streams s1 = host_streams s.
Proof.
  destruct (decide (scratch_ self = NULL)) as [Hz|Hnz].
  - intros (-> & (_ & _ & Hh) & Hp)%scratchpad_first; [|done].
    split_and!; try done.
  - rewrite scratchpad_cached by done. intros [= <- <- <-].
    split_and!; done.
Qed.

Lemma semaphore_cached self s :
  semaphore_ self ≠ NULL →
  semaphore cfg self s = Ok ((semaphore_ self, self), s).
Proof.
  intros Hnz%N.eqb_neq. unfold semaphore. by rewrite Hnz.
Qed.

(** The first [semaphore()] in full. *)
Lemma semaphore_first self s q self1 s1 :
  semaphore_ self = NULL →
  semaphore cfg self s = Ok ((q, self1), s1) →
  ∃ p self' s' h,
    scratchpad cfg self s = Ok ((p, self'), s') ∧
    p ≠ NULL ∧ q = (p + kGpuScratchSize)%N ∧
    self1 = set_semaphore_ q self' ∧
    deref_stream (stream_ self) s = Ok (h, s) ∧
    issues s' s1 [CMemsetAsync q 0 sizeof_unsigned_int h].
Proof.
  intros Hz. unfold semaphore. rewrite Hz. simpl.
  intros ([p self'] & s' & Hsp & Hrest)%bind_Ok. simpl in Hrest.
  apply bind_Ok in Hrest as (q' & s2 & Hadd & Hrest).
  unfold ptr_add in Hadd.
  destruct (p =? NULL)%N eqn:Hp; [discriminate|]. apply N.eqb_neq in Hp.
  injection Hadd as <- <-.
  apply bind_Ok in Hrest as (h & s3 & Hd & Hrest). simpl in Hd.
  destruct (scratchpad_Ok _ _ _ _ _ Hsp) as (_ & _ & _ & Hst & _ & _ & Hh).
  rewrite Hst in Hd.
  destruct (deref_stream_Ok _ _ _ _ Hd) as [-> Hd'].
  apply bind_Ok in Hrest as (err & s4 & Hm & Hrest).
  unfold gpuMemsetAsync in Hm. rewrite call_eq in Hm. injection Hm as <- <-.
  apply bind_Ok in Hrest as ([] & s5 & Ha & [= <- <- <-]).
  apply assert_Ok in Ha as [-> _].
  exists p, self', s', h. split_and!; try done. by apply Hd'.
Qed.

(** Serving a request moves neither an allocated scratch block nor an
    initialised semaphore, and once [semaphore()] has returned there is a
    scratch block. *)
Lemma serve_keeps q self s self' s' :
  serve cfg q self s = Ok (self', s') →
  stream_ self' = stream_ self ∧ device_ self' = device_ self ∧
  host_streams s' = host_streams s ∧
  (scratch_ self ≠ NULL → scratch_ self' = scratch_ self) ∧
  (semaphore_ self ≠ NULL → semaphore_ self' = semaphore_ self) ∧
  (asks_scratch q = false → self' = self) ∧
  (q = Semaphore → semaphore_ self ≠ NULL → s' = s ∧ self' = self).
Proof.
  destruct q; simpl.
  - intros (? & ? & Hs & Hr)%bind_Ok. unfold ret in Hr. simplify_eq.
    apply deref_stream_Ok in Hs as [-> _]. split_and!; done.
  - intros (? & ? & Hs & Hr)%bind_Ok. unfold ret in Hr. simplify_eq.
    unfold deviceProperties, bind, get, fail, ret in Hs.
    repeat case_match; simplify_eq; split_and!; done.
  - intros (? & ? & [(_ & _ & Hh) _]%GpuStreamDeviceFacts.allocate_Ok
              & Hr)%bind_Ok.
    unfold ret in Hr. simplify_eq. split_and!; done.
  - intros (? & ? & (_ & _ & Hh)%GpuStreamDeviceFacts.deallocate_Ok
              & Hr)%bind_Ok.
    unfold ret in Hr. simplify_eq. split_and!; done.
  - intros ([p self1] & s1 & Hs & Hr)%bind_Ok.
    unfold ret in Hr. simplify_eq/=.
    apply scratchpad_Ok in Hs as (Hp & Hc & _ & ? & ? & Hsem & ?).
    split_and!; try done.
    intros Hnz. destruct (Hc Hnz) as [-> _]. done.
  - intros ([p self1] & s1 & Hs & Hr)%bind_Ok.
    unfold ret in Hr. simplify_eq/=.
    destruct (decide (semaphore_ self = NULL)) as [Hz|Hnz].
    + apply semaphore_first in Hs as (p' & self2 & s2 & h & Hsp & Hp & -> & ->
                                        & _ & (_ & _ & Hh)); [|done].
      apply scratchpad_Ok in Hsp as (Hp' & Hc & _ & ? & ? & Hsem & Hh').
      split_and!; try done.
      * by rewrite Hh, Hh'.
      * intros Hnz. destruct (Hc Hnz) as [-> _]. done.
    + rewrite semaphore_cached in Hs by done. simplify_eq.
      split_and!; done.
Qed.

Lemma serve_all_keeps qs self s self' s' :
  serve_all cfg qs self s = Ok (self', s') →
  stream_ self' = stream_ self ∧ device_ self' = device_ self ∧
  host_streams s' = host_streams s ∧
  (scratch_ self ≠ NULL → scratch_ self' = scratch_ self) ∧
  (semaphore_ self ≠ NULL → semaphore_ self' = semaphore_ self) ∧
  (existsb asks_scratch qs = false → self' = self).
Proof.
  revert self s. induction qs as [|q qs IH]; intros self s; simpl.
  - unfold ret. intros ?; simplify_eq. split_and!; done.
  - intros (self1 & s1 & Hq & Hqs)%bind_Ok.
    apply serve_keeps in Hq as (Hst & Hd & Hh & Hsc & Hsem & Hsame & _).
    apply IH in Hqs as (Hst' & Hd' & Hh' & Hsc' & Hsem' & Hsame').
    split_and!.
    + by rewrite Hst', Hst.
    + by rewrite Hd', Hd.
    + by rewrite Hh', Hh.
    + intros Hnz. rewrite Hsc'; rewrite Hsc; done.
    + intros Hnz. rewrite Hsem'; rewrite Hsem; done.
    + intros [Hq Hqs]%orb_false_elim. rewrite Hsame', Hsame; done.
Qed.

(** C2, as the code has it.  The first [scratchpad()] of an instance
    issues one [gpuMalloc] of [kGpuScratchSize + sizeof(unsigned int)] = 1028
    bytes on the bound device.  When that call returns a non-null pointer
    [p], which it always does where [assert] aborts, every later
    [scratchpad()] on the instance, after any other requests, returns [p],
    asks nothing of the runtime and leaves the instance as it is. *)
Theorem scratchpad_allocates_once self s p self1 s1 :
  asserts_erased cfg = false ∨ p ≠ NULL →
  scratch_ self = NULL →
  scratchpad cfg self s = Ok ((p, self1), s1) →
  p ≠ NULL ∧
  issues s s1 [CSetDevice (device_ self);
               CMalloc (kGpuScratchSize + sizeof_unsigned_int)] ∧
  (kGpuScratchSize + sizeof_unsigned_int = 1028)%N ∧
  ∀ qs self2 s2,
    serve_all cfg qs self1 s1 = Ok (self2, s2) →
    scratchpad cfg self2 s2 = Ok ((p, self2), s2).
Proof.
  intros Hor Hz Hsp.
  destruct (scratchpad_first _ _ _ _ _ Hz Hsp) as (-> & Hi & Hnz).
  assert (p ≠ NULL) as Hp by (destruct Hor; auto).
  split_and!; try done.
  intros qs self2 s2 (_ & _ & _ & Hsc & _)%serve_all_keeps.
  simpl in Hsc. specialize (Hsc Hp).
  rewrite <- Hsc at 1. apply scratchpad_cached. by rewrite Hsc.
Qed.

(** What [allocate()] returns is what [gpuMalloc] left. *)
Lemma allocate_result num_bytes self s p s1 :
  allocate cfg num_bytes self s = Ok (p, s1) →
  p = (rt_gpuMalloc num_bytes
         (rt (after (CSetDevice (device_ self))
                    (rt_gpuSetDevice (device_ self)) s))).1.2.
Proof.
  rewrite GpuStreamDeviceFacts.allocate_eq. cbv zeta.
  destruct (asserts_erased cfg).
  - intros ?. by simplify_eq.
  - destruct (_ && _); [|discriminate]. intros ?. by simplify_eq.
Qed.

(** The block [scratchpad()] keeps is the one [gpuMalloc] left. *)
Lemma scratchpad_block self s p self1 s1 :
  scratch_ self = NULL →
  scratchpad cfg self s = Ok ((p, self1), s1) →
  p = scratch_malloc self s ∧ scratch_ self1 = p.
Proof.
  intros Hz Hsp. split; [|by apply scratchpad_Ok in Hsp as (? & _)].
  revert Hsp. unfold scratchpad. rewrite Hz. simpl.
  intros (p' & s2 & Ha & [= <- <- <-])%bind_Ok.
  by apply allocate_result in Ha.
Qed.

(** Which block an instance holds after one request. *)
Lemma serve_block q self s self' s' :
  serve cfg q self s = Ok (self', s') →
  scratch_ self'
  = if allocates q self then scratch_malloc self s else scratch_ self.
Proof.
  intros Hq. unfold allocates.
  destruct (asks_scratch q) eqn:Hask.
  - destruct q; try discriminate; simpl in Hq;
      apply bind_Ok in Hq as ([p0 self0] & s0 & Hcall & Hr);
      unfold ret in Hr; simplify_eq/=.
    + rewrite andb_true_r.
      destruct (scratch_ self =? NULL)%N eqn:Hz.
      * apply N.eqb_eq in Hz.
        by destruct (scratchpad_block _ _ _ _ _ Hz Hcall) as [<- ->].
      * apply N.eqb_neq in Hz. rewrite scratchpad_cached in Hcall by done.
        by simplify_eq.
    + destruct (semaphore_ self =? NULL)%N eqn:Hsz.
      * apply N.eqb_eq in Hsz.
        apply semaphore_first in Hcall
          as (p & self2 & s2 & h & Hsp & Hp & -> & -> & _); [|done].
        simpl. rewrite andb_true_r.
        destruct (scratch_ self =? NULL)%N eqn:Hz.
        -- apply N.eqb_eq in Hz.
           by destruct (scratchpad_block _ _ _ _ _ Hz Hsp) as [<- ->].
        -- apply N.eqb_neq in Hz. rewrite scratchpad_cached in Hsp by done.
           by simplify_eq.
      * apply N.eqb_neq in Hsz. rewrite semaphore_cached in Hcall by done.
        simplify_eq. by rewrite andb_false_r.
  - apply serve_keeps in Hq as (_ & _ & _ & _ & _ & Hsame & _).
    rewrite Hsame by done.
    destruct q; try discriminate; by rewrite andb_false_r.
Qed.

Lemma serve_all_app qs1 qs2 self s self' s' :
  serve_all cfg (qs1 ++ qs2) self s = Ok (self', s') ↔
  ∃ self1 s1, serve_all cfg qs1 self s = Ok (self1, s1) ∧
              serve_all cfg qs2 self1 s1 = Ok (self', s').
Proof.
  revert self s. induction qs1 as [|q qs1 IH]; intros self s; simpl.
  - split.
    + intros Hrun. by exists self, s.
    + intros (self1 & s1 & Hr & Hrun). unfold ret in Hr. by simplify_eq.
  - rewrite bind_Ok. split.
    + intros (self0 & s0 & Hq & (self1 & s1 & H1 & H2)%IH).
      exists self1, s1. split; [|done]. by rewrite (bind_eq _ _ _ _ _ Hq).
    + intros (self1 & s1 & (self0 & s0 & Hq & H1)%bind_Ok & H2).
      exists self0, s0. split; [done|]. apply IH. by exists self1, s1.
Qed.

(** An instance that holds a block allocates no other. *)
Lemma no_allocation_with_a_block qs self0 s0 p :
  scratch_ self0 ≠ NULL → ¬ allocated_in_run cfg qs self0 s0 p.
Proof.
  intros Hnz (qs1 & q & qs2 & self_a & s_a & _ & Hrun & Hal & _).
  apply serve_all_keeps in Hrun as (_ & _ & _ & Hk & _).
  specialize (Hk Hnz). unfold allocates in Hal.
  apply andb_true_iff in Hal as [Hz%N.eqb_eq _]. congruence.
Qed.

(** The block an instance holds after a run of requests, if any, is the
    one non-null block that [gpuMalloc] left for its scratch region. *)
Lemma run_block qs : ∀ self0 s0 self s,
  serve_all cfg qs self0 s0 = Ok (self, s) →
  scratch_ self0 = NULL →
  (scratch_ self ≠ NULL → allocated_in_run cfg qs self0 s0 (scratch_ self)) ∧
  (∀ p, p ≠ NULL → allocated_in_run cfg qs self0 s0 p → scratch_ self = p).
Proof.
  induction qs as [|q qs IH]; intros self0 s0 self s; simpl.
  - unfold ret. intros ? Hz. simplify_eq. split; [done|].
    intros p _ (qs1 & q & qs2 & ? & ? & Heq & _). by destruct qs1.
  - intros (self1 & s1 & Hq & Hrun)%bind_Ok Hz.
    pose proof (serve_block _ _ _ _ _ Hq) as Hblock. rewrite Hz in Hblock.
    destruct (decide (scratch_ self1 = NULL)) as [Hz1|Hnz1].
    + destruct (IH _ _ _ _ Hrun Hz1) as [Hhas Honly]. split.
      * intros Hnz.
        destruct (Hhas Hnz) as (qs1 & q' & qs2 & self_a & s_a
                                & -> & Ha & Hal & Hp).
        exists (q :: qs1), q', qs2, self_a, s_a. split_and!; try done.
        simpl. by rewrite (bind_eq _ _ _ _ _ Hq).
      * intros p Hp (qs1 & q' & qs2 & self_a & s_a & Heq & Ha & Hal & Hpeq).
        destruct qs1 as [|q1 qs1]; simpl in Heq, Ha.
        -- unfold ret in Ha. simplify_eq. rewrite Hal in Hblock. congruence.
        -- injection Heq as <- ->.
           apply bind_Ok in Ha as (self1' & s1' & Hq' & Ha).
           rewrite Hq in Hq'. simplify_eq.
           apply Honly; [done|]. by exists qs1, q', qs2, self_a, s_a.
    + assert (scratch_ self = scratch_ self1) as Hkeep.
      { apply serve_all_keeps in Hrun as (_ & _ & _ & Hk & _). by apply Hk. }
      assert (allocates q self0 = true ∧
              scratch_ self1 = scratch_malloc self0 s0) as [Hal1 Hp1].
      { destruct (allocates q self0); [done|]. by rewrite Hblock in Hnz1. }
      split.
      * intros _. exists [], q, qs, self0, s0. rewrite Hkeep. done.
      * intros p Hp (qs1 & q' & qs2 & self_a & s_a & Heq & Ha & Hal & Hpeq).
        destruct qs1 as [|q1 qs1]; simpl in Heq, Ha.
        -- unfold ret in Ha. simplify_eq. congruence.
        -- injection Heq as <- ->.
           apply bind_Ok in Ha as (self1' & s1' & Hq' & Ha).
           rewrite Hq in Hq'. simplify_eq.
           exfalso. apply (no_allocation_with_a_block (qs1 ++ q' :: qs2)
                             self1' s1' (scratch_malloc self_a s_a) Hnz1).
           by exists qs1, q', qs2, self_a, s_a.
Qed.

(** Lines 227-233, once [scratchpad()] has returned the block [p]. *)
Lemma semaphore_slot p self' s2 h :
  p ≠ NULL →
  deref_stream (stream_ self') s2 = Ok (h, s2) →
  let q := (p + kGpuScratchSize)%N in
  (scratch <- ptr_add p kGpuScratchSize;
   h0 <- deref_stream (stream_ (set_semaphore_ scratch self'));
   err <- gpuMemsetAsync (semaphore_ (set_semaphore_ scratch self'))
            0 sizeof_unsigned_int h0;
   assert cfg (ret (is_success err));;
   ret (semaphore_ (set_semaphore_ scratch self'),
        set_semaphore_ scratch self')) s2
  = if asserts_erased cfg
       || is_success (rt_gpuMemsetAsync q 0 sizeof_unsigned_int h (rt s2)).1
    then Ok ((q, set_semaphore_ q self'),
             after (CMemsetAsync q 0 sizeof_unsigned_int h)
                   (rt_gpuMemsetAsync q 0 sizeof_unsigned_int h) s2)
    else Err Fatal.
Proof.
  intros Hp%N.eqb_neq Hd. cbv zeta.
  unfold ptr_add. rewrite Hp. unfold bind at 1. unfold ret at 1. simpl.
  unfold bind at 1. rewrite Hd.
  unfold gpuMemsetAsync. unfold bind at 1. rewrite call_eq.
  unfold assert, bind, ret, fail.
  destruct (asserts_erased cfg); simpl; [done|].
  by destruct (is_success _).
Qed.

(** The first [semaphore()] of an instance as constructed, in full. *)
Lemma semaphore_fresh_eq self s h :
  scratch_ self = NULL → semaphore_ self = NULL →
  deref_stream (stream_ self) s = Ok (h, s) →
  let s1 := after (CSetDevice (device_ self))
                  (rt_gpuSetDevice (device_ self)) s in
  let s2 := after (CMalloc (kGpuScratchSize + sizeof_unsigned_int))
                  (rt_gpuMalloc (kGpuScratchSize + sizeof_unsigned_int)) s1 in
  let p := scratch_malloc self s in
  let q := (p + kGpuScratchSize)%N in
  let switched := is_success (rt_gpuSetDevice (device_ self) (rt s)).1 in
  let allocated :=
    is_success (rt_gpuMalloc (kGpuScratchSize + sizeof_unsigned_int)
                  (rt s1)).1.1 in
  let filled :=
    is_success (rt_gpuMemsetAsync q 0 sizeof_unsigned_int h (rt s2)).1 in
  let returns :=
    Ok ((q, set_semaphore_ q (set_scratch_ p self)),
        after (CMemsetAsync q 0 sizeof_unsigned_int h)
              (rt_gpuMemsetAsync q 0 sizeof_unsigned_int h) s2) in
  semaphore cfg self s
  = if asserts_erased cfg
    then (if (p =? NULL)%N then Err Undefined else returns)
    else if switched && allocated && negb (p =? NULL)%N
         then (if filled then returns else Err Fatal)
         else Err Fatal.
Proof.
  intros Hsc Hsem Hd. cbv zeta.
  set (s1 := after (CSetDevice (device_ self)) _ s).
  set (s2 := after (CMalloc _) _ s1).
  set (p := scratch_malloc self s).
  assert (deref_stream (stream_ (set_scratch_ p self)) s2 = Ok (h, s2)) as Hd2.
  { apply deref_stream_Ok in Hd as [_ Hd]. by apply Hd. }
  unfold semaphore, scratchpad. rewrite Hsem, Hsc.
  change (NULL =? NULL)%N with true. cbv iota.
  unfold bind at 1 2. rewrite GpuStreamDeviceFacts.allocate_eq. cbv zeta.
  fold (scratch_malloc self s). fold s1. fold s2. fold p.
  destruct (p =? NULL)%N eqn:Hp.
  - apply N.eqb_eq in Hp. rewrite andb_false_r.
    destruct (asserts_erased cfg); [|done].
    unfold ret at 1. cbv beta iota. unfold bind at 1, ptr_add. simpl.
    by rewrite Hp.
  - apply N.eqb_neq in Hp. rewrite andb_true_r.
    pose proof (semaphore_slot p (set_scratch_ p self) s2 h Hp Hd2) as Hslot.
    cbv zeta in Hslot.
    destruct (asserts_erased cfg) eqn:He.
    + unfold ret at 1. cbv beta iota. simpl in Hslot |- *. exact Hslot.
    + destruct (is_success (rt_gpuSetDevice (device_ self) (rt s)).1 && _);
        [|done].
      unfold ret at 1. cbv beta iota. simpl in Hslot |- *. exact Hslot.
Qed.

(** C3, as the code has it.  A first [semaphore()] of an instance that
    returns, returns the address [kGpuScratchSize] = 1024 bytes past the
    start of the scratch block, and that block is what [gpuMalloc] left for
    the 1028-byte scratch region: left to this call if the instance had no
    block yet, and to the one request that allocated otherwise.  The call
    issues exactly one runtime call after the allocation, if any:
    [gpuMemsetAsync] of 0 over the [sizeof(unsigned int)] = 4 bytes at that
    address, on the bound stream.  Every later [semaphore()], after any
    other requests, returns the same address, asks nothing of the runtime
    and leaves the instance as it is; the scratch block has not moved.

    Whether the first call returns is decided by the allocation.  On an
    instance with no block yet: where [assert] checks it returns if the
    device switch, the allocation and the fill report [gpuSuccess] and the
    block is not null, and aborts otherwise; where [assert] is erased it
    returns whatever the statuses, unless [gpuMalloc] left a null pointer:
    then it computes [NULL + kGpuScratchSize], which is undefined.  On an
    instance that holds a block it returns unless [assert] checks and the
    fill fails. *)
Theorem semaphore_is_the_tail_slot self s :
  semaphore_ self = NULL →
  (∀ q self1 s1,
     semaphore cfg self s = Ok ((q, self1), s1) →
     scratch_ self1 ≠ NULL ∧
     q = (scratch_ self1 + kGpuScratchSize)%N ∧
     kGpuScratchSize = 1024%N ∧ sizeof_unsigned_int = 4%N ∧
     scratch_ self1
     = (if (scratch_ self =? NULL)%N then scratch_malloc self s
        else scratch_ self) ∧
     (∀ qs0 self0 s0,
        fresh self0 →
        serve_all cfg qs0 self0 s0 = Ok (self, s) →
        allocated_in_run cfg (qs0 ++ [Semaphore]) self0 s0 (scratch_ self1)) ∧
     (∃ h, deref_stream (stream_ self) s = Ok (h, s) ∧
           issues s s1
             ((if (scratch_ self =? NULL)%N
               then [CSetDevice (device_ self);
                     CMalloc (kGpuScratchSize + sizeof_unsigned_int)]
               else [])
              ++ [CMemsetAsync q 0 sizeof_unsigned_int h])) ∧
     ∀ qs self2 s2,
       serve_all cfg qs self1 s1 = Ok (self2, s2) →
       semaphore cfg self2 s2 = Ok ((q, self2), s2) ∧
       scratch_ self2 = scratch_ self1) ∧
  (∀ h,
     scratch_ self = NULL →
     deref_stream (stream_ self) s = Ok (h, s) →
     let s1 := after (CSetDevice (device_ self))
                     (rt_gpuSetDevice (device_ self)) s in
     let s2 := after (CMalloc (kGpuScratchSize + sizeof_unsigned_int))
                     (rt_gpuMalloc (kGpuScratchSize + sizeof_unsigned_int))
                     s1 in
     let p := scratch_malloc self s in
     let q := (p + kGpuScratchSize)%N in
     let switched := is_success (rt_gpuSetDevice (device_ self) (rt s)).1 in
     let allocated :=
       is_success (rt_gpuMalloc (kGpuScratchSize + sizeof_unsigned_int)
                     (rt s1)).1.1 in
     let filled :=
       is_success (rt_gpuMemsetAsync q 0 sizeof_unsigned_int h (rt s2)).1 in
     let returns :=
       Ok ((q, set_semaphore_ q (set_scratch_ p self)),
           after (CMemsetAsync q 0 sizeof_unsigned_int h)
                 (rt_gpuMemsetAsync q 0 sizeof_unsigned_int h) s2) in
     semaphore cfg self s
     = if asserts_erased cfg
       then (if (p =? NULL)%N then Err Undefined else returns)
       else if switched && allocated && negb (p =? NULL)%N
            then (if filled then returns else Err Fatal)
            else Err Fatal) ∧
  (∀ h,
     scratch_ self ≠ NULL →
     deref_stream (stream_ self) s = Ok (h, s) →
     let q := (scratch_ self + kGpuScratchSize)%N in
     semaphore cfg self s
     = if asserts_erased cfg
          || is_success (rt_gpuMemsetAsync q 0 sizeof_unsigned_int h (rt s)).1
       then Ok ((q, set_semaphore_ q self),
                after (CMemsetAsync q 0 sizeof_unsigned_int h)
                      (rt_gpuMemsetAsync q 0 sizeof_unsigned_int h) s)
       else Err Fatal).
Proof.
  intros Hz. split_and!.
  - intros q self1 s1 Hsem.
    destruct (semaphore_first _ _ _ _ _ Hz Hsem)
      as (p & self' & s' & h & Hsp & Hp & -> & -> & Hd & Hm).
    assert (Hsc : scratch_ self' = p)
      by (by destruct (scratchpad_Ok _ _ _ _ _ Hsp)).
    simpl. rewrite Hsc. split_and!; try done.
    + destruct (scratch_ self =? NULL)%N eqn:Hs0.
      * apply N.eqb_eq in Hs0.
        by destruct (scratchpad_block _ _ _ _ _ Hs0 Hsp) as [-> _].
      * apply N.eqb_neq in Hs0. rewrite scratchpad_cached in Hsp by done.
        by simplify_eq.
    + intros qs0 self0 s0 [Hz0 _] Hrun.
      assert (serve_all cfg (qs0 ++ [Semaphore]) self0 s0
              = Ok (set_semaphore_ (p + kGpuScratchSize)%N self', s1))
        as Hrun1.
      { apply serve_all_app. exists self, s. split; [done|]. simpl.
        unfold bind. by rewrite Hsem. }
      destruct (run_block _ _ _ _ _ Hrun1 Hz0) as [Hhas _].
      simpl in Hhas. rewrite Hsc in Hhas. by apply Hhas.
    + exists h. split; [done|].
      destruct (scratch_ self =? NULL)%N eqn:Hs0.
      * apply N.eqb_eq in Hs0.
        destruct (scratchpad_first _ _ _ _ _ Hs0 Hsp) as (_ & Hi & _).
        eapply issues_trans; done.
      * apply N.eqb_neq in Hs0. rewrite scratchpad_cached in Hsp by done.
        simplify_eq. done.
    + intros qs self2 s2 (_ & _ & _ & Hsc2 & Hsem2 & _)%serve_all_keeps.
      simpl in Hsc2, Hsem2.
      assert ((p + kGpuScratchSize)%N ≠ NULL) as Hq
        by (unfold NULL, kGpuScratchSize; lia).
      specialize (Hsem2 Hq). rewrite Hsc in Hsc2. specialize (Hsc2 Hp).
      split; [|done].
      rewrite <- Hsem2 at 1. apply semaphore_cached. by rewrite Hsem2.
  - intros h Hsc Hd. by apply semaphore_fresh_eq.
  - intros h Hsc Hd. cbv zeta.
    pose proof (semaphore_slot (scratch_ self) self s h Hsc Hd) as Hslot.
    cbv zeta in Hslot. rewrite <- Hslot.
    unfold semaphore. rewrite Hz. change (NULL =? NULL)%N with true.
    cbv iota. unfold bind at 1. by rewrite scratchpad_cached.
Qed.


Lemma destroy_eq self s :
  destroy cfg self s
    = if (scratch_ self =? NULL)%N then Ok (tt, s)
      else deallocate cfg (scratch_ self) self s.
Proof. unfold destroy, when. by destruct (scratch_ self =? NULL)%N. Qed.


End Scratch.
End ScratchFacts.

Module ScratchExamples.
Import GpuStreamDevice StreamDeviceWording ScratchBlock ScratchFacts Scripted.

(** On the scripted runtime: the first [scratchpad()] returns the block at
    4096, and so does the next one after a [semaphore()] in between. *)
Lemma scratchpad_allocates_once_witness :
  ∃ self1 s1 self2 s2,
    scratchpad host_cfg Sample.stream_device (Sample.process healthy)
      = Ok ((4096%N, self1), s1) ∧
    serve_all host_cfg [Semaphore] self1 s1 = Ok (self2, s2) ∧
    scratchpad host_cfg self2 s2 = Ok ((4096%N, self2), s2).
Proof.
  eassert (H1 : scratchpad host_cfg Sample.stream_device
                  (Sample.process healthy) = Ok ((4096%N, _), _))
    by (vm_compute; reflexivity).
  lazymatch type of H1 with
  | _ = Ok (_, ?self1, ?s1) =>
      eassert (H2 : serve_all host_cfg [Semaphore] self1 s1 = Ok (_, _))
        by (vm_compute; reflexivity)
  end.
  destruct (scratchpad_allocates_once host_cfg Sample.stream_device _ _ _ _
              (or_introl eq_refl) eq_refl H1) as (_ & _ & _ & Hnext).
  eexists _, _, _, _. split; [exact H1|]. split; [exact H2|].
  exact (Hnext _ _ _ H2).
Defined.

(** C2 as worded fails where [assert] is erased, in the HIP device pass as
    in a release build: the allocation fails, the first call returns null
    and keeps nothing, and the second call allocates again and returns
    another pointer. *)
Lemma scratchpad_reallocates_without_assert :
  ¬ scratchpad_is_idempotent hip_device_cfg ∧
  ¬ scratchpad_is_idempotent release_cfg.
Proof.
  split; intros Hclaim.
  - eassert (H1 : scratchpad hip_device_cfg Sample.stream_device
                    (Sample.process exhausted) = Ok ((NULL, _), _))
      by (vm_compute; reflexivity).
    specialize (Hclaim Sample.stream_device _ _ _ _ eq_refl H1).
    vm_compute in Hclaim. discriminate.
  - eassert (H1 : scratchpad release_cfg Sample.stream_device
                    (Sample.process exhausted) = Ok ((NULL, _), _))
      by (vm_compute; reflexivity).
    specialize (Hclaim Sample.stream_device _ _ _ _ eq_refl H1).
    vm_compute in Hclaim. discriminate.
Qed.

(** On the scripted runtime: the first [semaphore()] allocates the block at
    4096, which is what [gpuMalloc] left, and returns 4096 + 1024; the next
    one returns the same address. *)
Lemma semaphore_is_the_tail_slot_witness :
  ∃ self1 s1,
    semaphore host_cfg Sample.stream_device (Sample.process healthy)
      = Ok ((5120%N, self1), s1) ∧
    trace s1 = [CSetDevice 0; CMalloc 1028; CMemsetAsync 5120%N 0 4 0%N] ∧
    scratch_ self1
      = scratch_malloc Sample.stream_device (Sample.process healthy) ∧
    scratch_ self1 = 4096%N ∧
    semaphore host_cfg self1 s1 = Ok ((5120%N, self1), s1).
Proof.
  destruct (semaphore_is_the_tail_slot host_cfg Sample.stream_device
              (Sample.process healthy) eq_refl) as (Hret & Hout & _).
  pose proof (Hout 0%N eq_refl eq_refl) as H1. cbv zeta in H1.
  eassert (H2 : semaphore host_cfg Sample.stream_device
                  (Sample.process healthy) = Ok ((5120%N, _), _))
    by (rewrite H1; vm_compute; reflexivity).
  destruct (Hret _ _ _ H2) as (_ & _ & _ & _ & Hblock & _ & _ & Hnext).
  eexists _, _. split; [exact H2|]. split; [reflexivity|].
  split; [exact Hblock|]. split; [reflexivity|].
  exact (proj1 (Hnext [] _ _ eq_refl)).
Defined.

(** C3 as worded fails where [assert] is erased, in the HIP device pass as
    in a release build: the allocation fails and leaves a null pointer,
    [scratchpad()] returns it, and [semaphore()] adds [kGpuScratchSize] to
    it.  That is undefined; it is not an abort, and whatever address a
    build makes of it (1024, say) lies in no scratch allocation. *)
Lemma semaphore_of_a_null_block :
  ¬ semaphore_returns_the_tail_slot hip_device_cfg ∧
  ¬ semaphore_returns_the_tail_slot release_cfg ∧
  scratchpad release_cfg Sample.stream_device (Sample.process exhausted)
    = Ok ((NULL, Sample.stream_device),
          after (CMalloc 1028) (rt_gpuMalloc 1028)
            (after (CSetDevice 0) (rt_gpuSetDevice 0)
               (Sample.process exhausted))) ∧
  semaphore release_cfg Sample.stream_device (Sample.process exhausted)
    = Err Undefined.
Proof.
  split_and!.
  - intros Hclaim.
    destruct (Hclaim Sample.stream_device (Sample.process exhausted) 0%N
                (conj eq_refl eq_refl) eq_refl)
      as [Hf|(q & self1 & s1 & Hok & _)].
    + vm_compute in Hf. discriminate.
    + vm_compute in Hok. discriminate.
  - intros Hclaim.
    destruct (Hclaim Sample.stream_device (Sample.process exhausted) 0%N
                (conj eq_refl eq_refl) eq_refl)
      as [Hf|(q & self1 & s1 & Hok & _)].
    + vm_compute in Hf. discriminate.
    + vm_compute in Hok. discriminate.
  - vm_compute. reflexivity.
  - vm_compute. reflexivity.
Qed.




End ScratchExamples.

(** ** Construction of a stream device *)

Module ConstructionFacts.
Import GpuStreamDevice StreamDeviceWording.

Section Construction.
Context `{Runtime}.
Variable cfg : Config.

Lemma bind_device_negative device s :
  (device < 0)%Z →
  bind_device cfg device s
    = Ok ((rt_gpuGetDevice device (rt s)).1.2,
          after CGetDevice (rt_gpuGetDevice device) s).
Proof.
  intros Hneg%Z.ltb_lt. unfold bind_device. rewrite Hneg.
  unfold gpuGetDevice. erewrite bind_eq by apply call_eq. done.
Qed.

Lemma bind_device_checked device s :
  asserts_erased cfg = false →
  (0 ≤ device)%Z →
  bind_device cfg device s
    = if is_success (rt_gpuGetDeviceCount (rt s)).1.1
         && (device <? visible_devices s)%Z
      then Ok (device, after CGetDeviceCount rt_gpuGetDeviceCount s)
      else Err Fatal.
Proof.
  intros Hhip Hpos%Z.ltb_ge. unfold bind_device. rewrite Hpos.
  unfold gpuGetDeviceCount. erewrite bind_eq by apply call_eq.
  unfold visible_devices, bind. rewrite assert_checked by done.
  destruct (is_success _); [|done]. rewrite assert_checked by done. simpl.
  clear Hpos. by destruct (device <? _)%Z.
Qed.

(** C6, as the code has it.  Where [assert] aborts, constructing a stream
    device from a caller's stream with a device index that is not negative
    and not below the device count the runtime reports is fatal: no
    instance comes out, bound to that or to any other device.  (It is fatal
    as well when the count query itself fails.) *)
Theorem out_of_range_device_aborts stream device s :
  asserts_erased cfg = false →
  (0 ≤ device)%Z →
  (visible_devices s ≤ device)%Z →
  new_on_stream cfg stream device s = Err Fatal.
Proof.
  intros Hhip Hpos Hge. unfold new_on_stream.
  apply bind_Err. rewrite bind_device_checked by done.
  apply Z.ltb_ge in Hge. rewrite Hge. by rewrite andb_false_r.
Qed.

(** C9.  With a negative [device], whichever it is, the constructor issues
    one [gpuGetDevice] and binds the instance to what that call leaves in
    [device_]; it does not ask for the device count and checks nothing.  The
    rest of the construction is [initializeDeviceProp()], as in the other
    constructors. *)
Theorem negative_device_means_current stream device s :
  (device < 0)%Z →
  let current := (rt_gpuGetDevice device (rt s)).1.2 in
  let s1 := after CGetDevice (rt_gpuGetDevice device) s in
  bind_device cfg device s = Ok (current, s1) ∧
  issues s s1 [CGetDevice] ∧
  new_on_stream cfg stream device s
    = (initializeDeviceProp cfg;;
       ret {| stream_ := stream; device_ := current;
              scratch_ := NULL; semaphore_ := NULL |}) s1 ∧
  ∀ self s', new_on_stream cfg stream device s = Ok (self, s') →
    device_ self = current ∧ stream_ self = stream ∧ fresh self.
Proof.
  intros Hneg. simpl.
  pose proof (bind_device_negative device s Hneg) as Hb.
  split_and!; [done|apply issues_after| |].
  - unfold new_on_stream. by erewrite bind_eq by exact Hb.
  - intros self s'. unfold new_on_stream. erewrite bind_eq by exact Hb.
    intros (? & ? & _ & Hr)%bind_Ok. unfold ret in Hr. simplify_eq. done.
Qed.

End Construction.

Import Scripted.

(** On the scripted runtime with two devices: index 2 is refused. *)
Lemma out_of_range_device_aborts_witness :
  asserts_erased host_cfg = false ∧
  (0 ≤ 2)%Z ∧ (visible_devices (Sample.process healthy) ≤ 2)%Z ∧
  new_on_stream host_cfg (caller_stream_ptr 64) 2 (Sample.process healthy)
    = Err Fatal.
Proof.
  split; [reflexivity|]. split; [lia|].
  assert (visible_devices (Sample.process healthy) ≤ 2)%Z as Hge
    by (vm_compute; discriminate).
  split; [exact Hge|].
  apply (out_of_range_device_aborts host_cfg (caller_stream_ptr 64) 2
           (Sample.process healthy) eq_refl); [lia | exact Hge].
Defined.

(** C6 as worded fails where [assert] is erased, in the HIP device pass as
    in a release build: with two devices visible, index 5 constructs an
    instance bound to device 5. *)
Lemma out_of_range_device_accepted_without_assert :
  ¬ out_of_range_device_is_fatal hip_device_cfg ∧
  ¬ out_of_range_device_is_fatal release_cfg ∧
  ∃ self s,
    new_on_stream release_cfg (caller_stream_ptr 64) 5 (Sample.process healthy)
      = Ok (self, s) ∧ device_ self = 5%Z.
Proof.
  split_and!.
  - intros Hclaim.
    specialize (Hclaim (caller_stream_ptr 64) 5%Z (Sample.process healthy)).
    assert (new_on_stream hip_device_cfg (caller_stream_ptr 64) 5
              (Sample.process healthy) ≠ Err Fatal) as Hn
      by (vm_compute; discriminate).
    apply Hn, Hclaim; [lia | vm_compute; discriminate].
  - intros Hclaim.
    specialize (Hclaim (caller_stream_ptr 64) 5%Z (Sample.process healthy)).
    assert (new_on_stream release_cfg (caller_stream_ptr 64) 5
              (Sample.process healthy) ≠ Err Fatal) as Hn
      by (vm_compute; discriminate).
    apply Hn, Hclaim; [lia | vm_compute; discriminate].
  - eexists _, _. split; [vm_compute; reflexivity|reflexivity].
Qed.

(** On the scripted runtime, whose current device is 0: index -7 binds to
    device 0. *)
Lemma negative_device_means_current_witness :
  (-7 < 0)%Z ∧
  ∃ self s',
    new_on_stream host_cfg (caller_stream_ptr 64) (-7) (Sample.process healthy)
      = Ok (self, s') ∧
    device_ self = 0%Z ∧
    trace s' = [CGetDevice; CGetDeviceCount;
                CGetDeviceProperties 0; CGetDeviceProperties 1].
Proof.
  assert (-7 < 0)%Z as Hneg by lia.
  split; [exact Hneg|].
  eassert (H1 : new_on_stream host_cfg (caller_stream_ptr 64) (-7)
                  (Sample.process healthy) = Ok (_, _))
    by (vm_compute; reflexivity).
  destruct (negative_device_means_current host_cfg (caller_stream_ptr 64)
              (-7)%Z (Sample.process healthy) Hneg) as (_ & _ & _ & Hself).
  destruct (Hself _ _ H1) as (Hd & _).
  eexists _, _. split; [exact H1|]. split; [exact Hd | reflexivity].
Defined.

End ConstructionFacts.

(** ** Erased asserts *)

Module ErasedAsserts.

Section Facade.
Context `{Runtime} {T : Type} `{!StreamInterface T}.
Variable cfg : Config.
Hypothesis erased : asserts_erased cfg = true.







End Facade.



Import Scripted.



End ErasedAsserts.

(** ** The initialisation protocol under C++11 *)

Module InitProtocolFacts.
Import InitProtocol.

Section Cxx11.
Context `{Runtime}.
Variable cfg : Config.
Hypothesis atomics : cxx11 cfg = true.

(** A thread outside the initialising region reads the two flags and, at
    the claim, clears [first]; nothing else. *)
Lemma tstep_waiting p s :
  waiting p = true →
  tstep cfg p s
    = Ok (match p with
          | AtEntry => if m_devicePropInitialized s then Returned else AtClaim
          | AtClaim => if first s then AtGetCount else AtSpin
          | AtSpin => if m_devicePropInitialized s then Returned else AtAcquire
          | AtAcquire => AtSleep
          | _ => AtSpin
          end,
          match p with AtClaim => set_first false s | _ => s end).
Proof.
  destruct p; try discriminate; intros _; simpl; rewrite ?atomics; done.
Qed.

Lemma pass_steps_snoc σ σ' t p :
  hist σ' = hist σ ++ [(t, p)] →
  pass_steps σ' = pass_steps σ ++ (if in_pass p then [(t, p)] else []).
Proof.
  unfold pass_steps. intros ->. rewrite List.filter_app. simpl.
  by destruct (in_pass p).
Qed.

Lemma waiting_not_in_pass p : waiting p = true → in_pass p = false.
Proof. by destruct p. Qed.

Lemma idle_waiting p : idle p = true → waiting p = true.
Proof. by destruct p. Qed.

Lemma queries_S t n k :
  queries t n (S k) = queries t n k ++ [(t, AtQuery n (Z.of_nat k))].
Proof. unfold queries. by rewrite seq_S, fmap_app. Qed.

Lemma half_filled_insert n rs r :
  (length rs < Z.to_nat n)%nat →
  Some (<[length rs := Some r]>
          ((Some <$> rs) ++ replicate (Z.to_nat n - length rs) None))
  = half_filled n (rs ++ [r]).
Proof.
  intros Hlt. unfold half_filled. f_equal.
  rewrite length_app. simpl.
  replace (Z.to_nat n - length rs)%nat
    with (S (Z.to_nat n - (length rs + 1)))%nat by lia.
  simpl. rewrite fmap_app. simpl. rewrite <- app_assoc. simpl.
  rewrite insert_app_r_alt by (rewrite length_fmap; lia).
  rewrite length_fmap, Nat.sub_diag. done.
Qed.

Lemma half_filled_full n rs :
  length rs = Z.to_nat n → half_filled n rs = Some (Some <$> rs).
Proof.
  intros Hl. unfold half_filled. rewrite Hl, Nat.sub_diag. simpl.
  by rewrite app_nil_r.
Qed.

(** The error checks of lines 122-127 and 131-138 print or abort; they
    touch no static. *)
Lemma check_count_Ok status s u s' :
  check_count cfg status s = Ok (u, s') → statics s' = statics s.
Proof.
  unfold check_count, when, ret.
  destruct (negb _); [|intros ?; by simplify_eq].
  intros (? & s1 & Hp & Ha)%bind_Ok.
  unfold cerr_println, modify in Hp. simplify_eq.
  unfold assert, bind, ret, fail in Ha.
  repeat case_match; simplify_eq; done.
Qed.

Lemma check_device_Ok i status s u s' :
  check_device cfg i status s = Ok (u, s') → statics s' = statics s.
Proof.
  unfold check_device, when, ret.
  destruct (negb _); [|intros ?; by simplify_eq].
  intros (? & s1 & Hp & Ha)%bind_Ok.
  unfold cerr_println, modify in Hp. simplify_eq.
  unfold assert, bind, ret, fail in Ha.
  repeat case_match; simplify_eq; done.
Qed.

Lemma tstep_get_count s p' s' :
  tstep cfg AtGetCount s = Ok (p', s') →
  p' = AtNew (rt_gpuGetDeviceCount (rt s)).1.2 ∧ statics s' = statics s.
Proof.
  simpl. unfold gpuGetDeviceCount. erewrite bind_eq by apply call_eq.
  intros (? & s1 & Hc & Hr)%bind_Ok. unfold ret in Hr. simplify_eq.
  by apply check_count_Ok in Hc.
Qed.

Lemma tstep_new n s p' s' :
  tstep cfg (AtNew n) s = Ok (p', s') →
  (0 ≤ n)%Z ∧ p' = loop_head cfg n 0 ∧
  statics s' = (Some (replicate (Z.to_nat n) None),
                m_devicePropInitialized s, first s).
Proof.
  simpl. unfold new_deviceProperties.
  destruct (n <? 0)%Z eqn:Hn; [discriminate|]. apply Z.ltb_ge in Hn.
  intros [= <- <-]. done.
Qed.

Lemma tstep_query n i s p' s' :
  tstep cfg (AtQuery n i) s = Ok (p', s') →
  ∃ a r, m_deviceProperties s = Some a ∧
         (0 ≤ i < Z.of_nat (length a))%Z ∧
         p' = loop_head cfg n (i + 1) ∧
         statics s' = (Some (<[Z.to_nat i := Some r]> a),
                       m_devicePropInitialized s, first s).
Proof.
  simpl. intros (status & s1 & Hq & Hrest)%bind_Ok.
  apply bind_Ok in Hrest as (? & s2 & Hc & Hr). unfold ret in Hr.
  simplify_eq. apply check_device_Ok in Hc. rewrite Hc. clear Hc.
  unfold query_device, gpuGetDeviceProperties in Hq.
  erewrite bind_eq in Hq by apply call_eq.
  unfold bind, get in Hq. simpl in Hq.
  destruct (m_deviceProperties s) as [a|] eqn:Ha; [|discriminate].
  case_bool_decide as Hi; [|discriminate].
  unfold modify, ret in Hq. simplify_eq.
  eexists a, _. split_and!; try done; lia.
Qed.

Lemma tstep_release s p' s' :
  tstep cfg AtRelease s = Ok (p', s') → p' = AtPublish ∧ s' = s.
Proof. simpl. by intros [= <- <-]. Qed.

Lemma tstep_publish s p' s' :
  tstep cfg AtPublish s = Ok (p', s') →
  p' = Returned ∧
  statics s' = (m_deviceProperties s, true, first s).
Proof. simpl. by intros [= <- <-]. Qed.

Lemma step_Some t σ σ' :
  step cfg t σ = Some σ' →
  ∃ p, halted σ = None ∧ pcs σ !! t = Some p ∧ p ≠ Returned ∧
       ((∃ f, tstep cfg p (sys σ) = Err f ∧
              σ' = {| sys := sys σ; pcs := pcs σ; halted := Some f;
                      hist := hist σ |}) ∨
        (∃ p' s', tstep cfg p (sys σ) = Ok (p', s') ∧
                  σ' = {| sys := s'; pcs := <[t := p']> (pcs σ);
                          halted := None; hist := hist σ ++ [(t, p)] |})).
Proof.
  unfold step. destruct (halted σ); [discriminate|].
  destruct (pcs σ !! t) as [p|]; [|discriminate].
  case_bool_decide as Hr; [discriminate|]. intros [= <-].
  exists p. split_and!; try done.
  destruct (tstep cfg p (sys σ)) as [[p' s']|f]; eauto.
Qed.

Lemma insert_all (P : pc → Prop) (l : list pc) t p' :
  (∀ t1 p1, l !! t1 = Some p1 → P p1) → P p' →
  ∀ t1 p1, <[t := p']> l !! t1 = Some p1 → P p1.
Proof.
  intros Hall Hp t1 p1 [(-> & <- & _)|[_ Hl]]%list_lookup_insert_Some; eauto.
Qed.

Lemma insert_others (P : pc → Prop) (l : list pc) t t0 p' :
  (∀ t1 p1, t1 ≠ t0 → l !! t1 = Some p1 → P p1) → (t ≠ t0 → P p') →
  ∀ t1 p1, t1 ≠ t0 → <[t := p']> l !! t1 = Some p1 → P p1.
Proof.
  intros Hall Hp t1 p1 Hne [(-> & <- & _)|[_ Hl]]%list_lookup_insert_Some;
    eauto.
Qed.

(** A failure stops the process where it is. *)
Lemma inv_halt σ f :
  inv σ →
  inv {| sys := sys σ; pcs := pcs σ; halted := Some f; hist := hist σ |}.
Proof.
  intros [Hf Hi Ha Hps Hall | t0 p0 Hf Hi Hp0 Hprog Hothers
          | t0 n rs Hf Hi Hlen Ha Hps Hall].
  - by apply inv_unclaimed.
  - by apply (inv_claimed _ t0 p0).
  - by apply (inv_published _ t0 n rs).
Qed.

(** The state after thread [t] has stepped from [p] to [p']. *)
#[local] Abbreviation stepped σ t p p' s' :=
  {| sys := s'; pcs := <[t := p']> (pcs σ); halted := None;
     hist := hist σ ++ [(t, p)] |}.

Lemma pass_steps_stepped σ t p p' s' :
  pass_steps (stepped σ t p p' s')
    = pass_steps σ ++ (if in_pass p then [(t, p)] else []).
Proof. by apply pass_steps_snoc. Qed.

(** Before the claim is taken. *)
Lemma inv_step_unclaimed σ t p p' s' :
  first (sys σ) = true →
  m_devicePropInitialized (sys σ) = false →
  m_deviceProperties (sys σ) = None →
  pass_steps σ = [] →
  (∀ t p, pcs σ !! t = Some p → idle p = true) →
  pcs σ !! t = Some p →
  tstep cfg p (sys σ) = Ok (p', s') →
  inv (stepped σ t p p' s').
Proof.
  intros Hf Hi Ha Hps Hall Hp Ht.
  pose proof (Hall _ _ Hp) as Hidle.
  rewrite tstep_waiting in Ht by (by apply idle_waiting).
  destruct p; try discriminate; rewrite ?Hi, ?Hf in Ht; simplify_eq.
  - apply inv_unclaimed; simpl; try done.
    + by rewrite pass_steps_stepped, Hps.
    + by apply insert_all.
  - apply (inv_claimed _ t AtGetCount); simpl; try done.
    + apply list_lookup_insert_eq. by eapply lookup_lt_Some.
    + by rewrite pass_steps_stepped, Hps.
    + apply insert_others; [|done].
      intros t1 p1 _ Hl. apply idle_waiting. by eapply Hall.
Qed.

(** The initialising thread [t0] has stepped and is still initialising. *)
Ltac still_claimed :=
  lazymatch goal with
  | Hl : (?t0 < length (pcs ?σ))%nat |- _ =>
      eapply (inv_claimed _ t0);
      [ | | simpl; by apply list_lookup_insert_eq | | simpl; by apply insert_others ];
      simpl
  end.

(** While thread [t0] initialises: its own steps. *)
Lemma inv_step_initializer σ t0 p p' s' :
  first (sys σ) = false →
  m_devicePropInitialized (sys σ) = false →
  pcs σ !! t0 = Some p →
  progress t0 p σ →
  (∀ t' p', t' ≠ t0 → pcs σ !! t' = Some p' → waiting p' = true) →
  tstep cfg p (sys σ) = Ok (p', s') →
  inv (stepped σ t0 p p' s').
Proof.
  intros Hf Hi Hp Hprog Hothers Ht.
  assert (t0 < length (pcs σ))%nat as Hlen0 by (by eapply lookup_lt_Some).
  destruct p; simpl in Hprog; try done.
  - (* AtGetCount *)
    destruct Hprog as [Ha Hps].
    apply tstep_get_count in Ht as [-> Hst].
    injection Hst as Ha' Hi' Hf'.
    still_claimed; try congruence.
    split; [congruence|]. by rewrite pass_steps_stepped, Hps.
  - (* AtNew *)
    destruct Hprog as [Ha Hps].
    apply tstep_new in Ht as (Hn & -> & Hst).
    injection Hst as Ha' Hi' Hf'.
    unfold loop_head. rewrite atomics.
    destruct (0 <? num_devices)%Z eqn:Hlt.
    + apply Z.ltb_lt in Hlt.
      still_claimed; try congruence.
      split; [lia|]. exists []. split_and!; try done.
      * rewrite Ha'. unfold half_filled. simpl. by rewrite Nat.sub_0_r.
      * by rewrite pass_steps_stepped, Hps.
    + apply Z.ltb_ge in Hlt. assert (num_devices = 0%Z) as -> by lia.
      still_claimed; try congruence.
      exists 0%Z, []. split_and!; try done.
      by rewrite pass_steps_stepped, Hps.
  - (* AtQuery *)
    destruct Hprog as (Hi0 & rs & Hlen & Ha & Hps).
    apply tstep_query in Ht as (a & r & Ha2 & Hb & -> & Hst).
    injection Hst as Ha' Hi' Hf'.
    rewrite Ha in Ha2. injection Ha2 as <-.
    rewrite <- Hlen in Ha'. rewrite half_filled_insert in Ha' by lia.
    assert (pass_steps (stepped σ t0 (AtQuery num_devices i)
                          (loop_head cfg num_devices (i + 1)) s')
            = (t0, AtGetCount) :: (t0, AtNew num_devices)
              :: queries t0 num_devices (Z.to_nat (i + 1))) as Hps'.
    { rewrite pass_steps_stepped, Hps. simpl.
      replace (Z.to_nat (i + 1)) with (S (Z.to_nat i)) by lia.
      rewrite queries_S. by rewrite Z2Nat.id by lia. }
    unfold loop_head in *. rewrite atomics in *.
    destruct (i + 1 <? num_devices)%Z eqn:Hlt.
    + apply Z.ltb_lt in Hlt.
      still_claimed; try congruence.
      split; [lia|]. exists (rs ++ [r]). split_and!; try done.
      rewrite length_app. simpl. lia.
    + apply Z.ltb_ge in Hlt. assert (i + 1 = num_devices)%Z as Heq by lia.
      still_claimed; try congruence.
      exists num_devices, (rs ++ [r]).
      assert (length (rs ++ [r]) = Z.to_nat num_devices) as Hfull
        by (rewrite length_app; simpl; lia).
      split_and!; try done.
      * by rewrite Ha', half_filled_full.
      * rewrite Hps'. by rewrite Heq.
  - (* AtRelease *)
    destruct Hprog as (n & rs & Hlen & Ha & Hps).
    apply tstep_release in Ht as [-> ->].
    still_claimed; try done.
    exists n, rs. split_and!; try done.
    by rewrite pass_steps_stepped, Hps.
  - (* AtPublish *)
    destruct Hprog as (n & rs & Hlen & Ha & Hps).
    apply tstep_publish in Ht as [-> Hst].
    injection Hst as Ha' Hi' Hf'.
    apply (inv_published _ t0 n rs); simpl; try congruence.
    + rewrite pass_steps_stepped, Hps. unfold full_pass, pass_body. simpl.
      by rewrite <- app_assoc.
    + intros t' q [(-> & <- & _)|[Hne Hl]]%list_lookup_insert_Some.
      * by right.
      * left. by eapply Hothers.
Qed.

(** While thread [t0] initialises: the steps of the others. *)
Lemma inv_step_follower σ t0 p0 t p p' s' :
  first (sys σ) = false →
  m_devicePropInitialized (sys σ) = false →
  pcs σ !! t0 = Some p0 →
  progress t0 p0 σ →
  (∀ t' p', t' ≠ t0 → pcs σ !! t' = Some p' → waiting p' = true) →
  t ≠ t0 →
  pcs σ !! t = Some p →
  tstep cfg p (sys σ) = Ok (p', s') →
  inv (stepped σ t p p' s').
Proof.
  intros Hf Hi Hp0 Hprog Hothers Hne Hp Ht.
  pose proof (Hothers _ _ Hne Hp) as Hw.
  rewrite tstep_waiting in Ht by done.
  assert (statics s' = statics (sys σ) ∧ waiting p' = true) as [Hst Hw'].
  { destruct p; try discriminate; rewrite ?Hi, ?Hf in Ht; simplify_eq;
      unfold statics; simpl; by rewrite ?Hf. }
  injection Hst as Ha' Hi' Hf'.
  apply (inv_claimed _ t0 p0); simpl; try congruence.
  - by rewrite list_lookup_insert_ne.
  - assert (pass_steps (stepped σ t p p' s') = pass_steps σ) as Hps.
    { rewrite pass_steps_stepped, (waiting_not_in_pass _ Hw).
      by rewrite app_nil_r. }
    destruct p0; simpl in *; try done; rewrite Ha'; by rewrite Hps.
  - apply insert_others; done.
Qed.

(** After publication. *)
Lemma inv_step_published σ t0 n rs t p p' s' :
  first (sys σ) = false →
  m_devicePropInitialized (sys σ) = true →
  length rs = Z.to_nat n →
  m_deviceProperties (sys σ) = Some (Some <$> rs) →
  pass_steps σ = full_pass t0 n →
  (∀ t' p', pcs σ !! t' = Some p' → waiting p' = true ∨ p' = Returned) →
  pcs σ !! t = Some p →
  p ≠ Returned →
  tstep cfg p (sys σ) = Ok (p', s') →
  inv (stepped σ t p p' s').
Proof.
  intros Hf Hi Hlen Ha Hps Hall Hp Hnr Ht.
  destruct (Hall _ _ Hp) as [Hw|]; [|done].
  rewrite tstep_waiting in Ht by done.
  assert (statics s' = statics (sys σ) ∧
          (waiting p' = true ∨ p' = Returned)) as [Hst Hw'].
  { destruct p; try discriminate; rewrite ?Hi, ?Hf in Ht; simplify_eq;
      unfold statics; simpl; rewrite ?Hf; auto. }
  injection Hst as Ha' Hi' Hf'.
  apply (inv_published _ t0 n rs); simpl; try congruence.
  - rewrite pass_steps_stepped, (waiting_not_in_pass _ Hw).
    by rewrite app_nil_r.
  - by apply insert_all.
Qed.

(** Every step keeps the invariant. *)
Lemma inv_step t σ σ' : inv σ → step cfg t σ = Some σ' → inv σ'.
Proof.
  intros Hinv (p & Hh & Hp & Hnr & [(f & Ht & ->)|(p' & s' & Ht & ->)])%step_Some.
  { by apply inv_halt. }
  destruct Hinv as [Hf Hi Ha Hps Hall | t0 p0 Hf Hi Hp0 Hprog Hothers
                    | t0 n rs Hf Hi Hlen Ha Hps Hall].
  - by eapply inv_step_unclaimed.
  - destruct (decide (t = t0)) as [->|Hne].
    + assert (p0 = p) as -> by congruence. by eapply inv_step_initializer.
    + by eapply (inv_step_follower σ t0 p0).
  - by eapply (inv_step_published σ t0 n rs).
Qed.

Lemma inv_spawn threads s :
  first s = true → m_devicePropInitialized s = false →
  m_deviceProperties s = None →
  inv (spawn threads s).
Proof.
  intros Hf Hi Ha. apply inv_unclaimed; simpl; try done.
  intros t p [-> _]%lookup_replicate. done.
Qed.

Lemma inv_run sched σ : inv σ → inv (run cfg sched σ).
Proof.
  revert σ. induction sched as [|t sched IH]; intros σ Hinv; simpl; [done|].
  apply IH. destruct (step cfg t σ) as [σ'|] eqn:Hs; simpl; [|done].
  by eapply inv_step.
Qed.

Lemma queries_prefix t n k k' :
  (k ≤ k')%nat → queries t n k `prefix_of` queries t n k'.
Proof.
  intros Hle. unfold queries.
  replace k' with (k + (k' - k))%nat by lia.
  rewrite seq_app, fmap_app. by apply prefix_app_r.
Qed.

Lemma inv_one_pass σ : inv σ → one_pass σ.
Proof.
  intros [Hf Hi Ha Hps Hall | t0 p0 Hf Hi Hp0 Hprog Hothers
          | t0 n rs Hf Hi Hlen Ha Hps Hall]; unfold one_pass.
  - exists 0%nat, 0%Z. rewrite Hps. apply prefix_nil.
  - destruct p0; simpl in Hprog; try done.
    + destruct Hprog as [_ ->]. exists t0, 0%Z. apply prefix_nil.
    + destruct Hprog as [_ ->]. exists t0, num_devices.
      by apply (prefix_cons _ []), prefix_nil.
    + destruct Hprog as (Hi0 & rs & _ & _ & ->). exists t0, num_devices.
      unfold full_pass, pass_body. simpl. do 2 apply prefix_cons.
      apply prefix_app_r, queries_prefix. lia.
    + destruct Hprog as (n & rs & _ & _ & ->). exists t0, n.
      unfold full_pass. by apply prefix_app_r.
    + destruct Hprog as (n & rs & _ & _ & ->). exists t0, n.
      exists [(t0, AtPublish)]. unfold full_pass, pass_body. simpl.
      by rewrite <- app_assoc.
  - exists t0, n. by rewrite Hps.
Qed.

Lemma inv_returned σ : inv σ → returned_after_publication σ.
Proof.
  intros [Hf Hi Ha Hps Hall | t0 p0 Hf Hi Hp0 Hprog Hothers
          | t0 n rs Hf Hi Hlen Ha Hps Hall] t Ht.
  - by apply Hall in Ht.
  - destruct (decide (t = t0)) as [->|Hne].
    + rewrite Hp0 in Ht. injection Ht as ->. done.
    + by apply Hothers in Ht.
  - split_and!; try done. by exists t0, n, rs.
Qed.

End Cxx11.
End InitProtocolFacts.

(** ** One thread alone *)

Module AloneFacts.

Section Alone.
Context `{Runtime}.
Variable cfg : Config.

Lemma bind_assoc {S A B C} (m : M S A) (k : A → M S B) (h : B → M S C) s :
  bind (bind m k) h s = bind m (λ a, bind (k a) h) s.
Proof. unfold bind. by destruct (m s) as [[a s1]|]. Qed.

Lemma bind_ext {S A B} (m : M S A) (k k' : A → M S B) s :
  (∀ a s1, k a s1 = k' a s1) → bind m k s = bind m k' s.
Proof. intros Hk. unfold bind. by destruct (m s) as [[a s1]|]. Qed.

Lemma ret_bind {S A B} (a : A) (k : A → M S B) s : bind (ret a) k s = k a s.
Proof. done. Qed.

Lemma alone_S fuel p s :
  p ≠ Returned → alone cfg (S fuel) p s = bind (tstep cfg p) (alone cfg fuel) s.
Proof. by destruct p. Qed.

Lemma alone_Returned fuel s : alone cfg fuel Returned s = Ok (tt, s).
Proof. by destruct fuel. Qed.

(** Alone in the wait loop, a thread never leaves it. *)
Lemma alone_spins fuel p s :
  m_devicePropInitialized s = false →
  p = AtSpin ∨ p = AtAcquire ∨ p = AtSleep →
  alone cfg fuel p s = Err Hang.
Proof.
  intros Hi. revert p. induction fuel as [|fuel IH]; intros p Hp.
  - by destruct Hp as [->|[->| ->]].
  - destruct Hp as [->|[->| ->]]; rewrite alone_S by done;
      unfold bind; simpl; rewrite ?Hi; destruct (cxx11 cfg); simpl;
      apply IH; auto.
Qed.

(** From the end of the loop to the return: lines 141-144. *)
Lemma alone_publish fuel s :
  (2 ≤ fuel)%nat →
  alone cfg fuel (if cxx11 cfg then AtRelease else AtPublish) s
    = publish cfg s.
Proof.
  intros Hf. destruct fuel as [|[|fuel]]; try lia.
  unfold publish. destruct (cxx11 cfg).
  - simpl. unfold bind. simpl. by destruct fuel.
  - simpl. unfold bind. simpl. by destruct fuel.
Qed.

(** The loop of lines 129-139, from [i] with [k] devices to go. *)
Lemma alone_loop n k : ∀ i fuel s,
  Z.to_nat (n - i) = k → (k + 2 ≤ fuel)%nat →
  alone cfg fuel (loop_head cfg n i) s
    = bind (for_from k i (query_and_check cfg)) (λ _, publish cfg) s.
Proof.
  induction k as [|k IH]; intros i fuel s Hk Hf.
  - unfold loop_head.
    assert ((i <? n)%Z = false) as -> by (apply Z.ltb_ge; lia).
    by rewrite alone_publish.
  - unfold loop_head.
    assert ((i <? n)%Z = true) as -> by (apply Z.ltb_lt; lia).
    destruct fuel as [|fuel]; [lia|]. rewrite alone_S by done.
    simpl. unfold query_and_check, bind.
    destruct (query_device i s) as [[status s1]|]; [|done].
    destruct (check_device cfg i status s1) as [[[] s2]|]; [|done].
    unfold ret. rewrite IH by lia. done.
Qed.

(** The pass of lines 119-144 from the count query on. *)
Lemma alone_pass fuel s :
  (Z.to_nat (rt_gpuGetDeviceCount (rt s)).1.2 + 4 ≤ fuel)%nat →
  alone cfg fuel AtGetCount s
    = (r <- gpuGetDeviceCount;
       check_count cfg r.1;;
       new_deviceProperties r.2;;
       for_lt r.2 (query_and_check cfg);;
       publish cfg) s.
Proof.
  intros Hf. destruct fuel as [|[|fuel]]; try lia.
  rewrite alone_S by done. simpl tstep.
  unfold gpuGetDeviceCount. rewrite bind_assoc.
  rewrite !(bind_eq _ _ _ _ _ (call_eq _ _ s)).
  set (n := (rt_gpuGetDeviceCount (rt s)).1.2) in *.
  rewrite bind_assoc. apply bind_ext. intros [] s1.
  rewrite ret_bind, alone_S by done. simpl tstep.
  rewrite bind_assoc. apply bind_ext. intros [] s2.
  rewrite ret_bind. unfold for_lt.
  apply alone_loop; lia.
Qed.

(** [initializeDeviceProp], the function, is the thread program run by one
    thread alone: given enough steps they end in the same way, in the same
    process state. *)
Lemma initializeDeviceProp_alone s :
  ∃ enough, ∀ fuel, (enough ≤ fuel)%nat →
    alone cfg fuel AtEntry s = initializeDeviceProp cfg s.
Proof.
  exists (Z.to_nat (rt_gpuGetDeviceCount (rt s)).1.2 + 7)%nat.
  intros fuel Hf. destruct fuel as [|[|[|fuel]]]; try lia.
  rewrite alone_S by done. simpl tstep. unfold initializeDeviceProp.
  rewrite bind_assoc.
  rewrite !(bind_eq get _ s s s eq_refl), ret_bind.
  destruct (m_devicePropInitialized s) eqn:Hi; [done|].
  rewrite alone_S by done. simpl tstep. simpl when. unfold take_first.
  destruct (cxx11 cfg) eqn:Hcxx.
  - rewrite bind_assoc.
    rewrite !(bind_eq (exchange_first false) _ s (first s)
                (set_first false s) eq_refl), ret_bind.
    destruct (first s).
    + apply alone_pass. simpl. lia.
    + rewrite alone_spins by auto.
      unfold wait_alone. rewrite (bind_eq get _ _ _ _ eq_refl).
      simpl. by rewrite Hi.
  - rewrite !bind_assoc.
    rewrite !(bind_eq read_first _ s (first s) s eq_refl), ret_bind.
    destruct (first s).
    + rewrite alone_S by done. simpl tstep. simpl when.
      rewrite !bind_assoc.
      rewrite !(bind_eq (write_first false) _ s tt (set_first false s) eq_refl),
        !ret_bind.
      apply alone_pass. simpl. lia.
    + simpl when. rewrite !bind_assoc, !ret_bind.
      rewrite alone_spins by auto.
      unfold wait_alone. rewrite (bind_eq get _ _ _ _ eq_refl).
      by rewrite Hi.
Qed.

Lemma run_app sched1 sched2 σ :
  run cfg (sched1 ++ sched2) σ = run cfg sched2 (run cfg sched1 σ).
Proof.
  revert σ. induction sched1 as [|t sched1 IH]; intros σ; simpl; [done|].
  apply IH.
Qed.

(** Scheduling thread 0 only is thread 0 running alone. *)
Lemma run_alone fuel : ∀ σ p s',
  halted σ = None → pcs σ !! 0%nat = Some p →
  alone cfg fuel p (sys σ) = Ok (tt, s') →
  ∃ k, let σ' := run cfg (replicate k 0%nat) σ in
       sys σ' = s' ∧ pcs σ' = <[0%nat := Returned]> (pcs σ) ∧
       halted σ' = None.
Proof.
  induction fuel as [|fuel IH]; intros σ p s' Hh Hp Ha.
  - destruct p; try discriminate. injection Ha as <-.
    exists 0%nat. simpl. by rewrite list_insert_id.
  - destruct (decide (p = Returned)) as [->|Hnr].
    { injection Ha as <-. exists 0%nat. simpl. by rewrite list_insert_id. }
    rewrite alone_S in Ha by done.
    apply bind_Ok in Ha as (p' & s1 & Ht & Ha).
    assert (step cfg 0 σ
            = Some {| sys := s1; pcs := <[0%nat := p']> (pcs σ);
                      halted := None; hist := hist σ ++ [(0%nat, p)] |})
      as Hstep.
    { unfold step. rewrite Hh, Hp, Ht. by rewrite bool_decide_eq_false_2. }
    set (σ1 := {| sys := s1; pcs := <[0%nat := p']> (pcs σ);
                  halted := None; hist := hist σ ++ [(0%nat, p)] |}) in *.
    destruct (IH σ1 p' s' eq_refl) as (k & Hs & Hpcs & Hhalt); [|exact Ha|].
    { simpl. apply list_lookup_insert_eq. by eapply lookup_lt_Some. }
    exists (S k). simpl. rewrite Hstep. simpl in *.
    rewrite list_insert_insert_eq in Hpcs. done.
Qed.

(** After publication a thread that enters returns at once. *)
Lemma run_entering m : ∀ a σ,
  halted σ = None → m_devicePropInitialized (sys σ) = true →
  pcs σ = replicate a Returned ++ replicate m AtEntry →
  let σ' := run cfg (seq a m) σ in
  sys σ' = sys σ ∧ pcs σ' = replicate (a + m) Returned ∧ halted σ' = None.
Proof.
  induction m as [|m IH]; intros a σ Hh Hi Hpcs.
  - simpl. by rewrite Hpcs, Nat.add_0_r, app_nil_r.
  - assert (step cfg a σ
            = Some {| sys := sys σ;
                      pcs := replicate (S a) Returned ++ replicate m AtEntry;
                      halted := None; hist := hist σ ++ [(a, AtEntry)] |})
      as Hstep.
    { unfold step. rewrite Hh, Hpcs.
      rewrite lookup_app_r by (by rewrite length_replicate).
      rewrite length_replicate, Nat.sub_diag. simpl. rewrite Hi. simpl.
      do 2 f_equal.
      rewrite insert_app_r_alt by (by rewrite length_replicate).
      rewrite length_replicate, Nat.sub_diag. simpl.
      change (Returned :: replicate a Returned ++ replicate m AtEntry)
        with (replicate (S a) Returned ++ replicate m AtEntry).
      rewrite replicate_S_end, <- app_assoc. done. }
    set (σ1 := {| sys := sys σ;
                  pcs := replicate (S a) Returned ++ replicate m AtEntry;
                  halted := None; hist := hist σ ++ [(a, AtEntry)] |}) in *.
    destruct (IH (S a) σ1 eq_refl Hi eq_refl) as (Hs & Hp & Hhalt).
    cbv zeta. change (seq a (S m)) with (a :: seq (S a) m).
    change (run cfg (a :: seq (S a) m) σ)
      with (run cfg (seq (S a) m) (default σ (step cfg a σ))).
    rewrite Hstep. simpl default. rewrite Hs, Hp, Hhalt.
    split_and!; try done. f_equal. lia.
Qed.

(** Where [initializeDeviceProp] returns, the flag is set. *)
Lemma initializeDeviceProp_Ok s s' :
  initializeDeviceProp cfg s = Ok (tt, s') → m_devicePropInitialized s' = true.
Proof.
  unfold initializeDeviceProp. rewrite (bind_eq get _ s s s eq_refl).
  destruct (m_devicePropInitialized s) eqn:Hi; simpl.
  { unfold ret. intros ?. by simplify_eq. }
  intros ([] & s1 & _ & Hrest)%bind_Ok.
  - apply bind_Ok in Hrest as (r & s2 & _ & Hrest).
    apply bind_Ok in Hrest as (? & s3 & _ & Hrest).
    apply bind_Ok in Hrest as (? & s4 & _ & Hrest).
    apply bind_Ok in Hrest as (? & s5 & _ & Hrest).
    unfold publish in Hrest.
    apply bind_Ok in Hrest as (? & s6 & _ & Hrest).
    unfold modify in Hrest. by simplify_eq.
  - unfold wait_alone in Hrest. rewrite (bind_eq get _ _ _ _ eq_refl) in Hrest.
    destruct (m_devicePropInitialized s1) eqn:Hi1; [|discriminate].
    unfold ret in Hrest. by simplify_eq.
Qed.

(** Every thread can return: when [initializeDeviceProp], run by one
    thread of a process just started, ends well, there is an interleaving
    of any number of threads in which all of them return, into the same
    process state. *)
Lemma every_thread_can_return threads r streams s' :
  initializeDeviceProp cfg (boot r streams) = Ok (tt, s') →
  ∃ sched, let σ := run cfg sched (spawn (S threads) (boot r streams)) in
           sys σ = s' ∧ pcs σ = replicate (S threads) Returned ∧
           halted σ = None.
Proof.
  intros Hseq.
  destruct (initializeDeviceProp_alone (boot r streams)) as [fuel Hfuel].
  rewrite <- (Hfuel fuel) in Hseq by done.
  edestruct (run_alone fuel (spawn (S threads) (boot r streams)))
    as (k & Hs & Hp & Hh); [done|done|exact Hseq|].
  assert (m_devicePropInitialized s' = true) as Hi.
  { apply (initializeDeviceProp_Ok (boot r streams)).
    by rewrite <- (Hfuel fuel). }
  edestruct (run_entering threads 1) as (Hs2 & Hp2 & Hh2);
    [exact Hh| |exact Hp|].
  { simpl in Hs. by rewrite Hs. }
  exists (replicate k 0%nat ++ seq 1 threads). simpl.
  rewrite run_app. simpl in *. rewrite Hs2, Hp2, Hh2, Hs. done.
Qed.

End Alone.
End AloneFacts.

Module InitRace.
Import InitProtocol InitProtocolFacts.

(** C1, as the code has it.  Compiled as C++11 or later, in every
    interleaving of any number of threads that enter
    [initializeDeviceProp()] of a process just started (each access to a
    shared variable and each runtime call being one step): the steps of the
    initialising region ever taken are the beginning of a single pass by a
    single thread, the one whose [first.exchange(false)] read [true]; and
    when any thread has returned, [first] is false, [m_devicePropInitialized]
    is set, that one thread has issued the device-count query, allocated
    the array, queried every device once in order, passed the release fence
    and then set the flag, and every record of the array is written. *)
Theorem one_thread_initializes `{Runtime} (cfg : Config) :
  cxx11 cfg = true → initialized_once cfg.
Proof.
  intros Hcxx threads r streams sched. cbv zeta.
  assert (inv (run cfg sched (spawn threads (boot r streams)))) as Hinv
    by (by apply inv_run, inv_spawn).
  split; [by apply inv_one_pass | by eapply inv_returned].
Qed.

Import Scripted.

(** Three threads racing on the scripted runtime with two devices: all of
    them return, and thread 1 alone has made the pass. *)
Lemma one_thread_initializes_witness :
  cxx11 host_cfg = true ∧
  let σ := run host_cfg SampleRace.three_threads
             (spawn 3 (boot healthy ∅)) in
  pcs σ = [Returned; Returned; Returned] ∧
  halted σ = None ∧
  pass_steps σ = full_pass 1 2 ∧
  trace (sys σ)
    = [CGetDeviceCount; CGetDeviceProperties 0; CGetDeviceProperties 1] ∧
  m_deviceProperties (sys σ)
    = Some [Some (props_of 0); Some (props_of 1)] ∧
  one_pass σ ∧ returned_after_publication σ.
Proof.
  split; [reflexivity|]. cbv zeta.
  split_and!; [vm_compute; reflexivity ..| |].
  - apply (one_thread_initializes (H:=runtime) host_cfg eq_refl
             3%nat healthy ∅ SampleRace.three_threads).
  - apply (one_thread_initializes (H:=runtime) host_cfg eq_refl
             3%nat healthy ∅ SampleRace.three_threads).
Defined.

(** C1 as worded fails before C++11, where [first] is a plain [bool] (lines
    115-117): two threads in lockstep both find it [true], both query the
    device count and every device, and both return. *)
Lemma two_initializers_before_cxx11 :
  (let σ := run cxx03_cfg SampleRace.lockstep (spawn 2 (boot healthy ∅)) in
   pcs σ = [Returned; Returned] ∧
   trace (sys σ)
     = [CGetDeviceCount; CGetDeviceCount;
        CGetDeviceProperties 0; CGetDeviceProperties 0;
        CGetDeviceProperties 1; CGetDeviceProperties 1]) ∧
  ¬ initialized_once (H:=runtime) cxx03_cfg.
Proof.
  split.
  - cbv zeta. split; vm_compute; reflexivity.
  - intros Hclaim.
    destruct (Hclaim 2%nat healthy ∅ SampleRace.lockstep)
      as [(t & n & k & Hk) _].
    vm_compute in Hk. discriminate.
Qed.

End InitRace.

(** ** The cache filled by one caller *)

Module CacheFacts.
Import Further InitProtocol StreamDeviceWording.

Section Cache.
Context `{Runtime}.
Variable cfg : Config.

(** An erased or passed error check leaves all but [cerr] as it is; a
    checked one leaves everything. *)
Lemma check_device_quiet i status s u s' :
  check_device cfg i status s = Ok (u, s') →
  trace s' = trace s ∧ statics s' = statics s ∧ rt s' = rt s ∧
  host_streams s' = host_streams s ∧
  (asserts_erased cfg = false → s' = s ∧ status = gpuSuccess).
Proof.
  unfold check_device, when, ret, is_success.
  case_bool_decide as Hst; simpl.
  { intros ?. by simplify_eq. }
  intros (? & s1 & Hp & Ha)%bind_Ok.
  unfold cerr_println, modify in Hp. simplify_eq.
  unfold assert, bind, ret, fail in Ha.
  destruct (asserts_erased cfg) eqn:He.
  - simplify_eq/=. done.
  - discriminate.
Qed.

Lemma check_count_quiet status s u s' :
  check_count cfg status s = Ok (u, s') →
  trace s' = trace s ∧ statics s' = statics s ∧ rt s' = rt s ∧
  host_streams s' = host_streams s ∧
  (asserts_erased cfg = false → s' = s ∧ status = gpuSuccess).
Proof.
  unfold check_count, when, ret, is_success.
  case_bool_decide as Hst; simpl.
  { intros ?. by simplify_eq. }
  intros (? & s1 & Hp & Ha)%bind_Ok.
  unfold cerr_println, modify in Hp. simplify_eq.
  unfold assert, bind, ret, fail in Ha.
  destruct (asserts_erased cfg) eqn:He.
  - simplify_eq/=. done.
  - discriminate.
Qed.

(** One turn of the loop of lines 129-139. *)
Lemma query_and_check_Ok i s u s' :
  query_and_check cfg i s = Ok (u, s') →
  ∃ a r, m_deviceProperties s = Some a ∧
         (0 ≤ i < Z.of_nat (length a))%Z ∧
         m_deviceProperties s' = Some (<[Z.to_nat i := Some r]> a) ∧
         m_devicePropInitialized s' = m_devicePropInitialized s ∧
         first s' = first s ∧
         host_streams s' = host_streams s ∧
         trace s' = trace s ++ [CGetDeviceProperties i] ∧
         (asserts_erased cfg = false → cerr s' = cerr s).
Proof.
  unfold query_and_check. intros (status & s1 & Hq & Hc)%bind_Ok.
  apply check_device_quiet in Hc as (Ht & Hst & _ & Hh & Hq').
  injection Hst as Ha' Hi' Hf'.
  unfold query_device, gpuGetDeviceProperties in Hq.
  erewrite bind_eq in Hq by apply call_eq.
  unfold bind, get in Hq. simpl in Hq.
  destruct (m_deviceProperties s) as [a|] eqn:Ha; [|discriminate].
  case_bool_decide as Hi; [|discriminate].
  unfold modify, ret in Hq. simplify_eq.
  eexists a, _. rewrite Ha', Hi', Hf', Hh, Ht. split_and!; try done; try lia.
  intros Hchk. by destruct (Hq' Hchk) as [-> _].
Qed.

(** The loop from device [i] on, with [rs] the records written so far. *)
Lemma for_from_pass n k : ∀ i rs s s',
  Z.to_nat (n - i) = k → (0 ≤ i ≤ n)%Z → length rs = Z.to_nat i →
  m_deviceProperties s = half_filled n rs →
  for_from k i (query_and_check cfg) s = Ok (tt, s') →
  ∃ rs', length rs' = Z.to_nat n ∧
         m_deviceProperties s' = Some (Some <$> rs') ∧
         m_devicePropInitialized s' = m_devicePropInitialized s ∧
         first s' = first s ∧
         host_streams s' = host_streams s ∧
         trace s' = trace s ++ (CGetDeviceProperties <$> seqZ i (n - i)) ∧
         (asserts_erased cfg = false → cerr s' = cerr s).
Proof.
  induction k as [|k IH]; intros i rs s s' Hk Hi Hlen Ha; simpl.
  - unfold ret. intros ?. simplify_eq. assert (i = n) as -> by lia.
    exists rs. rewrite Z.sub_diag. simpl. rewrite app_nil_r.
    split_and!; try done. by rewrite Ha, InitProtocolFacts.half_filled_full.
  - intros ([] & s1 & Hq & Hrest)%bind_Ok.
    apply query_and_check_Ok in Hq
      as (a & r & Ha1 & Hb & Ha' & Hi' & Hf' & Hh' & Ht' & Hc').
    rewrite Ha in Ha1. injection Ha1 as <-.
    replace (Z.to_nat i) with (length rs) in Ha' by done.
    rewrite InitProtocolFacts.half_filled_insert in Ha' by lia.
    assert (length (rs ++ [r]) = Z.to_nat (i + 1)) as Hlen'
      by (rewrite length_app; change (length [r]) with 1%nat; lia).
    apply (IH (i + 1)%Z (rs ++ [r])) in Hrest
      as (rs' & Hl & Har & Hir & Hfr & Hhr & Htr & Hcr);
      [|lia|lia|done|done].
    exists rs'. rewrite Hir, Hfr, Hhr, Htr, Ht', Hi', Hf', Hh'.
    split_and!; try done.
    + rewrite <- app_assoc. f_equal.
      replace (n - i)%Z with (Z.succ (n - (i + 1))) by lia.
      rewrite (seqZ_cons i) by lia. simpl.
      by replace (Z.pred (Z.succ (n - (i + 1)))) with (n - (i + 1))%Z by lia.
    + intros Hchk. rewrite Hcr, Hc' by done. done.
Qed.

(** What a first, uncontended call leaves when it returns. *)
Lemma first_call_Ok s s' :
  m_devicePropInitialized s = false → first s = true →
  initializeDeviceProp cfg s = Ok (tt, s') →
  (0 ≤ visible_devices s)%Z ∧
  m_devicePropInitialized s' = true ∧ first s' = false ∧
  host_streams s' = host_streams s ∧
  trace s' = trace s ++ CGetDeviceCount
                        :: property_queries (visible_devices s) ∧
  (∃ rs, length rs = Z.to_nat (visible_devices s) ∧
         m_deviceProperties s' = Some (Some <$> rs)) ∧
  (asserts_erased cfg = false →
     cerr s' = cerr s ∧ (rt_gpuGetDeviceCount (rt s)).1.1 = gpuSuccess).
Proof.
  intros Hi Hf. unfold initializeDeviceProp.
  rewrite (bind_eq get _ s s s eq_refl), Hi. simpl.
  assert (take_first cfg s = Ok (true, set_first false s)) as Htake.
  { unfold take_first, exchange_first, read_first, write_first, bind, when,
      modify, ret. destruct (cxx11 cfg); by rewrite Hf. }
  rewrite (bind_eq _ _ _ _ _ Htake).
  unfold gpuGetDeviceCount. rewrite (bind_eq _ _ _ _ _ (call_eq _ _ _)).
  change (rt (set_first false s)) with (rt s).
  fold (visible_devices s). set (n := visible_devices s).
  intros (? & s1 & Hc & Hrest)%bind_Ok.
  apply check_count_quiet in Hc as (Ht1 & Hst1 & _ & Hh1 & Hq1).
  injection Hst1 as Ha1 Hi1 Hf1.
  apply bind_Ok in Hrest as (? & s2 & Hnew & Hrest).
  unfold new_deviceProperties in Hnew.
  destruct (n <? 0)%Z eqn:Hn; [discriminate|]. apply Z.ltb_ge in Hn.
  unfold modify in Hnew. simplify_eq.
  apply bind_Ok in Hrest as ([] & s3 & Hloop & Hpub).
  unfold for_lt in Hloop.
  apply (for_from_pass n (Z.to_nat n) 0%Z []) in Hloop
    as (rs & Hl & Har & Hir & Hfr & Hhr & Htr & Hcr);
    [|lia|lia|done|simpl; unfold half_filled; simpl; by rewrite Nat.sub_0_r].
  unfold publish in Hpub.
  apply bind_Ok in Hpub as (? & s4 & Hfence & Hset).
  assert (s4 = s3) as ->.
  { unfold when, atomic_thread_fence, ret in Hfence.
    destruct (cxx11 cfg); by simplify_eq. }
  unfold modify in Hset. simplify_eq. simpl in *.
  rewrite Hfr, Hhr, Htr, Hf1, Hh1, Ht1. simpl.
  rewrite Z.sub_0_r in *. split_and!; try done.
  - by rewrite <- app_assoc.
  - by exists rs.
  - intros Hchk. destruct (Hq1 Hchk) as [-> ->].
    rewrite Hcr by done. done.
Qed.

(** X1.  A first call of [initializeDeviceProp()], made while no other
    thread is inside, that returns: it has asked the runtime for the device
    count [n] (which is not negative) and then for the properties of devices
    [0 .. n-1] in order, and nothing else; the array has [n] records, all
    written; [m_devicePropInitialized] is set and [first] is cleared.  Where
    [assert] checks, nothing was printed and the count query succeeded. *)
Theorem first_call_fills_the_cache s s' :
  m_devicePropInitialized s = false → first s = true →
  initializeDeviceProp cfg s = Ok (tt, s') →
  (0 ≤ visible_devices s)%Z ∧
  m_devicePropInitialized s' = true ∧ first s' = false ∧
  trace s' = trace s ++ CGetDeviceCount
                        :: property_queries (visible_devices s) ∧
  (∃ rs, length rs = Z.to_nat (visible_devices s) ∧
         m_deviceProperties s' = Some (Some <$> rs)) ∧
  (asserts_erased cfg = false →
     cerr s' = cerr s ∧ (rt_gpuGetDeviceCount (rt s)).1.1 = gpuSuccess).
Proof.
  intros Hi Hf Hok.
  destruct (first_call_Ok s s' Hi Hf Hok) as (? & ? & ? & ? & ? & ? & ?).
  done.
Qed.

Lemma initialized_returns s :
  m_devicePropInitialized s = true → initializeDeviceProp cfg s = Ok (tt, s).
Proof.
  intros Hi. unfold initializeDeviceProp.
  by rewrite (bind_eq get _ s s s eq_refl), Hi.
Qed.

(** X2.  [initializeDeviceProp()] is idempotent: after a call that
    returned, a further call returns at once, asks nothing of the runtime
    and changes nothing. *)
Theorem initializeDeviceProp_idempotent s s' :
  initializeDeviceProp cfg s = Ok (tt, s') →
  initializeDeviceProp cfg s' = Ok (tt, s').
Proof.
  intros Hok. apply initialized_returns.
  by eapply AloneFacts.initializeDeviceProp_Ok.
Qed.

(** The start of a first call, up to the allocation of the array. *)
Lemma first_call_eq s :
  m_devicePropInitialized s = false → first s = true →
  initializeDeviceProp cfg s
  = (check_count cfg (rt_gpuGetDeviceCount (rt s)).1.1;;
     new_deviceProperties (visible_devices s);;
     for_lt (visible_devices s) (query_and_check cfg);;
     publish cfg)
      (after CGetDeviceCount rt_gpuGetDeviceCount (set_first false s)).
Proof.
  intros Hi Hf. unfold initializeDeviceProp.
  rewrite (bind_eq get _ s s s eq_refl), Hi. simpl.
  assert (take_first cfg s = Ok (true, set_first false s)) as Htake.
  { unfold take_first, exchange_first, read_first, write_first, bind, when,
      modify, ret. destruct (cxx11 cfg); by rewrite Hf. }
  rewrite (bind_eq _ _ _ _ _ Htake).
  unfold gpuGetDeviceCount. by rewrite (bind_eq _ _ _ _ _ (call_eq _ _ _)).
Qed.

(** X3.  A first call cannot go on with a bad device count.  When the
    runtime leaves a negative count, the call aborts, in every
    configuration (the array allocation throws); when the count query
    fails, the call aborts where [assert] checks. *)
Theorem first_call_aborts_on_bad_count s :
  m_devicePropInitialized s = false → first s = true →
  ((visible_devices s < 0)%Z → initializeDeviceProp cfg s = Err Fatal) ∧
  (asserts_erased cfg = false →
   (rt_gpuGetDeviceCount (rt s)).1.1 ≠ gpuSuccess →
   initializeDeviceProp cfg s = Err Fatal).
Proof.
  intros Hi Hf. rewrite first_call_eq by done. split.
  - intros Hneg. unfold bind.
    destruct (check_count cfg _ _) as [[[] s1]|f] eqn:Hc.
    + unfold new_deviceProperties.
      by assert ((visible_devices s <? 0)%Z = true) as -> by (by apply Z.ltb_lt).
    + f_equal. revert Hc.
      unfold check_count, when, bind, cerr_println, modify, assert, ret, fail.
      destruct (negb _); [|discriminate]. simpl.
      destruct (asserts_erased cfg); [discriminate|].
      destruct (is_success _); [discriminate|]. by intros [= <-].
  - intros Hchk Hst. apply bind_Err.
    unfold check_count, when, bind, cerr_println, modify, assert, ret, fail,
      is_success.
    rewrite Hchk, !bool_decide_eq_false_2 by done. done.
Qed.

(** No part of the pass waits. *)
Lemma bind_no_hang {S A B} (m : M S A) (k : A → M S B) s :
  m s ≠ Err Hang → (∀ a s1, k a s1 ≠ Err Hang) → bind m k s ≠ Err Hang.
Proof.
  unfold bind. destruct (m s) as [[a s1]|f]; intros Hm Hk; [apply Hk|].
  intros [= ->]. by apply Hm.
Qed.

Lemma check_count_no_hang status s : check_count cfg status s ≠ Err Hang.
Proof.
  unfold check_count, when, bind, cerr_println, modify, assert, ret, fail.
  destruct (negb _); [|discriminate]. simpl.
  destruct (asserts_erased cfg); [discriminate|].
  destruct (is_success _); discriminate.
Qed.

Lemma query_and_check_no_hang i s : query_and_check cfg i s ≠ Err Hang.
Proof.
  unfold query_and_check. apply bind_no_hang.
  - unfold query_device, gpuGetDeviceProperties.
    rewrite (bind_eq _ _ _ _ _ (call_eq _ _ _)).
    unfold bind, get, modify, ret, fail. simpl.
    destruct (m_deviceProperties s); [|discriminate].
    case_bool_decide; discriminate.
  - intros status s1.
    unfold check_device, when, bind, cerr_println, modify, assert, ret, fail.
    destruct (negb _); [|discriminate]. simpl.
    destruct (asserts_erased cfg); [discriminate|].
    destruct (is_success _); discriminate.
Qed.

Lemma for_from_no_hang k : ∀ i s,
  for_from k i (query_and_check cfg) s ≠ Err Hang.
Proof.
  induction k as [|k IH]; intros i s; simpl; [done|].
  apply bind_no_hang; [apply query_and_check_no_hang|]. intros _ s1. apply IH.
Qed.

(** X4.  Called while no other thread is inside, [initializeDeviceProp()]
    waits forever in exactly one situation: the claim has been taken
    ([first] is false) and the flag has not been set.  The wait loop of
    lines 147-152 has no other exit. *)
Theorem waits_forever_iff_claimed_and_unset s :
  initializeDeviceProp cfg s = Err Hang ↔
  m_devicePropInitialized s = false ∧ first s = false.
Proof.
  split.
  - intros Hhang.
    destruct (m_devicePropInitialized s) eqn:Hi.
    { by rewrite initialized_returns in Hhang. }
    destruct (first s) eqn:Hf; [|done]. exfalso. revert Hhang.
    rewrite first_call_eq by done.
    apply bind_no_hang; [apply check_count_no_hang|]. intros _ s1.
    apply bind_no_hang.
    { unfold new_deviceProperties, modify, fail. case_match; discriminate. }
    intros _ s2. apply bind_no_hang; [apply for_from_no_hang|].
    intros _ s3. unfold publish, when, atomic_thread_fence, bind, modify, ret.
    destruct (cxx11 cfg); discriminate.
  - intros [Hi Hf]. unfold initializeDeviceProp.
    rewrite (bind_eq get _ s s s eq_refl), Hi. simpl.
    assert (take_first cfg s = Ok (false, set_first false s) ∨
            take_first cfg s = Ok (false, s)) as [Htake|Htake].
    { unfold take_first, exchange_first, read_first, write_first, bind, when,
        modify, ret. destruct (cxx11 cfg); rewrite Hf; auto. }
    all: rewrite (bind_eq _ _ _ _ _ Htake); unfold wait_alone;
      rewrite (bind_eq get _ _ _ _ eq_refl); simpl; by rewrite Hi.
Qed.

End Cache.

Import Scripted.

(** On the scripted runtime with two devices. *)
Lemma first_call_fills_the_cache_witness :
  ∃ s', initializeDeviceProp host_cfg (Sample.process healthy) = Ok (tt, s') ∧
        trace s' = [CGetDeviceCount; CGetDeviceProperties 0;
                    CGetDeviceProperties 1] ∧
        m_devicePropInitialized s' = true.
Proof.
  eassert (H1 : initializeDeviceProp host_cfg (Sample.process healthy)
                = Ok (tt, _)) by (vm_compute; reflexivity).
  destruct (first_call_fills_the_cache host_cfg (Sample.process healthy) _
              eq_refl eq_refl H1) as (_ & Hi & _ & Ht & _).
  eexists. split; [exact H1|]. split; [exact Ht | exact Hi].
Defined.

Lemma initializeDeviceProp_idempotent_witness :
  ∃ s', initializeDeviceProp release_cfg (Sample.process healthy) = Ok (tt, s') ∧
        initializeDeviceProp release_cfg s' = Ok (tt, s').
Proof.
  eassert (H1 : initializeDeviceProp release_cfg (Sample.process healthy)
                = Ok (tt, _)) by (vm_compute; reflexivity).
  eexists. split; [exact H1|].
  exact (initializeDeviceProp_idempotent release_cfg _ _ H1).
Defined.

(** A runtime whose count query fails. *)
Lemma first_call_aborts_on_bad_count_witness :
  initializeDeviceProp host_cfg (Sample.process no_devices) = Err Fatal.
Proof.
  destruct (first_call_aborts_on_bad_count host_cfg
              (Sample.process no_devices) eq_refl eq_refl) as [_ Hfail].
  apply Hfail; [reflexivity | vm_compute; discriminate].
Defined.

(** A process whose claim has been taken and whose flag is not set. *)
Lemma waits_forever_iff_claimed_and_unset_witness :
  initializeDeviceProp host_cfg (set_first false (Sample.process healthy))
  = Err Hang.
Proof.
  apply (proj2 (waits_forever_iff_claimed_and_unset host_cfg
                  (set_first false (Sample.process healthy)))).
  split; reflexivity.
Defined.

End CacheFacts.

(** ** The flags in every configuration *)

Module FlagFacts.
Import Further InitProtocol InitProtocolFacts.

Section Flags.
Context `{Runtime}.
Variable cfg : Config.

Lemma loop_head_not_Returned n i : loop_head cfg n i ≠ Returned.
Proof. unfold loop_head. by repeat case_match. Qed.

(** No step clears the initialised flag or sets [first] again, and a step
    into [Returned] has seen or set the flag. *)
Lemma tstep_flags p s p' s' :
  tstep cfg p s = Ok (p', s') →
  (m_devicePropInitialized s = true → m_devicePropInitialized s' = true) ∧
  (first s = false → first s' = false) ∧
  (p ≠ Returned → p' = Returned → m_devicePropInitialized s' = true).
Proof.
  destruct p.
  - simpl. unfold bind, get, ret. intros ?. simplify_eq.
    destruct (m_devicePropInitialized s'); done.
  - simpl. unfold exchange_first, read_first, bind, ret.
    destruct (cxx11 cfg), (first s) eqn:Hf; intros ?; simplify_eq/=;
      split_and!; try done; congruence.
  - simpl. unfold write_first, bind, modify, ret. intros ?. simplify_eq/=. done.
  - intros [-> Hst]%tstep_get_count. injection Hst as _ -> ->. done.
  - intros (_ & -> & Hst)%tstep_new. injection Hst as _ -> ->.
    split_and!; try done. intros _ Hr. by apply loop_head_not_Returned in Hr.
  - intros (a & r & _ & _ & -> & Hst)%tstep_query. injection Hst as _ -> ->.
    split_and!; try done. intros _ Hr. by apply loop_head_not_Returned in Hr.
  - intros [-> ->]%tstep_release. done.
  - intros [-> Hst]%tstep_publish. injection Hst as _ -> ->. done.
  - simpl. unfold bind, get, ret. intros ?. simplify_eq.
    destruct (m_devicePropInitialized s') eqn:Hi; split_and!; try done.
    by destruct (cxx11 cfg).
  - simpl. unfold atomic_thread_fence, bind, ret. intros ?. by simplify_eq.
  - simpl. unfold ret. intros ?. by simplify_eq.
  - simpl. unfold ret. intros ?. by simplify_eq.
Qed.

Lemma later_step t σ σ' : step cfg t σ = Some σ' → later_of σ σ'.
Proof.
  intros (p & Hh & Hp & Hnr & [(f & Ht & ->)|(p' & s' & Ht & ->)])%step_Some.
  { done. }
  destruct (tstep_flags _ _ _ _ Ht) as (Hi & Hf & _).
  split_and!; simpl; try done.
  intros t' Ht'. rewrite list_lookup_insert_ne; [done|]. congruence.
Qed.

Lemma later_run sched : ∀ σ, later_of σ (run cfg sched σ).
Proof.
  induction sched as [|t sched IH]; intros σ; simpl; [done|].
  destruct (step cfg t σ) as [σ1|] eqn:Hs; simpl; [|apply IH].
  destruct (later_step _ _ _ Hs) as (Hi & Hf & Hr).
  destruct (IH σ1) as (Hi' & Hf' & Hr'). split_and!; auto.
Qed.

Lemma returned_saw_flag_step t σ σ' :
  returned_saw_flag σ → step cfg t σ = Some σ' → returned_saw_flag σ'.
Proof.
  intros Hinv (p & Hh & Hp & Hnr & [(f & Ht & ->)|(p' & s' & Ht & ->)])%step_Some.
  { done. }
  destruct (tstep_flags _ _ _ _ Ht) as (Hi & _ & Hret).
  intros t' [(_ & Hp' & _)|[Hne Hl]]%list_lookup_insert_Some; simpl.
  - apply Hret; [congruence|done].
  - by apply Hi, (Hinv t').
Qed.

Lemma returned_saw_flag_run sched : ∀ σ,
  returned_saw_flag σ → returned_saw_flag (run cfg sched σ).
Proof.
  induction sched as [|t sched IH]; intros σ Hinv; simpl; [done|].
  apply IH. destruct (step cfg t σ) as [σ1|] eqn:Hs; simpl; [|done].
  by eapply returned_saw_flag_step.
Qed.

(** X5.  In every configuration, before C++11 too, and in every
    interleaving of threads entering [initializeDeviceProp()] of a process
    just started: a thread that has returned has seen or set
    [m_devicePropInitialized]; and from then on, whatever the threads do,
    the flag stays set, [first] stays cleared and the thread stays
    returned. *)
Theorem flags_only_move_forward (threads : nat) (r : RT)
    (streams : gmap N gpuStream_t) (sched sched' : list nat) :
  let σ := run cfg sched (spawn threads (boot r streams)) in
  let σ' := run cfg sched' σ in
  (∀ t, pcs σ !! t = Some Returned →
        m_devicePropInitialized (sys σ) = true) ∧
  (m_devicePropInitialized (sys σ) = true →
   m_devicePropInitialized (sys σ') = true) ∧
  (first (sys σ) = false → first (sys σ') = false) ∧
  (∀ t, pcs σ !! t = Some Returned → pcs σ' !! t = Some Returned).
Proof.
  cbv zeta. split.
  - apply returned_saw_flag_run. intros t [Hr _]%lookup_replicate. done.
  - apply later_run.
Qed.

End Flags.

Import Scripted.

(** Before C++11, two threads in lockstep: both have returned, so the flag
    is set, and it stays set when they are scheduled again. *)
Lemma flags_only_move_forward_witness :
  let σ := run cxx03_cfg SampleRace.lockstep (spawn 2 (boot healthy ∅)) in
  pcs σ !! 0%nat = Some Returned ∧
  m_devicePropInitialized (sys σ) = true ∧
  m_devicePropInitialized (sys (run cxx03_cfg [0; 1]%nat σ)) = true.
Proof.
  cbv zeta.
  pose proof (flags_only_move_forward (H:=runtime) cxx03_cfg 2%nat healthy ∅
                SampleRace.lockstep [0; 1]%nat) as Hall.
  cbv zeta in Hall. destruct Hall as (Hret & Hkeep & _).
  assert (pcs (run cxx03_cfg SampleRace.lockstep (spawn 2 (boot healthy ∅)))
            !! 0%nat = Some Returned) as H0 by (vm_compute; reflexivity).
  split; [exact H0|]. split; [exact (Hret _ H0)|exact (Hkeep (Hret _ H0))].
Defined.

End FlagFacts.

(** ** The call and the interleavings *)

Module CallAndThreads.
Import InitProtocol.

(** X6.  The single call and the threads agree, in every configuration:
    when [initializeDeviceProp()], called once in a process just started,
    returns, then for any number of threads entering it there is an
    interleaving in which every one of them returns, nothing aborts, and
    the process ends in the state the single call leaves. *)
Theorem every_caller_can_return `{Runtime} (cfg : Config) (threads : nat)
    (r : RT) (streams : gmap N gpuStream_t) (s' : Sys) :
  initializeDeviceProp cfg (boot r streams) = Ok (tt, s') →
  ∃ sched, let σ := run cfg sched (spawn (S threads) (boot r streams)) in
           sys σ = s' ∧ pcs σ = replicate (S threads) Returned ∧
           halted σ = None ∧ m_devicePropInitialized (sys σ) = true.
Proof.
  intros Hcall.
  destruct (AloneFacts.every_thread_can_return cfg threads r streams s' Hcall)
    as (sched & Hs & Hp & Hh).
  exists sched. cbv zeta in *. split_and!; try done.
  rewrite Hs. by eapply AloneFacts.initializeDeviceProp_Ok.
Qed.

Import Scripted.

Lemma every_caller_can_return_witness :
  ∃ sched, pcs (run release_cfg sched (spawn 3 (boot healthy ∅)))
           = [Returned; Returned; Returned].
Proof.
  eassert (H1 : initializeDeviceProp release_cfg (boot healthy ∅)
                = Ok (tt, _)) by (vm_compute; reflexivity).
  destruct (every_caller_can_return (H:=runtime) release_cfg 2%nat healthy ∅ _ H1)
    as (sched & _ & Hp & _).
  exists sched. exact Hp.
Defined.

End CallAndThreads.

(** ** The cache by index, and the constructors *)

Module ConstructorFacts.
Import GpuStreamDevice StreamDeviceWording Further InitProtocol.

Section Ctors.
Context `{Runtime}.
Variable cfg : Config.

(** One turn of the loop: which record is written, and where the runtime
    is left. *)
Lemma query_and_check_exact i s u s' :
  query_and_check cfg i s = Ok (u, s') →
  ∃ a, m_deviceProperties s = Some a ∧
       (0 ≤ i < Z.of_nat (length a))%Z ∧
       m_deviceProperties s'
         = Some (<[Z.to_nat i := Some (rt_gpuGetDeviceProperties i (rt s)).1.2]> a) ∧
       rt s' = (rt_gpuGetDeviceProperties i (rt s)).2 ∧
       (asserts_erased cfg = false →
          (rt_gpuGetDeviceProperties i (rt s)).1.1 = gpuSuccess).
Proof.
  unfold query_and_check. intros (status & s1 & Hq & Hc)%bind_Ok.
  apply CacheFacts.check_device_quiet in Hc as (_ & Hst & Hrt & _ & Hchk).
  injection Hst as Ha' _ _.
  unfold query_device, gpuGetDeviceProperties in Hq.
  erewrite bind_eq in Hq by apply call_eq.
  unfold bind, get in Hq. simpl in Hq.
  destruct (m_deviceProperties s) as [a|] eqn:Ha; [|discriminate].
  case_bool_decide as Hi; [|discriminate].
  unfold modify, ret in Hq. simplify_eq.
  exists a. rewrite Ha', Hrt. split_and!; try done; try lia.
  intros He. by destruct (Hchk He).
Qed.

Lemma for_from_answers n k : ∀ i rs s s',
  Z.to_nat (n - i) = k → (0 ≤ i ≤ n)%Z → length rs = Z.to_nat i →
  m_deviceProperties s = half_filled n rs →
  for_from k i (query_and_check cfg) s = Ok (tt, s') →
  m_deviceProperties s'
    = Some ((Some <$> rs) ++ records_of (answers k i (rt s)).1) ∧
  rt s' = (answers k i (rt s)).2 ∧
  (asserts_erased cfg = false →
     Forall (λ a, a.1 = gpuSuccess) (answers k i (rt s)).1).
Proof.
  induction k as [|k IH]; intros i rs s s' Hk Hi Hlen Ha; simpl.
  - unfold ret. intros ?. simplify_eq. assert (i = n) as -> by lia.
    unfold records_of. simpl. rewrite app_nil_r. split_and!; try done.
    by rewrite Ha, InitProtocolFacts.half_filled_full.
  - intros ([] & s1 & Hq & Hrest)%bind_Ok.
    apply query_and_check_exact in Hq as (a & Ha1 & Hb & Ha' & Hrt & Hst).
    rewrite Ha in Ha1. injection Ha1 as <-.
    replace (Z.to_nat i) with (length rs) in Ha' by done.
    rewrite InitProtocolFacts.half_filled_insert in Ha' by lia.
    set (r := (rt_gpuGetDeviceProperties i (rt s)).1.2) in *.
    assert (length (rs ++ [r]) = Z.to_nat (i + 1)) as Hlen'
      by (rewrite length_app; change (length [r]) with 1%nat; lia).
    apply (IH (i + 1)%Z (rs ++ [r])) in Hrest as (Har & Hrr & Hall);
      [|lia|lia|done|done].
    rewrite Hrt in Har, Hrr, Hall. split_and!.
    + rewrite Har. unfold records_of. rewrite fmap_app, <- app_assoc.
      done.
    + done.
    + intros He. constructor; [by apply Hst|by apply Hall].
Qed.

(** The [j]th of the answers is an answer about device [i + j]. *)
Lemma answers_lookup k : ∀ i r (j : nat),
  (j < k)%nat →
  ∃ r', (answers k i r).1 !! j
        = Some (rt_gpuGetDeviceProperties (i + Z.of_nat j) r').1.
Proof.
  induction k as [|k IH]; intros i r j Hj; [lia|].
  destruct j as [|j].
  - exists r. simpl. by rewrite Z.add_0_r.
  - destruct (IH (i + 1)%Z (rt_gpuGetDeviceProperties i r).2 j) as [r' Hr'];
      [lia|].
    exists r'. replace (i + Z.of_nat (S j))%Z with (i + 1 + Z.of_nat j)%Z by lia.
    simpl. exact Hr'.
Qed.

Lemma answers_lookup_0 k r i :
  (0 ≤ i < Z.of_nat k)%Z →
  ∃ r', (answers k 0 r).1 !! Z.to_nat i
        = Some (rt_gpuGetDeviceProperties i r').1.
Proof.
  intros Hi. destruct (answers_lookup k 0 r (Z.to_nat i)) as [r' Hl]; [lia|].
  exists r'. by replace (0 + Z.of_nat (Z.to_nat i))%Z with i in Hl by lia.
Qed.

Lemma answers_length k : ∀ i r, length (answers k i r).1 = k.
Proof. induction k as [|k IH]; intros i r; simpl; [done|]. by rewrite IH. Qed.

(** The array a first call leaves. *)
Lemma first_call_answers s s' :
  m_devicePropInitialized s = false → first s = true →
  initializeDeviceProp cfg s = Ok (tt, s') →
  let n := visible_devices s in
  let r1 := (rt_gpuGetDeviceCount (rt s)).2 in
  (0 ≤ n)%Z ∧
  m_deviceProperties s' = Some (records_of (answers (Z.to_nat n) 0 r1).1) ∧
  rt s' = (answers (Z.to_nat n) 0 r1).2 ∧
  (asserts_erased cfg = false →
     Forall (λ a, a.1 = gpuSuccess) (answers (Z.to_nat n) 0 r1).1).
Proof.
  intros Hi Hf. rewrite CacheFacts.first_call_eq by done. cbv zeta.
  set (n := visible_devices s).
  intros (? & s1 & Hc & Hrest)%bind_Ok.
  apply CacheFacts.check_count_quiet in Hc as (_ & Hst1 & Hrt1 & _).
  injection Hst1 as Ha1 Hi1 Hf1.
  apply bind_Ok in Hrest as (? & s2 & Hnew & Hrest).
  unfold new_deviceProperties in Hnew.
  destruct (n <? 0)%Z eqn:Hn; [discriminate|]. apply Z.ltb_ge in Hn.
  unfold modify in Hnew. simplify_eq.
  apply bind_Ok in Hrest as ([] & s3 & Hloop & Hpub).
  unfold for_lt in Hloop.
  apply (for_from_answers n (Z.to_nat n) 0%Z []) in Hloop as (Har & Hrr & Hall);
    [|lia|lia|done|simpl; unfold half_filled; simpl; by rewrite Nat.sub_0_r].
  unfold publish in Hpub.
  apply bind_Ok in Hpub as (? & s4 & Hfence & Hset).
  assert (s4 = s3) as ->.
  { unfold when, atomic_thread_fence, ret in Hfence.
    destruct (cxx11 cfg); by simplify_eq. }
  unfold modify in Hset. simplify_eq. simpl in *.
  rewrite Hrt1 in Har, Hrr, Hall. done.
Qed.

(** Record [i] of that array. *)
Lemma records_lookup k r i :
  (0 ≤ i < Z.of_nat k)%Z →
  ∃ r', records_of (answers k 0 r).1 !! Z.to_nat i
        = Some (Some (rt_gpuGetDeviceProperties i r').1.2) ∧
        (Forall (λ a, a.1 = gpuSuccess) (answers k 0 r).1 →
         (rt_gpuGetDeviceProperties i r').1.1 = gpuSuccess).
Proof.
  intros Hi. destruct (answers_lookup_0 k r i Hi) as [r' Hl].
  exists r'. split.
  - unfold records_of. by rewrite list_lookup_fmap, Hl.
  - intros Hall. by apply (Forall_lookup_1 _ _ _ _ Hall Hl).
Qed.

(** X7.  The cache is indexed by device.  After a first call of
    [initializeDeviceProp()] that returned, the array holds the records of
    the runtime's answers to the property queries for devices [0 .. n-1],
    each asked of the runtime as the query before left it: record [i], for
    every [i] below the device count, is what the runtime answered to the
    query for device [i].  Where [assert] checks, each of these queries
    reported [gpuSuccess]. *)
Theorem cache_is_indexed_by_device s s' :
  m_devicePropInitialized s = false → first s = true →
  initializeDeviceProp cfg s = Ok (tt, s') →
  let n := visible_devices s in
  let r1 := (rt_gpuGetDeviceCount (rt s)).2 in
  m_deviceProperties s' = Some (records_of (answers (Z.to_nat n) 0 r1).1) ∧
  rt s' = (answers (Z.to_nat n) 0 r1).2 ∧
  ∀ i, (0 ≤ i < n)%Z →
    ∃ r a, m_deviceProperties s' = Some a ∧
           a !! Z.to_nat i = Some (Some (rt_gpuGetDeviceProperties i r).1.2) ∧
           (asserts_erased cfg = false →
              (rt_gpuGetDeviceProperties i r).1.1 = gpuSuccess).
Proof.
  intros Hi Hf Hok.
  destruct (first_call_answers s s' Hi Hf Hok) as (Hn & Ha & Hr & Hall).
  cbv zeta. split_and!; [done..|].
  intros i Hb.
  destruct (records_lookup (Z.to_nat (visible_devices s))
              (rt_gpuGetDeviceCount (rt s)).2 i) as (r & Hl & Hs); [lia|].
  exists r, (records_of (answers (Z.to_nat (visible_devices s)) 0
                           (rt_gpuGetDeviceCount (rt s)).2).1).
  split_and!; [done..|]. intros He. by apply Hs, Hall.
Qed.

(** [deviceProperties()] against a fully written array. *)
Lemma deviceProperties_in_range self s a r :
  m_deviceProperties s = Some a →
  (0 ≤ device_ self)%Z → a !! Z.to_nat (device_ self) = Some (Some r) →
  deviceProperties self s = Ok (r, s).
Proof.
  intros Ha Hd Hl. unfold deviceProperties.
  rewrite (bind_eq get _ s s s eq_refl), Ha.
  rewrite bool_decide_eq_true_2 by done. by rewrite Hl.
Qed.

Lemma deviceProperties_out_of_range self s a :
  m_deviceProperties s = Some a →
  ¬ (0 ≤ device_ self < Z.of_nat (length a))%Z →
  deviceProperties self s = Err Undefined.
Proof.
  intros Ha Hd. unfold deviceProperties.
  rewrite (bind_eq get _ s s s eq_refl), Ha.
  case_bool_decide as H0; [|done].
  destruct (a !! Z.to_nat (device_ self)) as [r|] eqn:Hl; [|done].
  apply lookup_lt_Some in Hl. lia.
Qed.

Lemma new_on_device_Ok device s self s' :
  new_on_device cfg device s = Ok (self, s') →
  initializeDeviceProp cfg s = Ok (tt, s') ∧
  self = {| stream_ := default_stream_ptr; device_ := device;
            scratch_ := NULL; semaphore_ := NULL |}.
Proof.
  unfold new_on_device. intros ([] & s1 & Hinit & Hret)%bind_Ok.
  unfold ret in Hret. by simplify_eq.
Qed.

(** X8.  The constructor taking a device index checks nothing about it.
    In a process that has not initialised the cache, for any index at all:
    when the constructor returns, [deviceProperties()] of the new instance
    returns what the runtime answered to the query for that device if the
    index is within the device count, and is an out-of-bounds read of the
    array otherwise; it never changes anything. *)
Theorem device_index_is_not_checked device s self s' :
  m_devicePropInitialized s = false → first s = true →
  new_on_device cfg device s = Ok (self, s') →
  device_ self = device ∧
  ((0 ≤ device < visible_devices s)%Z →
     ∃ r, deviceProperties self s'
          = Ok ((rt_gpuGetDeviceProperties device r).1.2, s')) ∧
  (¬ (0 ≤ device < visible_devices s)%Z →
     deviceProperties self s' = Err Undefined).
Proof.
  intros Hi Hf [Hinit ->]%new_on_device_Ok.
  destruct (first_call_answers s s' Hi Hf Hinit) as (Hn & Ha & _).
  split; [done|]. split.
  - intros Hb.
    destruct (records_lookup (Z.to_nat (visible_devices s))
                (rt_gpuGetDeviceCount (rt s)).2 device) as (r & Hl & _); [lia|].
    exists r. eapply deviceProperties_in_range; [exact Ha|simpl; lia|].
    exact Hl.
  - intros Hb. eapply deviceProperties_out_of_range; [exact Ha|].
    simpl. unfold records_of. rewrite length_fmap, answers_length. lia.
Qed.

(** What each constructor leaves when it returns. *)
Lemma default_constructor_Ok indeterminate s self s' :
  new cfg indeterminate s = Ok (self, s') →
  initializeDeviceProp cfg (after CGetDevice (rt_gpuGetDevice indeterminate) s)
    = Ok (tt, s') ∧
  self = {| stream_ := default_stream_ptr;
            device_ := (rt_gpuGetDevice indeterminate (rt s)).1.2;
            scratch_ := NULL; semaphore_ := NULL |}.
Proof.
  unfold new, gpuGetDevice. rewrite (bind_eq _ _ _ _ _ (call_eq _ _ _)).
  intros ([] & s1 & Hinit & Hret)%bind_Ok.
  unfold ret in Hret. by simplify_eq.
Qed.

Lemma new_on_stream_Ok stream device s self s' :
  new_on_stream cfg stream device s = Ok (self, s') →
  ∃ d s1, bind_device cfg device s = Ok (d, s1) ∧
          initializeDeviceProp cfg s1 = Ok (tt, s') ∧
          self = {| stream_ := stream; device_ := d;
                    scratch_ := NULL; semaphore_ := NULL |}.
Proof.
  unfold new_on_stream. intros (d & s1 & Hb & Hrest)%bind_Ok.
  apply bind_Ok in Hrest as ([] & s2 & Hinit & Hret).
  unfold ret in Hret. simplify_eq. by exists d, s1.
Qed.

Lemma bind_device_Ok device s d s1 :
  bind_device cfg device s = Ok (d, s1) →
  m_devicePropInitialized s1 = m_devicePropInitialized s ∧
  first s1 = first s ∧
  issues s s1 [if (device <? 0)%Z then CGetDevice else CGetDeviceCount] ∧
  ((0 ≤ device)%Z → d = device ∧
     s1 = after CGetDeviceCount rt_gpuGetDeviceCount s ∧
     (asserts_erased cfg = false →
        (rt_gpuGetDeviceCount (rt s)).1.1 = gpuSuccess ∧
        (device < visible_devices s)%Z)).
Proof.
  unfold bind_device. destruct (device <? 0)%Z eqn:Hd.
  - unfold gpuGetDevice. rewrite (bind_eq _ _ _ _ _ (call_eq _ _ _)).
    unfold ret. intros ?. simplify_eq. apply Z.ltb_lt in Hd.
    split_and!; try done; try apply issues_after. intros ?. lia.
  - apply Z.ltb_ge in Hd.
    unfold gpuGetDeviceCount. rewrite (bind_eq _ _ _ _ _ (call_eq _ _ _)).
    intros ([] & s2 & [-> H1]%assert_Ok & Hrest)%bind_Ok.
    apply bind_Ok in Hrest as ([] & s3 & [-> H2]%assert_Ok & Hret).
    unfold ret in Hret. simplify_eq.
    split_and!; try done; try apply issues_after.
    intros _. split_and!; try done. intros Hchk.
    specialize (H1 Hchk). specialize (H2 Hchk).
    unfold is_success in H1. apply bool_decide_eq_true in H1.
    apply Z.ltb_lt in H2. done.
Qed.

(** X9.  Every constructor of [GpuStreamDevice], when it returns, leaves
    the property cache initialised and an instance with no scratch block
    and no semaphore, on the stream it was given (the default stream for
    the first two).  The default constructor takes [device_] from
    [gpuGetDevice] without looking at its status. *)
Theorem constructors_initialise_the_cache indeterminate stream device s self s' :
  new cfg indeterminate s = Ok (self, s') ∨
  new_on_device cfg device s = Ok (self, s') ∨
  new_on_stream cfg stream device s = Ok (self, s') →
  m_devicePropInitialized s' = true ∧ fresh self ∧
  initializeDeviceProp cfg s' = Ok (tt, s') ∧
  (new cfg indeterminate s = Ok (self, s') →
     stream_ self = default_stream_ptr ∧
     device_ self = (rt_gpuGetDevice indeterminate (rt s)).1.2) ∧
  (new_on_device cfg device s = Ok (self, s') →
     stream_ self = default_stream_ptr ∧ device_ self = device) ∧
  (new_on_stream cfg stream device s = Ok (self, s') →
     stream_ self = stream ∧ ((0 ≤ device)%Z → device_ self = device)).
Proof.
  intros Hctor.
  assert (m_devicePropInitialized s' = true ∧ fresh self) as [Hi Hfresh].
  { destruct Hctor as [[Hinit ->]%default_constructor_Ok|[[Hinit ->]%new_on_device_Ok|Hs]].
    - split; [by eapply AloneFacts.initializeDeviceProp_Ok|done].
    - split; [by eapply AloneFacts.initializeDeviceProp_Ok|done].
    - apply new_on_stream_Ok in Hs as (d & s1 & _ & Hinit & ->).
      split; [by eapply AloneFacts.initializeDeviceProp_Ok|done]. }
  split_and!; try done.
  - by apply CacheFacts.initialized_returns.
  - by intros [_ ->]%default_constructor_Ok.
  - by intros [_ ->]%new_on_device_Ok.
  - intros (d & s1 & Hb & _ & ->)%new_on_stream_Ok. split; [done|].
    intros Hd. simpl. by destruct (bind_device_Ok _ _ _ _ Hb) as (_ & _ & _ & Hx);
      destruct (Hx Hd) as [-> _].
Qed.

(** X10.  Once the cache is initialised, constructing a stream device
    queries no device property: the constructor taking a device index
    calls nothing at all, the default constructor calls [gpuGetDevice]
    only, and the constructor taking a stream calls [gpuGetDevice] (index
    below zero) or [gpuGetDeviceCount] only.  None of them prints or
    touches the cache. *)
Theorem later_constructions_query_nothing indeterminate stream device s :
  m_devicePropInitialized s = true →
  new_on_device cfg device s
    = Ok ({| stream_ := default_stream_ptr; device_ := device;
             scratch_ := NULL; semaphore_ := NULL |}, s) ∧
  new cfg indeterminate s
    = Ok ({| stream_ := default_stream_ptr;
             device_ := (rt_gpuGetDevice indeterminate (rt s)).1.2;
             scratch_ := NULL; semaphore_ := NULL |},
          after CGetDevice (rt_gpuGetDevice indeterminate) s) ∧
  ∀ self s', new_on_stream cfg stream device s = Ok (self, s') →
    issues s s' [if (device <? 0)%Z then CGetDevice else CGetDeviceCount] ∧
    InitProtocol.statics s' = InitProtocol.statics s.
Proof.
  intros Hi. split_and!.
  - unfold new_on_device.
    by rewrite (bind_eq _ _ _ _ _ (CacheFacts.initialized_returns cfg s Hi)).
  - unfold new, gpuGetDevice. rewrite (bind_eq _ _ _ _ _ (call_eq _ _ _)).
    by rewrite (bind_eq _ _ _ _ _
                  (CacheFacts.initialized_returns cfg (after _ _ s) Hi)).
  - intros self s' (d & s1 & Hb & Hinit & ->)%new_on_stream_Ok.
    pose proof Hb as Hb'.
    apply bind_device_Ok in Hb as (Hi1 & Hf1 & Hiss & _).
    rewrite CacheFacts.initialized_returns in Hinit by congruence.
    simplify_eq. split; [done|].
    unfold InitProtocol.statics. rewrite Hi1, Hf1. do 2 f_equal.
    revert Hb'. unfold bind_device.
    destruct (device <? 0)%Z.
    + unfold gpuGetDevice. rewrite (bind_eq _ _ _ _ _ (call_eq _ _ _)).
      unfold ret. intros ?. by simplify_eq.
    + unfold gpuGetDeviceCount. rewrite (bind_eq _ _ _ _ _ (call_eq _ _ _)).
      intros ([] & s2 & [-> _]%assert_Ok & Hrest)%bind_Ok.
      apply bind_Ok in Hrest as ([] & s3 & [-> _]%assert_Ok & Hret).
      unfold ret in Hret. by simplify_eq.
Qed.

(** X11.  Where [assert] checks: a stream device built on a stream and an
    explicit device index, in a process that has not initialised the cache
    and whose runtime reports the same device count to the constructor and
    to [initializeDeviceProp()], is bound to a device within the count, and
    [deviceProperties()] returns what the runtime answered, with
    [gpuSuccess], to the query for that device. *)
Theorem checked_index_has_properties stream device s self s' :
  asserts_erased cfg = false →
  m_devicePropInitialized s = false → first s = true →
  (0 ≤ device)%Z →
  visible_devices (after CGetDeviceCount rt_gpuGetDeviceCount s)
    = visible_devices s →
  new_on_stream cfg stream device s = Ok (self, s') →
  device_ self = device ∧ (device < visible_devices s)%Z ∧
  ∃ r, (rt_gpuGetDeviceProperties device r).1.1 = gpuSuccess ∧
       deviceProperties self s'
       = Ok ((rt_gpuGetDeviceProperties device r).1.2, s').
Proof.
  intros Hchk Hi Hf Hd Hstable (d & s1 & Hb & Hinit & ->)%new_on_stream_Ok.
  apply bind_device_Ok in Hb as (Hi1 & Hf1 & _ & Hx).
  destruct (Hx Hd) as (-> & -> & Hy). destruct (Hy Hchk) as [_ Hlt].
  split; [done|]. split; [done|].
  destruct (first_call_answers
              (after CGetDeviceCount rt_gpuGetDeviceCount s) s' Hi Hf Hinit)
    as (Hn & Ha & _ & Hall).
  rewrite Hstable in Ha, Hall.
  set (r1 := (rt_gpuGetDeviceCount
                (rt (after CGetDeviceCount rt_gpuGetDeviceCount s))).2) in *.
  destruct (records_lookup (Z.to_nat (visible_devices s)) r1 device)
    as (r & Hl & Hs); [lia|].
  exists r. split; [by apply Hs, Hall|].
  eapply deviceProperties_in_range; [exact Ha|simpl; lia|].
  exact Hl.
Qed.

End Ctors.

Import Scripted.

Lemma cache_is_indexed_by_device_witness :
  ∃ s', initializeDeviceProp host_cfg (Sample.process healthy) = Ok (tt, s') ∧
        m_deviceProperties s' = Some [Some (props_of 0); Some (props_of 1)].
Proof.
  eassert (H1 : initializeDeviceProp host_cfg (Sample.process healthy)
                = Ok (tt, _)) by (vm_compute; reflexivity).
  destruct (cache_is_indexed_by_device host_cfg (Sample.process healthy) _
              eq_refl eq_refl H1) as (Ha & _).
  eexists. split; [exact H1|]. rewrite Ha. vm_compute. reflexivity.
Defined.

(** Device 5 of 2 is accepted; reading its properties is out of bounds. *)
Lemma device_index_is_not_checked_witness :
  ∃ self s',
    new_on_device host_cfg 5 (Sample.process healthy) = Ok (self, s') ∧
    deviceProperties self s' = Err Undefined.
Proof.
  eassert (H1 : new_on_device host_cfg 5 (Sample.process healthy)
                = Ok (_, _)) by (vm_compute; reflexivity).
  destruct (device_index_is_not_checked host_cfg 5 (Sample.process healthy)
              _ _ eq_refl eq_refl H1) as (_ & _ & Hout).
  eexists _, _. split; [exact H1|]. apply Hout.
  vm_compute. intros [_ Hlt]. discriminate.
Defined.

Lemma constructors_initialise_the_cache_witness :
  ∃ self s',
    new_on_stream host_cfg (caller_stream_ptr 64) 1 (Sample.process healthy)
      = Ok (self, s') ∧
    m_devicePropInitialized s' = true ∧
    stream_ self = caller_stream_ptr 64 ∧ device_ self = 1%Z.
Proof.
  eassert (H1 : new_on_stream host_cfg (caller_stream_ptr 64) 1
                  (Sample.process healthy) = Ok (_, _))
    by (vm_compute; reflexivity).
  destruct (constructors_initialise_the_cache host_cfg 0
              (caller_stream_ptr 64) 1 (Sample.process healthy) _ _
              (or_intror (or_intror H1))) as (Hi & _ & _ & _ & _ & Hs).
  destruct (Hs H1) as [Hst Hd].
  eexists _, _. split; [exact H1|].
  split; [exact Hi|]. split; [exact Hst|]. apply Hd. lia.
Defined.

(** A second stream device, on device 1, costs no runtime call. *)
Lemma later_constructions_query_nothing_witness :
  ∃ s, initializeDeviceProp host_cfg (Sample.process healthy) = Ok (tt, s) ∧
       new_on_device host_cfg 1 s
         = Ok ({| stream_ := default_stream_ptr; device_ := 1;
                  scratch_ := NULL; semaphore_ := NULL |}, s).
Proof.
  eassert (H1 : initializeDeviceProp host_cfg (Sample.process healthy)
                = Ok (tt, _)) by (vm_compute; reflexivity).
  eexists. split; [exact H1|].
  lazymatch type of H1 with
  | _ = Ok (_, ?s) =>
      exact (proj1 (later_constructions_query_nothing host_cfg 0
                      default_stream_ptr 1 s eq_refl))
  end.
Defined.

Lemma checked_index_has_properties_witness :
  ∃ self s',
    new_on_stream host_cfg (caller_stream_ptr 64) 1 (Sample.process healthy)
      = Ok (self, s') ∧
    deviceProperties self s' = Ok (props_of 1, s').
Proof.
  eassert (H1 : new_on_stream host_cfg (caller_stream_ptr 64) 1
                  (Sample.process healthy) = Ok (_, _))
    by (vm_compute; reflexivity).
  destruct (checked_index_has_properties host_cfg (caller_stream_ptr 64) 1
              (Sample.process healthy) _ _ eq_refl eq_refl eq_refl
              ltac:(lia) eq_refl H1) as (_ & _ & r & _ & Hr).
  eexists _, _. split; [exact H1|exact Hr].
Defined.

End ConstructorFacts.

(** ** Device memory over the life of a stream device *)

Module MemoryFacts.
Import GpuStreamDevice StreamDeviceWording Further.
Import GpuStreamDeviceFacts ScratchFacts.

Section Memory.
Context `{Runtime}.
Variable cfg : Config.

Lemma deviceProperties_Ok self s r s' :
  deviceProperties self s = Ok (r, s') → s' = s.
Proof.
  unfold deviceProperties. rewrite (bind_eq get _ s s s eq_refl).
  destruct (m_deviceProperties s) as [a|]; [|discriminate].
  case_bool_decide; [|discriminate].
  destruct (a !! _) as [[r'|]|]; try discriminate.
  unfold ret. intros ?. by simplify_eq.
Qed.

Lemma pinned_set_malloc d n rest :
  pinned_from d false ([CSetDevice d; CMalloc n] ++ rest)
  = pinned_from d false rest.
Proof. simpl. by rewrite Z.eqb_refl. Qed.

Lemma pinned_set_free d p rest :
  pinned_from d false ([CSetDevice d; CFree p] ++ rest)
  = pinned_from d false rest.
Proof. simpl. by rewrite Z.eqb_refl. Qed.

(** The calls of [scratchpad()]. *)
Lemma scratchpad_calls self s p self1 s1 :
  scratchpad cfg self s = Ok ((p, self1), s1) →
  ∃ calls, trace s1 = trace s ++ calls ∧ fills calls = [] ∧
           ∀ rest, pinned_from (device_ self) false (calls ++ rest)
                   = pinned_from (device_ self) false rest.
Proof.
  intros Hs. destruct (decide (scratch_ self = NULL)) as [Hn|Hn].
  - destruct (scratchpad_first cfg _ _ _ _ _ Hn Hs) as (_ & (Ht & _) & _).
    eexists. split; [exact Ht|]. split; [done|].
    intros rest. apply pinned_set_malloc.
  - rewrite scratchpad_cached in Hs by done. simplify_eq.
    exists []. by rewrite app_nil_r.
Qed.

(** What one request asks of the runtime. *)
Lemma serve_calls q self s self' s' :
  serve cfg q self s = Ok (self', s') →
  ∃ calls,
    trace s' = trace s ++ calls ∧
    (∀ rest, pinned_from (device_ self) false (calls ++ rest)
             = pinned_from (device_ self) false rest) ∧
    if asks_semaphore q && (semaphore_ self =? NULL)%N
    then semaphore_ self' ≠ NULL ∧
         ∃ h, deref_stream (stream_ self) s = Ok (h, s) ∧
              fills calls
              = [CMemsetAsync (semaphore_ self') 0 sizeof_unsigned_int h]
    else fills calls = [] ∧ semaphore_ self' = semaphore_ self.
Proof.
  destruct q as [| |n|b| |]; simpl.
  - intros (h & s1 & [-> _]%deref_stream_Ok & Hret)%bind_Ok.
    unfold ret in Hret. simplify_eq. exists []. by rewrite app_nil_r.
  - intros (r & s1 & ->%deviceProperties_Ok & Hret)%bind_Ok.
    unfold ret in Hret. simplify_eq. exists []. by rewrite app_nil_r.
  - intros (p & s1 & [(Ht & _) _]%allocate_Ok & Hret)%bind_Ok.
    unfold ret in Hret. simplify_eq.
    eexists. split; [exact Ht|]. split; [|done].
    intros rest. apply pinned_set_malloc.
  - intros ([] & s1 & (Ht & _)%deallocate_Ok & Hret)%bind_Ok.
    unfold ret in Hret. simplify_eq.
    eexists. split; [exact Ht|]. split; [|done].
    intros rest. apply pinned_set_free.
  - intros ([p self1] & s1 & Hs & Hret)%bind_Ok.
    unfold ret in Hret. simplify_eq. simpl.
    destruct (scratchpad_calls _ _ _ _ _ Hs) as (calls & Ht & Hf & Hp).
    apply scratchpad_Ok in Hs as (_ & _ & _ & _ & _ & Hsem & _).
    exists calls. done.
  - intros ([q self1] & s1 & Hs & Hret)%bind_Ok.
    unfold ret in Hret. simplify_eq. simpl.
    destruct (semaphore_ self =? NULL)%N eqn:Hn.
    + apply N.eqb_eq in Hn.
      destruct (semaphore_first cfg _ _ _ _ _ Hn Hs)
        as (p & self0 & s0 & h & Hscratch & Hp & -> & -> & Hderef & Hfill).
      destruct (scratchpad_calls _ _ _ _ _ Hscratch) as (calls & Ht & Hf & Hpin).
      destruct Hfill as (Ht' & _).
      exists (calls ++ [CMemsetAsync (p + kGpuScratchSize)%N 0
                          sizeof_unsigned_int h]).
      split; [by rewrite Ht', Ht, app_assoc|]. split.
      * intros rest. by rewrite <- app_assoc, Hpin.
      * simpl. split; [unfold NULL, kGpuScratchSize; lia|].
        exists h. split; [done|].
        unfold fills in *. by rewrite List.filter_app, Hf.
    + apply N.eqb_neq in Hn. rewrite semaphore_cached in Hs by done.
      simplify_eq. exists []. by rewrite app_nil_r.
Qed.

(** What a run of requests asks of the runtime. *)
Lemma serve_all_calls qs : ∀ self s self' s',
  serve_all cfg qs self s = Ok (self', s') →
  ∃ calls,
    trace s' = trace s ++ calls ∧
    (∀ rest, pinned_from (device_ self) false (calls ++ rest)
             = pinned_from (device_ self) false rest) ∧
    if existsb asks_semaphore qs && (semaphore_ self =? NULL)%N
    then semaphore_ self' ≠ NULL ∧
         ∃ h, deref_stream (stream_ self) s = Ok (h, s) ∧
              fills calls
              = [CMemsetAsync (semaphore_ self') 0 sizeof_unsigned_int h]
    else fills calls = [] ∧ semaphore_ self' = semaphore_ self.
Proof.
  induction qs as [|q qs IH]; intros self s self' s'; simpl.
  - unfold ret. intros ?. simplify_eq. exists []. by rewrite app_nil_r.
  - intros (self1 & s1 & Hq & Hrest)%bind_Ok.
    destruct (serve_keeps cfg _ _ _ _ _ Hq) as (Hst & Hdev & Hhs & _).
    destruct (serve_calls _ _ _ _ _ Hq) as (c1 & Ht1 & Hp1 & Hf1).
    destruct (IH _ _ _ _ Hrest) as (c2 & Ht2 & Hp2 & Hf2).
    rewrite Hdev in Hp2. rewrite Hst in Hf2.
    exists (c1 ++ c2). split; [by rewrite Ht2, Ht1, app_assoc|]. split.
    { intros rest. by rewrite <- app_assoc, Hp1, Hp2. }
    unfold fills in *. rewrite List.filter_app.
    destruct (asks_semaphore q) eqn:Hq1; simpl in *.
    + destruct (semaphore_ self =? NULL)%N eqn:Hn; simpl in *.
      * destruct Hf1 as (Hne & h & Hd & Hfill).
        assert ((semaphore_ self1 =? NULL)%N = false) as Hn1
          by (by apply N.eqb_neq).
        rewrite Hn1, andb_false_r in Hf2. destruct Hf2 as [Hf2 Hs2].
        rewrite Hs2, Hf2, app_nil_r. split; [done|]. by exists h.
      * destruct Hf1 as [Hf1 Hs1]. rewrite Hs1, Hn, andb_false_r in Hf2.
        destruct Hf2 as [Hf2 Hs2]. split; [by rewrite Hf1, Hf2|congruence].
    + destruct Hf1 as [Hf1 Hs1]. rewrite Hs1 in Hf2. rewrite Hf1. simpl.
      destruct (existsb asks_semaphore qs && (semaphore_ self =? NULL)%N);
        [|done].
      destruct Hf2 as (Hne & h & Hd & Hfill). split; [done|].
      exists h. split; [|done].
      apply deref_stream_Ok in Hd as [_ Hd]. by apply Hd.
Qed.

Lemma destroy_calls self s u s' :
  destroy cfg self s = Ok (u, s') →
  ∃ calls, trace s' = trace s ++ calls ∧
           pinned (device_ self) calls = true ∧ fills calls = [].
Proof.
  rewrite destroy_eq. destruct (scratch_ self =? NULL)%N.
  - intros ?. simplify_eq. exists []. by rewrite app_nil_r.
  - intros (Ht & _)%deallocate_Ok. eexists. split; [exact Ht|].
    split; [|done]. unfold pinned.
    rewrite <- (app_nil_r [_; _]). by rewrite pinned_set_free.
Qed.

(** X12.  Every allocation and release of a stream device goes to its
    own device.  Over any run of requests to an instance, and its
    destruction after them, in every configuration: the runtime is asked
    nothing but [gpuSetDevice(device_)], [gpuMalloc], [gpuFree] and
    [gpuMemsetAsync], and every [gpuMalloc] and [gpuFree] comes directly
    after a [gpuSetDevice(device_)]. *)
Theorem allocations_follow_set_device qs self s self' s' :
  serve_all cfg qs self s = Ok (self', s') →
  (∃ calls, trace s' = trace s ++ calls ∧
            pinned (device_ self) calls = true) ∧
  ∀ s'', destroy cfg self' s' = Ok (tt, s'') →
    ∃ calls, trace s'' = trace s ++ calls ∧
             pinned (device_ self) calls = true.
Proof.
  intros Hrun.
  destruct (serve_all_calls _ _ _ _ _ Hrun) as (c1 & Ht1 & Hp1 & _).
  destruct (serve_all_keeps cfg _ _ _ _ _ Hrun) as (_ & Hdev & _).
  split.
  - exists c1. split; [done|]. unfold pinned.
    rewrite <- (app_nil_r c1). by rewrite Hp1.
  - intros s'' (c2 & Ht2 & Hp2 & _)%destroy_calls.
    exists (c1 ++ c2). split; [by rewrite Ht2, Ht1, app_assoc|].
    unfold pinned in *. by rewrite Hp1, <- Hdev.
Qed.

(** X13.  The semaphore is zeroed once.  Over any run of requests to an
    instance with no semaphore yet, in every configuration: if none of them
    is [semaphore()], nothing is filled and there is still no semaphore;
    otherwise there is exactly one fill, of [sizeof(unsigned int)] zero
    bytes at the semaphore's address, on the instance's stream. *)
Theorem semaphore_is_zeroed_once qs self s self' s' :
  semaphore_ self = NULL →
  serve_all cfg qs self s = Ok (self', s') →
  ∃ calls, trace s' = trace s ++ calls ∧
    if existsb asks_semaphore qs
    then semaphore_ self' ≠ NULL ∧
         ∃ h, stream self s = Ok (h, s) ∧
              fills calls
              = [CMemsetAsync (semaphore_ self') 0 sizeof_unsigned_int h]
    else fills calls = [] ∧ semaphore_ self' = NULL.
Proof.
  intros Hn Hrun.
  destruct (serve_all_calls _ _ _ _ _ Hrun) as (calls & Ht & _ & Hf).
  exists calls. split; [done|].
  rewrite Hn in Hf. change (NULL =? NULL)%N with true in Hf.
  rewrite andb_true_r in Hf.
  by destruct (existsb asks_semaphore qs).
Qed.

(** X14.  A block from [allocate()] can be given back.  Where [assert]
    checks and [allocate()] returned, the block is not null, so
    [deallocate()] of it fails only if the runtime refuses to select the
    device or to free the block; and when it returns, the four calls made
    are: select the device, allocate, select the device, free that
    block. *)
Theorem allocate_then_deallocate num_bytes self s p s1 :
  asserts_erased cfg = false →
  allocate cfg num_bytes self s = Ok (p, s1) →
  p ≠ NULL ∧
  let err := (rt_gpuSetDevice (device_ self) (rt s1)).1 in
  let s2 := after (CSetDevice (device_ self))
                  (rt_gpuSetDevice (device_ self)) s1 in
  let err' := (rt_gpuFree p (rt s2)).1 in
  deallocate cfg p self s1
    = (if is_success err && is_success err'
       then Ok (tt, after (CFree p) (rt_gpuFree p) s2) else Err Fatal) ∧
  ∀ s3, deallocate cfg p self s1 = Ok (tt, s3) →
    issues s s3 [CSetDevice (device_ self); CMalloc num_bytes;
                 CSetDevice (device_ self); CFree p].
Proof.
  intros Hchk Ha.
  destruct (allocate_Ok cfg _ _ _ _ _ Ha) as [Hiss Hp].
  specialize (Hp Hchk). split; [done|]. cbv zeta. split.
  - rewrite deallocate_eq, Hchk. cbv zeta.
    assert ((p =? NULL)%N = false) as -> by (by apply N.eqb_neq).
    simpl. rewrite andb_true_r.
    by destruct (is_success _), (is_success _).
  - intros s3 Hd%deallocate_Ok.
    exact (issues_trans s s1 s3 [_; _] [_; _] Hiss Hd).
Qed.

(** X19.  Where [assert] is erased and the scratch allocation leaves a
    null pointer, [semaphore()] goes on to compute [NULL + kGpuScratchSize]:
    arithmetic on a null pointer, which is undefined.  With [assert] in
    place the same allocation aborts. *)
Theorem semaphore_after_failed_allocation self s :
  scratch_ self = NULL → semaphore_ self = NULL →
  let s1 := after (CSetDevice (device_ self))
                  (rt_gpuSetDevice (device_ self)) s in
  (rt_gpuMalloc (kGpuScratchSize + sizeof_unsigned_int) (rt s1)).1.2 = NULL →
  semaphore cfg self s
    = if asserts_erased cfg then Err Undefined else Err Fatal.
Proof.
  intros Hsc Hsem. cbv zeta. intros Hnull.
  unfold semaphore, scratchpad. rewrite Hsem, Hsc.
  change (NULL =? NULL)%N with true. cbv iota.
  unfold bind at 1 2. rewrite allocate_eq. cbv zeta.
  rewrite Hnull. change (NULL =? NULL)%N with true.
  rewrite andb_false_r. by destruct (asserts_erased cfg).
Qed.

End Memory.

(** ** Facades that share a stream device *)

Section Shared.
Context `{Runtime}.
Variable cfg : Config.

Lemma through_again {A} (a b : GpuDevice.t)
    (method : GpuStreamDevice.t → M Sys (A * GpuStreamDevice.t))
    (w w1 : GpuDevice.World (T:=GpuStreamDevice.t)) x :
  GpuDevice.stream_ b = GpuDevice.stream_ a →
  GpuDevice.through a method w = Ok (x, w1) →
  (∀ o s o' s', method o s = Ok ((x, o'), s') → method o' s' = Ok ((x, o'), s')) →
  GpuDevice.through b method w1 = Ok (x, w1).
Proof.
  intros Hab Hthrough Hagain. unfold GpuDevice.through in *. rewrite Hab.
  destruct (w.1 !! GpuDevice.stream_ a) as [o|] eqn:Ho; [|discriminate].
  destruct (method o w.2) as [[[x' o'] s']|] eqn:Hm; [|discriminate].
  simplify_eq. simpl. rewrite lookup_insert_eq.
  rewrite (Hagain _ _ _ _ Hm). by rewrite insert_insert_eq.
Qed.

(** X15.  Facades share the scratch block of the stream device they point
    to.  When two [GpuDevice] objects hold the same [StreamInterface]
    pointer to a [GpuStreamDevice], and [scratchpad()] of the one returned a
    block that is not null (where [assert] checks it never is), then
    [scratchpad()] of the other returns the same block and calls nothing;
    and likewise [semaphore()], in every configuration. *)
Theorem facades_share_the_scratch_block (a b : GpuDevice.t)
    (w w1 : GpuDevice.World (T:=GpuStreamDevice.t)) p :
  GpuDevice.stream_ b = GpuDevice.stream_ a →
  (GpuDevice.scratchpad
     (StreamInterface0 := GpuStreamDevice.streamInterface cfg) a w
     = Ok (p, w1) →
   asserts_erased cfg = false ∨ p ≠ NULL →
   p ≠ NULL ∧
   GpuDevice.scratchpad
     (StreamInterface0 := GpuStreamDevice.streamInterface cfg) b w1
     = Ok (p, w1)) ∧
  (GpuDevice.semaphore
     (StreamInterface0 := GpuStreamDevice.streamInterface cfg) a w
     = Ok (p, w1) →
   p ≠ NULL ∧
   GpuDevice.semaphore
     (StreamInterface0 := GpuStreamDevice.streamInterface cfg) b w1
     = Ok (p, w1)).
Proof.
  intros Hab. split.
  - intros Hs Hp.
    assert (p ≠ NULL) as Hnn.
    { destruct Hp as [Hchk|]; [|done].
      unfold GpuDevice.scratchpad, GpuDevice.through in Hs.
      destruct (w.1 !! GpuDevice.stream_ a) as [o|]; [|discriminate].
      simpl in Hs.
      destruct (scratchpad cfg o w.2) as [[[p' o'] s']|] eqn:Hm; [|discriminate].
      simplify_eq. apply scratchpad_Ok in Hm as (_ & _ & Hx & _). by apply Hx. }
    split; [done|].
    eapply through_again; [done|exact Hs|]. simpl.
    intros o s o' s' (Hsc & _)%scratchpad_Ok.
    rewrite <- Hsc in *. by apply scratchpad_cached.
  - intros Hs.
    assert (∀ o s o' s', semaphore cfg o s = Ok ((p, o'), s') →
              semaphore_ o' = p ∧ p ≠ NULL) as Hsem.
    { intros o s o' s' Hm.
      destruct (decide (semaphore_ o = NULL)) as [Hn|Hn].
      - destruct (semaphore_first cfg _ _ _ _ _ Hn Hm)
          as (p0 & o0 & s0 & h & _ & _ & -> & -> & _).
        simpl. split; [done|]. unfold NULL, kGpuScratchSize. lia.
      - rewrite semaphore_cached in Hm by done. by simplify_eq. }
    split.
    + unfold GpuDevice.semaphore, GpuDevice.through in Hs.
      destruct (w.1 !! GpuDevice.stream_ a) as [o|]; [|discriminate].
      simpl in Hs.
      destruct (semaphore cfg o w.2) as [[[p' o'] s']|] eqn:Hm; [|discriminate].
      simplify_eq. by destruct (Hsem _ _ _ _ Hm).
    + eapply through_again; [done|exact Hs|]. simpl.
      intros o s o' s' [Hq Hnn]%Hsem.
      rewrite <- Hq in *. by apply semaphore_cached.
Qed.

End Shared.

Import Scripted.

Lemma allocations_follow_set_device_witness :
  ∃ self s s',
    serve_all hip_device_cfg [Allocate 256; Semaphore; Scratchpad; Deallocate 4096%N]
      Sample.stream_device (Sample.process (with_mallocs
        [(gpuSuccess, 4096%N); (gpuSuccess, 8192%N)] healthy)) = Ok (self, s) ∧
    destroy hip_device_cfg self s = Ok (tt, s') ∧
    pinned 0 (trace s') = true.
Proof.
  eassert (H1 : serve_all hip_device_cfg
                  [Allocate 256; Semaphore; Scratchpad; Deallocate 4096%N]
                  Sample.stream_device
                  (Sample.process (with_mallocs
                     [(gpuSuccess, 4096%N); (gpuSuccess, 8192%N)] healthy))
                = Ok (_, _))
    by (vm_compute; reflexivity).
  lazymatch type of H1 with
  | _ = Ok (?self, ?s) =>
      eassert (H2 : destroy hip_device_cfg self s = Ok (tt, _))
        by (vm_compute; reflexivity)
  end.
  destruct (allocations_follow_set_device _ _ _ _ _ _ H1) as [_ Hall].
  destruct (Hall _ H2) as (calls & Ht & Hp).
  eexists _, _, _. split; [exact H1|]. split; [exact H2|].
  rewrite Ht. exact Hp.
Defined.

Lemma semaphore_is_zeroed_once_witness :
  ∃ self s,
    serve_all release_cfg [Semaphore; Stream; Semaphore; Scratchpad; Semaphore]
      Sample.stream_device (Sample.process healthy) = Ok (self, s) ∧
    fills (trace s) = [CMemsetAsync 5120%N 0 4%N 0%N].
Proof.
  eassert (H1 : serve_all release_cfg
                  [Semaphore; Stream; Semaphore; Scratchpad; Semaphore]
                  Sample.stream_device (Sample.process healthy) = Ok (_, _))
    by (vm_compute; reflexivity).
  destruct (semaphore_is_zeroed_once release_cfg
              [Semaphore; Stream; Semaphore; Scratchpad; Semaphore]
              Sample.stream_device (Sample.process healthy) _ _ eq_refl H1)
    as (calls & Ht & _ & h & Hh & Hf).
  eexists _, _. split; [exact H1|].
  rewrite Ht. simpl. unfold stream, ret in Hh. simpl in Hh.
  injection Hh as <-. exact Hf.
Defined.

Lemma allocate_then_deallocate_witness :
  ∃ s1 s2,
    allocate host_cfg 256 Sample.stream_device (Sample.process healthy)
      = Ok (4096%N, s1) ∧
    deallocate host_cfg 4096%N Sample.stream_device s1 = Ok (tt, s2) ∧
    trace s2 = [CSetDevice 0; CMalloc 256; CSetDevice 0; CFree 4096%N].
Proof.
  eassert (H1 : allocate host_cfg 256 Sample.stream_device
                  (Sample.process healthy) = Ok (4096%N, _))
    by (vm_compute; reflexivity).
  destruct (allocate_then_deallocate host_cfg _ _ _ _ _ eq_refl H1)
    as (_ & Heq & Hiss).
  lazymatch type of H1 with
  | _ = Ok (_, ?s1) =>
      eassert (H2 : deallocate host_cfg 4096%N Sample.stream_device s1
                    = Ok (tt, _)) by (vm_compute; reflexivity)
  end.
  destruct (Hiss _ H2) as (Ht & _).
  eexists _, _. split; [exact H1|]. split; [exact H2|exact Ht].
Defined.

Lemma semaphore_after_failed_allocation_witness :
  semaphore release_cfg Sample.stream_device (Sample.process exhausted)
  = Err Undefined.
Proof.
  exact (semaphore_after_failed_allocation release_cfg Sample.stream_device
           (Sample.process exhausted) eq_refl eq_refl eq_refl).
Defined.

Lemma facades_share_the_scratch_block_witness :
  ∃ w1,
    GpuDevice.scratchpad
      (StreamInterface0 := GpuStreamDevice.streamInterface host_cfg)
      Sample.facade (Sample.world healthy) = Ok (4096%N, w1) ∧
    GpuDevice.scratchpad
      (StreamInterface0 := GpuStreamDevice.streamInterface host_cfg)
      {| GpuDevice.stream_ := 16%N; GpuDevice.max_blocks_ := 8 |} w1
      = Ok (4096%N, w1).
Proof.
  eassert (H1 : GpuDevice.scratchpad
                  (StreamInterface0 := GpuStreamDevice.streamInterface host_cfg)
                  Sample.facade (Sample.world healthy) = Ok (4096%N, _))
    by (vm_compute; reflexivity).
  eexists. split; [exact H1|].
  lazymatch type of H1 with
  | _ = Ok (_, ?w1) =>
      exact (proj2 (proj1 (facades_share_the_scratch_block host_cfg
               Sample.facade
               {| GpuDevice.stream_ := 16%N; GpuDevice.max_blocks_ := 8 |}
               (Sample.world healthy) w1 4096%N eq_refl)
             H1 (or_introl eq_refl)))
  end.
Defined.

End MemoryFacts.

(** ** The facade's operations on the stream *)

Module FacadeFacts.
Import GpuDevice.

Section AnyStream.
Context `{Runtime} {T : Type} `{!StreamInterface T}.
Variable cfg : Config.

(** An asynchronous operation followed by its error check, [assert] in
    place. *)
Lemma checked_async (self : t) (w w1 : World (T:=T)) h
    (c : gpuStream_t → Call) (f : gpuStream_t → RT → gpuError_t * RT) :
  asserts_erased cfg = false →
  stream self w = Ok (h, w1) →
  (h <- through self si_stream;
   err <- host (call (c h) (f h));
   assert cfg (ret (is_success err))) w
  = if is_success (f h (rt w1.2)).1
    then Ok (tt, (w1.1, after (c h) (f h) w1.2)) else Err Fatal.
Proof.
  intros Hchk Hs. unfold stream in Hs.
  erewrite bind_eq by exact Hs. unfold bind, host.
  rewrite call_eq, assert_checked by done.
  by destruct (is_success _).
Qed.

(** X16.  With [assert] in place, the asynchronous operations of the
    facade check what the runtime reports.  On the stream [h] of the stream
    device, [memcpyHostToDevice] and [memcpyDeviceToHost], and in host code
    (no [EIGEN_GPU_COMPILE_PHASE]) [memcpy], each issue one
    [gpuMemcpyAsync] of their own kind on [h], and [memset] in host code
    one [gpuMemsetAsync] on [h]; each returns if the status is [gpuSuccess]
    and aborts otherwise.  In a GPU compile phase [memcpy] and [memset]
    issue nothing: they are [eigen_assert(false)], which aborts where
    [eigen_assert] checks and does nothing otherwise.  The launch macro
    launches on [h], then reads [gpuGetLastError()] and aborts unless it is
    [gpuSuccess].  None of them waits for the stream. *)
Theorem async_operations_check_the_status (self : t) (w w1 : World (T:=T)) h
    dst src n c kernel grid block shared :
  asserts_erased cfg = false →
  stream self w = Ok (h, w1) →
  let copy kind :=
    if is_success (rt_gpuMemcpyAsync dst src n kind h (rt w1.2)).1
    then Ok (tt, (w1.1, after (CMemcpyAsync dst src n kind h)
                          (rt_gpuMemcpyAsync dst src n kind h) w1.2))
    else Err Fatal in
  let stub := if eigen_assert_enabled cfg then Err Fatal else Ok (tt, w) in
  memcpyHostToDevice cfg dst src n self w = copy gpuMemcpyHostToDevice ∧
  memcpyDeviceToHost cfg dst src n self w = copy gpuMemcpyDeviceToHost ∧
  memcpy cfg dst src n self w
    = (if EIGEN_GPU_COMPILE_PHASE cfg then stub
       else copy gpuMemcpyDeviceToDevice) ∧
  memset cfg dst c n self w
    = (if EIGEN_GPU_COMPILE_PHASE cfg then stub
       else if is_success (rt_gpuMemsetAsync dst c n h (rt w1.2)).1
            then Ok (tt, (w1.1, after (CMemsetAsync dst c n h)
                                  (rt_gpuMemsetAsync dst c n h) w1.2))
            else Err Fatal) ∧
  (let s2 := after (CLaunch kernel grid block shared h)
               (λ r, (tt, rt_launch kernel grid block shared h r)) w1.2 in
   LAUNCH_GPU_KERNEL cfg kernel grid block shared self w
   = if is_success (rt_gpuGetLastError (rt s2)).1
     then Ok (tt, (w1.1, after CGetLastError rt_gpuGetLastError s2))
     else Err Fatal).
Proof.
  intros Hchk Hs. cbv zeta. split_and!.
  - apply (checked_async self w w1 h
             (CMemcpyAsync dst src n gpuMemcpyHostToDevice)
             (rt_gpuMemcpyAsync dst src n gpuMemcpyHostToDevice) Hchk Hs).
  - apply (checked_async self w w1 h
             (CMemcpyAsync dst src n gpuMemcpyDeviceToHost)
             (rt_gpuMemcpyAsync dst src n gpuMemcpyDeviceToHost) Hchk Hs).
  - unfold memcpy. destruct (EIGEN_GPU_COMPILE_PHASE cfg); simpl.
    + unfold eigen_assert. by destruct (eigen_assert_enabled cfg).
    + apply (checked_async self w w1 h
               (CMemcpyAsync dst src n gpuMemcpyDeviceToDevice)
               (rt_gpuMemcpyAsync dst src n gpuMemcpyDeviceToDevice) Hchk Hs).
  - unfold memset. destruct (EIGEN_GPU_COMPILE_PHASE cfg); simpl.
    + unfold eigen_assert. by destruct (eigen_assert_enabled cfg).
    + apply (checked_async self w w1 h
               (CMemsetAsync dst c n) (rt_gpuMemsetAsync dst c n) Hchk Hs).
  - unfold LAUNCH_GPU_KERNEL. erewrite bind_eq by exact Hs.
    unfold bind, host, launch, assert, gpuGetLastError.
    rewrite call_eq, Hchk. unfold call, after, bind, ret. simpl.
    by destruct (is_success _).
Qed.

(** X17.  [synchronize()] never passes over a failed stream in silence.
    Host code built by a GPU compiler: it waits for the stream [h] of the
    stream device; on [gpuSuccess] it returns and prints nothing; on any
    other status it aborts where [assert] checks, and where [assert] is
    erased it prints one line, "Error detected in GPU stream: " and the
    runtime's text for the status, and returns.  Built otherwise, it asks
    nothing of the stream device or the runtime: it aborts where [assert]
    checks and does nothing where it is erased. *)
Theorem synchronize_reports_failure (self : t) (w w1 : World (T:=T)) h :
  stream self w = Ok (h, w1) →
  let err := (rt_gpuStreamSynchronize h (rt w1.2)).1 in
  let s2 := after (CStreamSynchronize h) (rt_gpuStreamSynchronize h) w1.2 in
  (EIGEN_GPUCC cfg = true → EIGEN_GPU_COMPILE_PHASE cfg = false →
   synchronize cfg self w
   = if is_success err then Ok (tt, (w1.1, s2))
     else if asserts_erased cfg
          then Ok (tt, (w1.1,
                        print ("Error detected in GPU stream: "
                               +:+ rt_gpuGetErrorString err) s2))
          else Err Fatal) ∧
  (EIGEN_GPUCC cfg = false ∨ EIGEN_GPU_COMPILE_PHASE cfg = true →
   synchronize cfg self w = if asserts_erased cfg then Ok (tt, w) else Err Fatal).
Proof.
  intros Hs. cbv zeta. split.
  - intros Hcc Hph. unfold synchronize. rewrite Hcc, Hph. simpl.
    unfold stream in Hs. erewrite bind_eq by exact Hs.
    unfold bind, host, gpuStreamSynchronize. rewrite call_eq.
    unfold when, cerr_println, modify, assert, bind, ret, fail. simpl.
    destruct (is_success _); simpl; [done|].
    by destruct (asserts_erased cfg).
  - intros Hno. unfold synchronize, assert, bind, ret, fail.
    assert (EIGEN_GPUCC cfg && negb (EIGEN_GPU_COMPILE_PHASE cfg) = false)
      as -> by (destruct Hno as [-> | ->]; [done|apply andb_false_r]).
    by destruct (asserts_erased cfg).
Qed.

End AnyStream.

Import Scripted.

(** A copy to the device on a healthy runtime, and on one that refuses
    asynchronous work; and a fill in the CUDA device-side pass. *)
Lemma async_operations_check_the_status_witness :
  (∃ w', memcpyHostToDevice
           (StreamInterface0 := GpuStreamDevice.streamInterface host_cfg)
           host_cfg 4096%N 512%N 64%N Sample.facade (Sample.world healthy)
         = Ok (tt, w')) ∧
  memcpyHostToDevice
    (StreamInterface0 := GpuStreamDevice.streamInterface host_cfg)
    host_cfg 4096%N 512%N 64%N Sample.facade (Sample.world Further.no_devices)
  = Err Fatal ∧
  memset
    (StreamInterface0 :=
       GpuStreamDevice.streamInterface ErasedWording.cuda_device_cfg)
    ErasedWording.cuda_device_cfg 4096%N 0%Z 64%N Sample.facade
    (Sample.world healthy)
  = Err Fatal.
Proof.
  split_and!.
  - eexists.
    rewrite (proj1 (async_operations_check_the_status
               (StreamInterface0 := GpuStreamDevice.streamInterface host_cfg)
               host_cfg Sample.facade (Sample.world healthy)
               (Sample.world healthy) 0%N 4096%N 512%N 64%N 0%Z
               0%N 1%N 1%N 0%N eq_refl ltac:(vm_compute; reflexivity))).
    vm_compute. reflexivity.
  - rewrite (proj1 (async_operations_check_the_status
               (StreamInterface0 := GpuStreamDevice.streamInterface host_cfg)
               host_cfg Sample.facade (Sample.world Further.no_devices)
               (Sample.world Further.no_devices) 0%N 4096%N 512%N 64%N 0%Z
               0%N 1%N 1%N 0%N eq_refl ltac:(vm_compute; reflexivity))).
    vm_compute. reflexivity.
  - exact (proj1 (proj2 (proj2 (proj2 (async_operations_check_the_status
               (StreamInterface0 :=
                  GpuStreamDevice.streamInterface ErasedWording.cuda_device_cfg)
               ErasedWording.cuda_device_cfg Sample.facade
               (Sample.world healthy) (Sample.world healthy)
               0%N 4096%N 512%N 64%N 0%Z
               0%N 1%N 1%N 0%N eq_refl ltac:(vm_compute; reflexivity)))))).
Defined.

(** A release build on a stream that has recorded an error: the line is
    printed and [synchronize()] returns. *)
Lemma synchronize_reports_failure_witness :
  ∃ w', synchronize
          (StreamInterface0 := GpuStreamDevice.streamInterface release_cfg)
          release_cfg Sample.facade (Sample.world broken_stream) = Ok (tt, w') ∧
        cerr w'.2 = ["Error detected in GPU stream: unspecified failure"].
Proof.
  eexists.
  rewrite (proj1 (synchronize_reports_failure
             (StreamInterface0 := GpuStreamDevice.streamInterface release_cfg)
             release_cfg Sample.facade (Sample.world broken_stream)
             (Sample.world broken_stream) 0%N
             ltac:(vm_compute; reflexivity)) eq_refl eq_refl).
  split; vm_compute; reflexivity.
Defined.

End FacadeFacts.

Module CapabilityFacts.

Section OverStreamDevice.
Context `{Runtime}.
Variable cfg : Config.

Lemma through_deviceProperties (self : GpuDevice.t)
    (w : GpuDevice.World (T:=GpuStreamDevice.t)) o p s1 :
  w.1 !! GpuDevice.stream_ self = Some o →
  GpuStreamDevice.deviceProperties o w.2 = Ok (p, s1) →
  s1 = w.2 ∧
  GpuDevice.through self
    (si_deviceProperties (StreamInterface := GpuStreamDevice.streamInterface cfg))
    w = Ok (p, w).
Proof.
  intros Ho Hp. pose proof (MemoryFacts.deviceProperties_Ok _ _ _ _ Hp) as ->.
  split; [done|]. unfold GpuDevice.through. rewrite Ho. simpl.
  unfold bind, ret. rewrite Hp. rewrite insert_id by done. by destruct w.
Qed.

Lemma to_int_in_range z :
  (- 2 ^ 31 ≤ z ≤ INT_MAX)%Z → to_int z = z.
Proof.
  unfold to_int, INT_MAX. intros Hz.
  rewrite Z.mod_small by lia. lia.
Qed.

Lemma to_int_range z : (- 2 ^ 31 ≤ to_int z ≤ INT_MAX)%Z.
Proof.
  unfold to_int, INT_MAX.
  pose proof (Z.mod_pos_bound (z + 2 ^ 31) (2 ^ 32) ltac:(lia)). lia.
Qed.

(** X18.  The capability getters of the facade answer from the cached
    record of the device its stream device is bound to.  When
    [deviceProperties()] of the [GpuStreamDevice] the facade points to
    returns the record [p], five getters return the [int] fields of [p] as
    they are, and [sharedMemPerBlock()] returns the [size_t] field
    converted to [int]: the field itself when it is at most [INT_MAX], and
    otherwise the field reduced modulo 2^32 into the range of [int].  They
    ask nothing of the runtime and change neither the process nor the
    stream device. *)
Theorem getters_read_the_bound_device (self : GpuDevice.t)
    (w : GpuDevice.World (T:=GpuStreamDevice.t)) o p s1 :
  w.1 !! GpuDevice.stream_ self = Some o →
  GpuStreamDevice.deviceProperties o w.2 = Ok (p, s1) →
  s1 = w.2 ∧
  GpuDevice.getNumGpuMultiProcessors
    (StreamInterface0 := GpuStreamDevice.streamInterface cfg) self w
    = Ok (multiProcessorCount p, w) ∧
  GpuDevice.maxGpuThreadsPerBlock
    (StreamInterface0 := GpuStreamDevice.streamInterface cfg) self w
    = Ok (maxThreadsPerBlock p, w) ∧
  GpuDevice.maxGpuThreadsPerMultiProcessor
    (StreamInterface0 := GpuStreamDevice.streamInterface cfg) self w
    = Ok (maxThreadsPerMultiProcessor p, w) ∧
  GpuDevice.sharedMemPerBlock
    (StreamInterface0 := GpuStreamDevice.streamInterface cfg) self w
    = Ok (to_int (sharedMemPerBlock p), w) ∧
  ((to_int (sharedMemPerBlock p) - sharedMemPerBlock p) mod 2 ^ 32 = 0)%Z ∧
  (- 2 ^ 31 ≤ to_int (sharedMemPerBlock p) ≤ INT_MAX)%Z ∧
  ((0 ≤ sharedMemPerBlock p ≤ INT_MAX)%Z →
   GpuDevice.sharedMemPerBlock
     (StreamInterface0 := GpuStreamDevice.streamInterface cfg) self w
     = Ok (sharedMemPerBlock p, w)) ∧
  GpuDevice.majorDeviceVersion
    (StreamInterface0 := GpuStreamDevice.streamInterface cfg) self w
    = Ok (major p, w) ∧
  GpuDevice.minorDeviceVersion
    (StreamInterface0 := GpuStreamDevice.streamInterface cfg) self w
    = Ok (minor p, w).
Proof.
  intros Ho Hp.
  destruct (through_deviceProperties self w o p s1 Ho Hp) as [-> Ht].
  split; [done|].
  unfold GpuDevice.getNumGpuMultiProcessors, GpuDevice.maxGpuThreadsPerBlock,
    GpuDevice.maxGpuThreadsPerMultiProcessor, GpuDevice.sharedMemPerBlock,
    GpuDevice.majorDeviceVersion, GpuDevice.minorDeviceVersion.
  rewrite !(bind_eq _ _ _ _ _ Ht). split_and!; try done.
  - unfold to_int.
    replace ((sharedMemPerBlock p + 2 ^ 31) mod 2 ^ 32 - 2 ^ 31
             - sharedMemPerBlock p)%Z
      with ((sharedMemPerBlock p + 2 ^ 31) mod 2 ^ 32
            - (sharedMemPerBlock p + 2 ^ 31))%Z by lia.
    rewrite Zminus_mod, Z.mod_mod by lia.
    rewrite Z.sub_diag. done.
  - apply to_int_range.
  - apply to_int_range.
  - intros Hr. rewrite to_int_in_range; [done|].
    unfold INT_MAX in *. lia.
Qed.

End OverStreamDevice.

Import Scripted.

(** A record whose shared memory size does not fit an [int]. *)
Lemma getters_read_the_bound_device_witness :
  let p := {| multiProcessorCount := 80; maxThreadsPerBlock := 1024;
              maxThreadsPerMultiProcessor := 2048;
              sharedMemPerBlock := 4294967301; major := 7; minor := 0 |} in
  let s := set_m_deviceProperties (Some [Some p]) (Sample.process healthy) in
  GpuDevice.getNumGpuMultiProcessors
    (StreamInterface0 := GpuStreamDevice.streamInterface host_cfg)
    Sample.facade ({[ 16%N := Sample.stream_device ]}, s)
    = Ok (80%Z, ({[ 16%N := Sample.stream_device ]}, s)) ∧
  GpuDevice.sharedMemPerBlock
    (StreamInterface0 := GpuStreamDevice.streamInterface host_cfg)
    Sample.facade ({[ 16%N := Sample.stream_device ]}, s)
    = Ok (5%Z, ({[ 16%N := Sample.stream_device ]}, s)).
Proof.
  cbv zeta.
  set (p := {| multiProcessorCount := 80; maxThreadsPerBlock := 1024;
               maxThreadsPerMultiProcessor := 2048;
               sharedMemPerBlock := 4294967301; major := 7; minor := 0 |}).
  set (s := set_m_deviceProperties (Some [Some p]) (Sample.process healthy)).
  assert (H2 : ({[ 16%N := Sample.stream_device ]}
                  : gmap N GpuStreamDevice.t)
                 !! GpuDevice.stream_ Sample.facade
               = Some Sample.stream_device) by (vm_compute; reflexivity).
  assert (H3 : GpuStreamDevice.deviceProperties Sample.stream_device s
               = Ok (p, s)) by reflexivity.
  destruct (getters_read_the_bound_device (H:=runtime) host_cfg
              Sample.facade ({[ 16%N := Sample.stream_device ]}, s)
              Sample.stream_device p s H2 H3)
    as (_ & Hn & _ & _ & Hsh & _).
  split; [exact Hn|exact Hsh].
Defined.

End CapabilityFacts.
